(** * scripts/generate_day.py: a shallow embedding and its properties

    The script synthesises one day of per-timestamp ridership estimates for
    every (station, line) pair of a transit network.  This development
    embeds it function by function:

    - Python values loaded by [json.load] / [yaml.safe_load] are the
      inductive [value]; a Python [dict] with string keys is a [gmap string
      value];
    - Python floats are IEEE-754 binary64 numbers, taken from the Standard
      Library's [SpecFloat] (the executable specification, no primitive
      floats); Python ints are [Z];
    - a raised exception is the [Raise] constructor of [result];
    - what the script prints and writes is a list of [event]s threaded
      through the state of the main loop. *)

From Stdlib Require Import ZArith String Ascii List Bool Lia.
From Stdlib Require Import SpecFloat.
From stdpp Require Import base option gmap strings list.

#[local] Set Warnings "-register-all".
#[local] Open Scope Z_scope.

(* ===================================================================== *)
(** ** Exceptions and the error monad *)
(* ===================================================================== *)

(** The exceptions the script can raise.  [Unsupported] is not a Python
    exception: it marks an input outside the modelled fragment (a
    dictionary key that is not a string, a schedule entry that is not an
    int, a pandas frequency that is not positive). *)
Inductive exn :=
  | KeyError
  | IndexError
  | TypeError
  | ValueError
  | AttributeError
  | ZeroDivisionError
  | OverflowError
  | SystemExit
  | Unsupported.

Inductive result (A : Type) :=
  | Ok (a : A)
  | Raise (e : exn).
Arguments Ok {A} a.
Arguments Raise {A} e.

#[global] Instance result_ret : MRet result := fun A a => Ok a.
#[global] Instance result_bind : MBind result := fun A B f m =>
  match m with
  | Ok a => f a
  | Raise e => Raise e
  end.

Definition is_ok {A} (r : result A) : bool :=
  match r with Ok _ => true | Raise _ => false end.

(* ===================================================================== *)
(** ** Python floats: IEEE-754 binary64 *)
(* ===================================================================== *)

Module PyFloat.

Definition prec : Z := 53.
Definition emax : Z := 1024.

Abbreviation float := spec_float.

(** [float(z)] for an int that fits: round to nearest, ties to even. *)
Definition of_Z (z : Z) : float := binary_normalize prec emax z 0 false.

Definition mul : float -> float -> float := SFmul prec emax.
Definition div : float -> float -> float := SFdiv prec emax.

(** [x == 0.0] (both signed zeros). *)
Definition is_zero (x : float) : bool :=
  match x with S754_zero _ => true | _ => false end.

Definition is_inf (x : float) : bool :=
  match x with S754_infinity _ => true | _ => false end.

(** [x > 0.0]. *)
Definition is_pos (x : float) : bool :=
  match x with
  | S754_finite false _ _ | S754_infinity false => true
  | _ => false
  end.

(** [PyLong_AsDouble]: an int too large for a double raises. *)
Definition of_int (z : Z) : result float :=
  let f := of_Z z in
  if is_inf f then Raise OverflowError else Ok f.

(** The float literals of the script. *)
Definition f60 : float := of_Z 60.
Definition f100 : float := of_Z 100.
(** [0.4]: the double nearest to 4/10. *)
Definition f0_4 : float := div (of_Z 4) (of_Z 10).

(** The integer nearest to [n / d], ties to even ([0 <= n], [0 < d]). *)
Definition round_half_even (n d : Z) : Z :=
  let q := n / d in
  match (2 * (n mod d) ?= d) with
  | Lt => q
  | Gt => q + 1
  | Eq => if Z.even q then q else q + 1
  end.

(** The integer nearest to [m * 2^e * k], ties to even. *)
Definition scaled_magnitude (m : positive) (e : Z) (k : Z) : Z :=
  if 0 <=? e then Zpos m * 2 ^ e * k
  else round_half_even (Zpos m * k) (2 ^ (- e)).

(** [round(x, ndigits)] on a float, [0 <= ndigits <= 323]: the exact
    binary value of [x] is rounded half-even to [ndigits] decimals (what
    [_Py_dg_dtoa] in mode 3 returns), and the decimal is converted back
    to the nearest double ([_Py_dg_strtod]); zeros, infinities and NaN
    round to themselves; a result that overflows raises. *)
Definition round_ndigits (x : float) (ndigits : N) : result float :=
  match x with
  | S754_finite s m e =>
      let k := 10 ^ Z.of_N ndigits in
      match scaled_magnitude m e k with
      | Zpos n =>
          let r := div (S754_finite s n 0) (S754_finite false (Z.to_pos k) 0) in
          if is_inf r then Raise OverflowError else Ok r
      | _ => Ok (S754_zero s)
      end
  | _ => Ok x
  end.

(** [round(x)] on a float: the nearest int, ties to even; an infinity
    raises [OverflowError] and a NaN [ValueError]. *)
Definition round_int (x : float) : result Z :=
  match x with
  | S754_zero _ => Ok 0
  | S754_finite s m e =>
      let n := scaled_magnitude m e 1 in Ok (if s then - n else n)
  | S754_infinity _ => Raise OverflowError
  | S754_nan => Raise ValueError
  end.

End PyFloat.

Abbreviation float := spec_float.

(* ===================================================================== *)
(** ** Python values *)
(* ===================================================================== *)

(** What [json.load] and [yaml.safe_load] return.  Dictionary keys are
    strings. *)
Inductive value :=
  | VNone
  | VBool (b : bool)
  | VInt (z : Z)
  | VFloat (f : float)
  | VStr (s : string)
  | VList (l : list value)
  | VDict (d : gmap string value).

Abbreviation dict := (gmap string value).

(** Truth value testing ([if x], [not x], [x or y]). *)
Definition truthy (v : value) : bool :=
  match v with
  | VNone => false
  | VBool b => b
  | VInt z => negb (z =? 0)
  | VFloat f => negb (PyFloat.is_zero f)
  | VStr s => negb (String.eqb s "")
  | VList l => match l with [] => false | _ => true end
  | VDict d => negb (bool_decide (d = ∅))
  end.

(** [a or b]. *)
Definition py_or (a b : value) : value := if truthy a then a else b.

(** [d.get(k)] on a dict with a string key. *)
Definition dict_get (d : dict) (k : string) : value := default VNone (d !! k).

(** [v.get(k)]: only a dict has the method. *)
Definition py_get (v : value) (k : string) : result value :=
  match v with
  | VDict d => Ok (dict_get d k)
  | _ => Raise AttributeError
  end.

(** [v[k]] with a string key [k]: a missing key raises [KeyError]; a list,
    a string or a scalar cannot be indexed by a string. *)
Definition subscript (v : value) (k : string) : result value :=
  match v with
  | VDict d => match d !! k with Some x => Ok x | None => Raise KeyError end
  | _ => Raise TypeError
  end.

(** [d.get(key)] where the key is itself a loaded value: a string is looked
    up, a list or a dict is unhashable, any other scalar is not a key of a
    string-keyed dict. *)
Definition dict_get_value (d : dict) (key : value) : result value :=
  match key with
  | VStr k => Ok (dict_get d k)
  | VList _ | VDict _ => Raise TypeError
  | _ => Ok VNone
  end.

(** The elements a [for] loop or a comprehension visits. *)
Definition py_iter (v : value) : result (list value) :=
  match v with
  | VList l => Ok l
  | VStr s => Ok ((fun c => VStr (String c EmptyString)) <$> list_ascii_of_string s)
  | VDict d => Ok ((fun kv => VStr kv.1) <$> map_to_list d)
  | _ => Raise TypeError
  end.

(** [len(v)]. *)
Definition py_len (v : value) : result Z :=
  match v with
  | VList l => Ok (Z.of_nat (length l))
  | VStr s => Ok (Z.of_nat (String.length s))
  | VDict d => Ok (Z.of_nat (size d))
  | _ => Raise TypeError
  end.

(** [v[i]] with an int index [0 <= i < len(v)]. *)
Definition py_index (v : value) (i : Z) : result value :=
  match v with
  | VList l =>
      match l !! Z.to_nat i with Some x => Ok x | None => Raise IndexError end
  | VStr s =>
      match String.get (Z.to_nat i) s with
      | Some c => Ok (VStr (String c EmptyString))
      | None => Raise IndexError
      end
  | VDict _ => Raise KeyError
  | _ => Raise TypeError
  end.

(** Numbers: [bool] is a subclass of [int]. *)
Inductive number :=
  | NInt (z : Z)
  | NFloat (f : float).

Definition as_number (v : value) : option number :=
  match v with
  | VBool b => Some (NInt (if b then 1 else 0))
  | VInt z => Some (NInt z)
  | VFloat f => Some (NFloat f)
  | _ => None
  end.

(** The conversion of the right operand of a float operation. *)
Definition to_float (v : value) : result float :=
  match as_number v with
  | Some (NInt z) => PyFloat.of_int z
  | Some (NFloat f) => Ok f
  | None => Raise TypeError
  end.

(** [a * v] with [a] a float. *)
Definition float_mul (a : float) (v : value) : result float :=
  b ← to_float v; Ok (PyFloat.mul a b).

(** [a / v] with [a] a float: a zero divisor raises. *)
Definition float_div (a : float) (v : value) : result float :=
  b ← to_float v;
  if PyFloat.is_zero b then Raise ZeroDivisionError else Ok (PyFloat.div a b).

Fixpoint repeat_string (n : nat) (s : string) : string :=
  match n with O => EmptyString | S n' => (s ++ repeat_string n' s)%string end.

Fixpoint repeat_list {A} (n : nat) (l : list A) : list A :=
  match n with O => [] | S n' => l ++ repeat_list n' l end.

(** [a * b] on loaded values. *)
Definition py_mul (a b : value) : result value :=
  match as_number a, as_number b with
  | Some (NInt x), Some (NInt y) => Ok (VInt (x * y))
  | Some (NFloat x), Some _ => y ← to_float b; Ok (VFloat (PyFloat.mul x y))
  | Some (NInt _), Some (NFloat y) => x ← to_float a; Ok (VFloat (PyFloat.mul x y))
  | Some (NInt n), None =>
      match b with
      | VStr s => Ok (VStr (repeat_string (Z.to_nat n) s))
      | VList l => Ok (VList (repeat_list (Z.to_nat n) l))
      | _ => Raise TypeError
      end
  | None, Some (NInt n) =>
      match a with
      | VStr s => Ok (VStr (repeat_string (Z.to_nat n) s))
      | VList l => Ok (VList (repeat_list (Z.to_nat n) l))
      | _ => Raise TypeError
      end
  | _, _ => Raise TypeError
  end.

(* ===================================================================== *)
(** ** Timestamps and clock times *)
(* ===================================================================== *)

(** A [datetime.time]: compared as the tuple (hour, minute, second,
    microsecond). *)
Record time := Time { hour : Z; minute : Z; second : Z; microsecond : Z }.

Definition time_compare (a b : time) : comparison :=
  match hour a ?= hour b with
  | Eq =>
      match minute a ?= minute b with
      | Eq =>
          match second a ?= second b with
          | Eq => microsecond a ?= microsecond b
          | c => c
          end
      | c => c
      end
  | c => c
  end.

(** [a <= b] on clock times. *)
Definition time_le (a b : time) : bool :=
  match time_compare a b with Gt => false | _ => true end.

(** [a < b] on clock times. *)
Definition time_lt (a b : time) : bool :=
  match time_compare a b with Lt => true | _ => false end.

(** A naive timestamp (no time zone), in microseconds since midnight of
    day 0. *)
Abbreviation Timestamp := Z.

Definition us_per_minute : Z := 60000000.
Definition us_per_hour : Z := 3600000000.
Definition us_per_day : Z := 86400000000.

(** The calendar day of a timestamp. *)
Definition ts_date (ts : Timestamp) : Z := ts / us_per_day.

(** [ts.time()]: the time-of-day of a timestamp. *)
Definition ts_time (ts : Timestamp) : time :=
  let t := ts mod us_per_day in
  {| hour := t / us_per_hour;
     minute := (t / us_per_minute) mod 60;
     second := (t / 1000000) mod 60;
     microsecond := t mod 1000000 |}.

(** A decimal digit (ASCII). *)
Definition digit_of (c : ascii) : option Z :=
  let n := Z.of_nat (nat_of_ascii c) in
  if (48 <=? n) && (n <=? 57) then Some (n - 48) else None.

(** The directive [%H], as the regular expression [2[0-3]|[0-1]\d|\d]
    matches it: two digits when they make an hour, else one digit. *)
Definition parse_H (s : list ascii) : option (Z * list ascii) :=
  match s with
  | a :: rest =>
      match digit_of a with
      | Some x =>
          match rest with
          | b :: rest' =>
              match digit_of b with
              | Some y =>
                  if ((x =? 2) && (y <=? 3)) || (x <=? 1)
                  then Some (10 * x + y, rest')
                  else Some (x, rest)
              | None => Some (x, rest)
              end
          | [] => Some (x, rest)
          end
      | None => None
      end
  | [] => None
  end.

(** The directive [%M], as [[0-5]\d|\d] matches it. *)
Definition parse_M (s : list ascii) : option (Z * list ascii) :=
  match s with
  | a :: rest =>
      match digit_of a with
      | Some x =>
          match rest with
          | b :: rest' =>
              match digit_of b with
              | Some y =>
                  if x <=? 5 then Some (10 * x + y, rest') else Some (x, rest)
              | None => Some (x, rest)
              end
          | [] => Some (x, rest)
          end
      | None => None
      end
  | [] => None
  end.

(** [datetime.strptime(v, "%H:%M").time()]: the whole string has to match;
    the argument has to be a string. *)
Definition strptime_HM (v : value) : result time :=
  match v with
  | VStr s =>
      match parse_H (list_ascii_of_string s) with
      | Some (h, c :: rest) =>
          if Ascii.eqb c ":"%char then
            match parse_M rest with
            | Some (m, []) =>
                Ok {| hour := h; minute := m; second := 0; microsecond := 0 |}
            | _ => Raise ValueError
            end
          else Raise ValueError
      | _ => Raise ValueError
      end
  | _ => Raise TypeError
  end.

(* ===================================================================== *)
(** ** The helper functions of the script *)
(* ===================================================================== *)

(** The clock times of one peak window: [w["start"]] and [w["end"]],
    parsed. *)
Definition window_bounds (w : value) : result (time * time) :=
  s ← (x ← subscript w "start"; strptime_HM x);
  e ← (x ← subscript w "end"; strptime_HM x);
  Ok (s, e).

(** The [for w in peak_windows] loop of [is_peak]. *)
Fixpoint is_peak_loop (tod : time) (ws : list value) : result bool :=
  match ws with
  | [] => Ok false
  | w :: rest =>
      '(s, e) ← window_bounds w;
      if time_le s tod && time_le tod e then Ok true
      else is_peak_loop tod rest
  end.

(** [is_peak(ts, peak_windows)]. *)
Definition is_peak (ts : Timestamp) (peak_windows : value) : result bool :=
  if negb (truthy peak_windows) then Ok false
  else
    ws ← py_iter peak_windows;
    is_peak_loop (ts_time ts) ws.

(** [cyclical_pick(seq, i)]: [seq[i % len(seq)]]. *)
Definition cyclical_pick (seq : value) (i : Z) : result value :=
  n ← py_len seq;
  if n =? 0 then Raise ZeroDivisionError
  else py_index seq (i mod n).

(** [train_capacity(line_def)]. *)
Definition train_capacity (line_def : dict) : result value :=
  if bool_decide (is_Some (line_def !! "train_total_capacity"))
     && truthy (dict_get line_def "train_total_capacity")
  then subscript (VDict line_def) "train_total_capacity"
  else
    cars ← subscript (VDict line_def) "cars_per_train";
    carriage ← subscript (VDict line_def) "carriage_capacity";
    py_mul cars carriage.

(* ===================================================================== *)
(** ** Rows *)
(* ===================================================================== *)

(** One output row: the dict built in the innermost loop of [main].  The
    three percentage keys are only set under their [if]. *)
Record row := Row {
  timestamp : Timestamp;
  station_code : value;
  station_name : value;
  line_name : value;
  row_is_peak : bool;
  headway_min : value;
  trains_per_hour : float;
  row_train_capacity : value;
  passengers_per_min : float;
  estimated_present : Z;
  crowding_station_pct : option float;
  crowding_platform_pct : option float;
  flow_vs_peak_pct : option float
}.

(** What [main] reads from a station record before it loops over the
    station's lines. *)
Record station_info := StationInfo {
  st_code : value;
  st_name : value;
  occ_cap : value;
  plat_cap : value;
  peak_cap : value
}.

(** What the body of [for i, ts in enumerate(times)] needs from the
    enclosing loops. *)
Record line_ctx := LineCtx {
  station : station_info;
  ln : value;
  peak_windows : value;
  hw_peak : value;
  hw_off : value;
  cap_train : value;
  dwell_min : value
}.

(** [tph = 60.0 / hw_min]. *)
Definition compute_tph (hw_min : value) : result float :=
  float_div PyFloat.f60 hw_min.

(** [ppm = (tph * cap_train) / 60.0]. *)
Definition compute_ppm (tph : float) (cap_train : value) : result float :=
  t ← float_mul tph cap_train; Ok (PyFloat.div t PyFloat.f60).

(** [est_present = ppm * dwell_min]. *)
Definition compute_est_present (ppm : float) (dwell_min : value) : result float :=
  float_mul ppm dwell_min.

(** [round(100.0 * est_present / occ_cap, 2)]. *)
Definition compute_crowding_station (est_present : float) (occ_cap : value)
  : result float :=
  q ← float_div (PyFloat.mul PyFloat.f100 est_present) occ_cap;
  PyFloat.round_ndigits q 2.

(** [round(100.0 * (est_present * 0.4) / plat_cap, 2)]. *)
Definition compute_crowding_platform (est_present : float) (plat_cap : value)
  : result float :=
  let est_on_platform := PyFloat.mul est_present PyFloat.f0_4 in
  q ← float_div (PyFloat.mul PyFloat.f100 est_on_platform) plat_cap;
  PyFloat.round_ndigits q 2.

(** [round(100.0 * (ppm * 60.0) / peak_cap, 2)]. *)
Definition compute_flow_vs_peak (ppm : float) (peak_cap : value) : result float :=
  q ← float_div (PyFloat.mul PyFloat.f100 (PyFloat.mul ppm PyFloat.f60)) peak_cap;
  PyFloat.round_ndigits q 2.

(** A key that is set only [if cap:]. *)
Definition when_cap (cap : value) (r : result float) : result (option float) :=
  if truthy cap then x ← r; Ok (Some x) else Ok None.

(** The body of [for i, ts in enumerate(times)]. *)
Definition make_row (c : line_ctx) (i : nat) (ts : Timestamp) : result row :=
  peak ← is_peak ts (peak_windows c);
  hw_min ← cyclical_pick (if peak then hw_peak c else hw_off c) (Z.of_nat i);
  tph ← compute_tph hw_min;
  ppm ← compute_ppm tph (cap_train c);
  est_present ← compute_est_present ppm (dwell_min c);
  r_tph ← PyFloat.round_ndigits tph 3;
  r_ppm ← PyFloat.round_ndigits ppm 3;
  r_est ← PyFloat.round_int est_present;
  station_pct ← when_cap (occ_cap (station c))
                   (compute_crowding_station est_present (occ_cap (station c)));
  platform_pct ← when_cap (plat_cap (station c))
                    (compute_crowding_platform est_present (plat_cap (station c)));
  flow_pct ← when_cap (peak_cap (station c))
                (compute_flow_vs_peak ppm (peak_cap (station c)));
  Ok {| timestamp := ts;
        station_code := st_code (station c);
        station_name := st_name (station c);
        line_name := ln c;
        row_is_peak := peak;
        headway_min := hw_min;
        trains_per_hour := r_tph;
        row_train_capacity := cap_train c;
        passengers_per_min := r_ppm;
        estimated_present := r_est;
        crowding_station_pct := station_pct;
        crowding_platform_pct := platform_pct;
        flow_vs_peak_pct := flow_pct |}.

(** The loop [for i, ts in enumerate(times)]: [rows] is the list the loop
    appends to, [i] the index of the head of [times]. *)
Fixpoint rows_loop (c : line_ctx) (i : nat) (times : list Timestamp)
    (rows : list row) : result (list row) :=
  match times with
  | [] => Ok rows
  | ts :: rest =>
      r ← make_row c i ts;
      rows_loop c (S i) rest (rows ++ [r])
  end.

(* ===================================================================== *)
(** ** The run: printed lines, written files, collected chunks *)
(* ===================================================================== *)

(** A table ([pd.DataFrame(rows)], [pd.concat]): its rows in order. *)
Abbreviation DataFrame := (list row).

(** The output path [out_dir / day_<stamp>.<ext>]; the stamp is kept as the
    calendar day of [start]. *)
Record out_path := OutPath { path_dir : string; path_day : Z; path_ext : string }.

(** What the run does to the outside, in order. *)
Inductive event :=
  | MadeDir (out_dir : string)
  | WarnLineMissing (ln : value)
  | WarnHeadwayIncomplete (ln : value)
  | InfoNoPyarrow
  | WroteCsv (p : out_path) (df : DataFrame)
  | WroteParquet (p : out_path) (df : DataFrame)
  | PrintGeneratedRows (n : nat)
  | PrintFile (p : out_path)
  | PrintSummary (df : DataFrame).

Record state := State { events : list event; all_chunks : list DataFrame }.

Definition M (A : Type) : Type := state -> result A * state.

#[global] Instance M_ret : MRet M := fun A a s => (Ok a, s).
#[global] Instance M_bind : MBind M := fun A B f m s =>
  match m s with
  | (Ok a, s') => f a s'
  | (Raise e, s') => (Raise e, s')
  end.

Definition lift {A} (r : result A) : M A := fun s => (r, s).

Definition emit (e : event) : M unit := fun s =>
  (Ok tt, {| events := events s ++ [e]; all_chunks := all_chunks s |}).

(** [all_chunks.append(df)]. *)
Definition append_chunk (df : DataFrame) : M unit := fun s =>
  (Ok tt, {| events := events s; all_chunks := all_chunks s ++ [df] |}).

Definition get_chunks : M (list DataFrame) := fun s => (Ok (all_chunks s), s).

(** A [for x in l] loop whose body ends normally or by [continue]. *)
Fixpoint for_each {A} (l : list A) (body : A -> M unit) : M unit :=
  match l with
  | [] => mret tt
  | x :: rest => body x ≫= fun _ => for_each rest body
  end.

(** A list comprehension [[f(x) for x in l]]. *)
Fixpoint comprehension {A B} (f : A -> result B) (l : list A) : result (list B) :=
  match l with
  | [] => Ok []
  | x :: rest => y ← f x; ys ← comprehension f rest; Ok (y :: ys)
  end.

(* ===================================================================== *)
(** ** Loading and the time grid *)
(* ===================================================================== *)

(** [v.get(k, dflt)]. *)
Definition py_get_default (v : value) (k : string) (dflt : value) : result value :=
  match v with
  | VDict d => Ok (default dflt (d !! k))
  | _ => Raise AttributeError
  end.

(** A schedule entry: the model covers ints. *)
Definition as_int (v : value) : result Z :=
  match v with
  | VInt z => Ok z
  | _ => Raise Unsupported
  end.

(** [build_timerange(cfg)].  [now] is what [datetime.now()] returns.
    [pd.date_range(start, end, freq, inclusive="left")] is the grid
    [start, start + freq, ...] of the instants strictly before [end]. *)
Definition build_timerange (cfg : value) (now : Timestamp)
  : result (list Timestamp * Timestamp) :=
  _ ← py_get cfg "tz";
  start_hour ← (s ← subscript cfg "schedule"; subscript s "start_hour");
  hours ← (s ← subscript cfg "schedule"; subscript s "hours_per_day");
  res_min ← (s ← subscript cfg "schedule"; subscript s "minute_resolution");
  start_hour ← as_int start_hour;
  if negb ((0 <=? start_hour) && (start_hour <? 24)) then Raise ValueError
  else
    let start := ts_date now * us_per_day + start_hour * us_per_hour in
    hours ← as_int hours;
    let end_ := start + hours * us_per_hour in
    res_min ← as_int res_min;
    if res_min <=? 0 then Raise Unsupported
    else
      let step := res_min * us_per_minute in
      let n := if end_ <=? start then 0 else (end_ - start + step - 1) / step in
      Ok ((fun k => start + Z.of_nat k * step) <$> seq 0 (Z.to_nat n), start).

(** [{x["line_name"]: x for x in lines_list}]: a later record with the
    same name replaces an earlier one.  The model covers names that are
    strings. *)
Fixpoint lines_of (lines_list : list value) (acc : gmap string dict)
  : result (gmap string dict) :=
  match lines_list with
  | [] => Ok acc
  | x :: rest =>
      name ← subscript x "line_name";
      match name, x with
      | VStr k, VDict d => lines_of rest (<[k := d]> acc)
      | _, _ => Raise Unsupported
      end
  end.

(** [lines.get(ln)]. *)
Definition lines_get (lines : gmap string dict) (ln : value) : result (option dict) :=
  match ln with
  | VStr k => Ok (lines !! k)
  | VList _ | VDict _ => Raise TypeError
  | _ => Ok None
  end.

(** [not line_def] on the result of [lines.get(ln)]. *)
Definition not_line_def (line_def : option dict) : bool :=
  match line_def with
  | None => true
  | Some d => negb (truthy (VDict d))
  end.

(** [(line_def.get("headway_patterns") or {}).get(k) or []]. *)
Definition headway_pattern (line_def : dict) (k : string) : result value :=
  v ← py_get (py_or (dict_get line_def "headway_patterns") (VDict ∅)) k;
  Ok (py_or v (VList [])).

(** [st.get(F[name])]. *)
Definition station_field (st F : value) (name : string) : result value :=
  match st with
  | VDict d => k ← subscript F name; dict_get_value d k
  | _ => Raise AttributeError
  end.

(** The five reads [st.get(F[...])] at the head of the station loop. *)
Definition read_station (F st : value) : result station_info :=
  st_code ← station_field st F "station_code";
  st_name ← station_field st F "station_name";
  occ_cap ← station_field st F "occupancy_cap_field";
  plat_cap ← station_field st F "platform_cap_field";
  peak_cap ← station_field st F "peak_cap_field";
  Ok {| st_code := st_code; st_name := st_name; occ_cap := occ_cap;
        plat_cap := plat_cap; peak_cap := peak_cap |}.

(** [CFG.get("assumptions", {}).get("avg_dwell_min", 12)]. *)
Definition configured_dwell (CFG : value) : result value :=
  a ← py_get_default CFG "assumptions" (VDict ∅);
  py_get_default a "avg_dwell_min" (VInt 12).

Definition lower_ascii (c : ascii) : ascii :=
  let n := nat_of_ascii c in
  if ((65 <=? n) && (n <=? 90))%nat then ascii_of_nat (n + 32) else c.

(** [v.lower()]: a method of strings (ASCII letters). *)
Definition py_lower (v : value) : result string :=
  match v with
  | VStr s => Ok (string_of_list_ascii (lower_ascii <$> list_ascii_of_string s))
  | _ => Raise AttributeError
  end.

(* ===================================================================== *)
(** ** [main] *)
(* ===================================================================== *)

Section Main.

(** The loaded seeds and configuration that the loops read. *)
Variable F : value.
Variable lines : gmap string dict.
Variable times : list Timestamp.
Variable dwell : value.

(** The body of [for ln in lines_in_station]. *)
Definition process_line (st : station_info) (ln : value) : M unit :=
  line_def ← lift (lines_get lines ln);
  match line_def with
  | Some d =>
      if not_line_def line_def then emit (WarnLineMissing ln)
      else
        let peak_windows := py_or (dict_get d "peak_windows") (VList []) in
        hw_peak ← lift (headway_pattern d "peak_min");
        hw_off ← lift (headway_pattern d "offpeak_min");
        if negb (truthy hw_peak) || negb (truthy hw_off)
        then emit (WarnHeadwayIncomplete ln)
        else
          cap_train ← lift (train_capacity d);
          rows ← lift (rows_loop
                         {| station := st; ln := ln;
                            peak_windows := peak_windows;
                            hw_peak := hw_peak; hw_off := hw_off;
                            cap_train := cap_train; dwell_min := dwell |}
                         0 times []);
          append_chunk rows
  | None => emit (WarnLineMissing ln)
  end.

(** The body of [for st in stations]. *)
Definition process_station (st : value) : M unit :=
  info ← lift (read_station F st);
  lines_field ← lift (station_field st F "lines_field");
  ls ← lift (py_iter (py_or lines_field (VList [])));
  lines_in_station ← lift (comprehension (fun l => py_get l "line_name") ls);
  if negb (truthy (VList lines_in_station)) then mret tt
  else for_each lines_in_station (process_line info).

End Main.

(** The last part of [main]: write the table and print the summary.
    [pyarrow] says whether [import pyarrow] succeeds.  A table without rows
    was concatenated from frames built from [[]], which have no columns:
    grouping it by [station_code] and [line_name] raises [KeyError]. *)
Definition write_and_report (pyarrow : bool) (CFG : value) (out_dir : string)
    (start : Timestamp) (day_df : DataFrame) : M unit :=
  let stamp := ts_date start in
  fmt ← lift (o ← subscript CFG "output"; f ← py_get o "format";
              py_lower (py_or f (VStr "parquet")));
  let out_path :=
    {| path_dir := out_dir; path_day := stamp;
       path_ext := if String.eqb fmt "csv" then "csv" else "parquet" |} in
  out_path ←
    (if String.eqb fmt "csv" then
       _ ← emit (WroteCsv out_path day_df); mret out_path
     else if pyarrow then
       _ ← emit (WroteParquet out_path day_df); mret out_path
     else
       _ ← emit InfoNoPyarrow;
       let out_path := {| path_dir := out_dir; path_day := stamp; path_ext := "csv" |} in
       _ ← emit (WroteCsv out_path day_df); mret out_path);
  _ ← emit (PrintGeneratedRows (length day_df));
  _ ← emit (PrintFile out_path);
  match day_df with
  | [] => lift (Raise KeyError)
  | _ => emit (PrintSummary day_df)
  end.

(** [main()].  [CFG], [stations] and [lines_list] are what the three files
    load to, [now] is the clock, [pyarrow] the availability of the parquet
    writer. *)
Definition main (now : Timestamp) (pyarrow : bool)
    (CFG stations lines_list : value) : M unit :=
  F ← lift (subscript CFG "fields");
  '(times, start) ← lift (build_timerange CFG now);
  _ ← lift (s ← subscript CFG "seeds"; subscript s "stations_file");
  _ ← lift (s ← subscript CFG "seeds"; subscript s "lines_file");
  lines ← lift (xs ← py_iter lines_list; lines_of xs ∅);
  dwell_min ← lift (configured_dwell CFG);
  out_dir ← lift (o ← subscript CFG "output"; subscript o "out_dir");
  match out_dir with
  | VStr out_dir =>
      _ ← emit (MadeDir out_dir);
      sts ← lift (py_iter stations);
      _ ← for_each sts (process_station F lines times dwell_min);
      chunks ← get_chunks;
      match chunks with
      | [] => lift (Raise SystemExit)
      | _ => write_and_report pyarrow CFG out_dir start (concat chunks)
      end
  | _ => lift (Raise TypeError)
  end.

(** A run from the initial state: nothing printed, [all_chunks = []]. *)
Definition run_main (now : Timestamp) (pyarrow : bool)
    (CFG stations lines_list : value) : result unit * state :=
  main now pyarrow CFG stations lines_list {| events := []; all_chunks := [] |}.

(* ===================================================================== *)
(** ** Notions used in the statements, and example inputs *)
(* ===================================================================== *)

(** [tod] lies in the window [w], both ends included. *)
Definition in_window (tod : time) (w : value) : Prop :=
  exists s e, window_bounds w = Ok (s, e) /\
              time_le s tod = true /\ time_le tod e = true.

(** Every window of the list has a ["start"] and an ["end"] that parse as
    clock times. *)
Definition well_formed_windows (ws : list value) : Prop :=
  Forall (fun w => is_ok (window_bounds w) = true) ws.

(** The same test as a boolean. *)
Definition in_windowb (tod : time) (w : value) : bool :=
  match window_bounds w with
  | Ok (s, e) => time_le s tod && time_le tod e
  | Raise _ => false
  end.

(** The morning window 07:00 to 09:30. *)
Definition morning_window : value :=
  VDict {[ "start" := VStr "07:00"; "end" := VStr "09:30" ]}.

(** The window 22:00 to 01:00, meant to wrap past midnight. *)
Definition night_window : value :=
  VDict {[ "start" := VStr "22:00"; "end" := VStr "01:00" ]}.

(** The record has no usable explicit total: the key is absent, or its
    value is falsy (null, zero, empty). *)
Definition no_explicit_total (line_def : dict) : Prop :=
  line_def !! "train_total_capacity" = None
  \/ exists v, line_def !! "train_total_capacity" = Some v /\ truthy v = false.

(** A line of five cars of 200 places, without an explicit total. *)
Definition five_car_line : dict :=
  {[ "cars_per_train" := VInt 5; "carriage_capacity" := VInt 200 ]}.

(** The unrounded quantities of the loop body, named as in the script. *)
Record row_quantities := RowQuantities {
  q_peak : bool;
  q_hw_min : value;
  q_tph : float;
  q_ppm : float;
  q_est_present : float
}.

(** [r] is the row that the loop body builds at index [i], timestamp [ts],
    from the unrounded quantities [q]. *)
Record row_built (c : line_ctx) (i : nat) (ts : Timestamp)
    (q : row_quantities) (r : row) : Prop := RowBuilt {
  built_peak : is_peak ts (peak_windows c) = Ok (q_peak q);
  built_hw : cyclical_pick (if q_peak q then hw_peak c else hw_off c) (Z.of_nat i)
             = Ok (q_hw_min q);
  built_tph : compute_tph (q_hw_min q) = Ok (q_tph q);
  built_ppm : compute_ppm (q_tph q) (cap_train c) = Ok (q_ppm q);
  built_est : compute_est_present (q_ppm q) (dwell_min c) = Ok (q_est_present q);
  built_r_tph : PyFloat.round_ndigits (q_tph q) 3 = Ok (trains_per_hour r);
  built_r_ppm : PyFloat.round_ndigits (q_ppm q) 3 = Ok (passengers_per_min r);
  built_r_est : PyFloat.round_int (q_est_present q) = Ok (estimated_present r);
  built_station_pct :
    when_cap (occ_cap (station c))
      (compute_crowding_station (q_est_present q) (occ_cap (station c)))
    = Ok (crowding_station_pct r);
  built_platform_pct :
    when_cap (plat_cap (station c))
      (compute_crowding_platform (q_est_present q) (plat_cap (station c)))
    = Ok (crowding_platform_pct r);
  built_flow_pct :
    when_cap (peak_cap (station c))
      (compute_flow_vs_peak (q_ppm q) (peak_cap (station c)))
    = Ok (flow_vs_peak_pct r);
  built_timestamp : timestamp r = ts;
  built_station_code : station_code r = st_code (station c);
  built_station_name : station_name r = st_name (station c);
  built_line_name : line_name r = ln c;
  built_is_peak : row_is_peak r = q_peak q;
  built_headway : headway_min r = q_hw_min q;
  built_capacity : row_train_capacity r = cap_train c
}.

(** The rows a [(station, line)] context produces over the grid [times]. *)
Definition produced_by (c : line_ctx) (times : list Timestamp) (r : row) : Prop :=
  exists i ts q, times !! i = Some ts /\ row_built c i ts q r.

Definition add_event (e : event) (s : state) : state :=
  {| events := events s ++ [e]; all_chunks := all_chunks s |}.

Definition add_chunk (df : DataFrame) (s : state) : state :=
  {| events := events s; all_chunks := all_chunks s ++ [df] |}.

(** A [(station, line)] context as [main] sets it up for the line named
    [k] of the seed data: both headway patterns are non-empty and the
    capacity is the line's. *)
Record ctx_of_line (lines : gmap string dict) (dwell : value)
    (info : station_info) (k : string) (d : dict) (c : line_ctx) : Prop :=
  CtxOfLine {
  ctx_station : station c = info;
  ctx_dwell : dwell_min c = dwell;
  ctx_ln : ln c = VStr k;
  ctx_lookup : lines !! k = Some d;
  ctx_capacity : train_capacity d = Ok (cap_train c);
  ctx_hw_peak : headway_pattern d "peak_min" = Ok (hw_peak c);
  ctx_hw_off : headway_pattern d "offpeak_min" = Ok (hw_off c);
  ctx_hw_peak_truthy : truthy (hw_peak c) = true;
  ctx_hw_off_truthy : truthy (hw_off c) = true;
  ctx_windows : peak_windows c = py_or (dict_get d "peak_windows") (VList [])
}.

(** How one iteration of [for ln in lines_in_station] can end. *)
Inductive line_outcome (lines : gmap string dict) (times : list Timestamp)
    (dwell : value) (info : station_info) (lnv : value) (s : state)
  : result unit -> state -> Prop :=
  | line_raised (e : exn) :
      line_outcome lines times dwell info lnv s (Raise e) s
  | line_skipped (w : event) :
      w = WarnLineMissing lnv \/ w = WarnHeadwayIncomplete lnv ->
      line_outcome lines times dwell info lnv s (Ok tt) (add_event w s)
  | line_processed (k : string) (d : dict) (c : line_ctx) (rows : list row) :
      lnv = VStr k ->
      ctx_of_line lines dwell info k d c ->
      rows_loop c 0 times [] = Ok rows ->
      line_outcome lines times dwell info lnv s (Ok tt) (add_chunk rows s).

(** The rows collected so far, in order ([pd.concat(all_chunks)]). *)
Definition produced_rows (s : state) : list row := concat (all_chunks s).

(** A context that the two outer loops of [main] can reach: the station
    is one of [sts], the line one of [lines]. *)
Definition valid_ctx (F : value) (lines : gmap string dict) (dwell : value)
    (sts : list value) (c : line_ctx) : Prop :=
  exists st k d, st ∈ sts /\ read_station F st = Ok (station c)
                 /\ ctx_of_line lines dwell (station c) k d c.

(** A chunk is the table of one reachable context over the whole grid. *)
Definition chunk_ok (F : value) (lines : gmap string dict)
    (times : list Timestamp) (dwell : value) (sts : list value)
    (df : DataFrame) : Prop :=
  exists c, valid_ctx F lines dwell sts c /\ rows_loop c 0 times [] = Ok df.

Definition chunks_ok (F : value) (lines : gmap string dict)
    (times : list Timestamp) (dwell : value) (sts : list value)
    (s : state) : Prop :=
  Forall (chunk_ok F lines times dwell sts) (all_chunks s).

(** What [main] has loaded when it enters the station loop. *)
Record run_setup (now : Timestamp) (CFG stations lines_list : value)
    (F : value) (lines : gmap string dict) (times : list Timestamp)
    (start : Timestamp) (dwell : value) (sts : list value) : Prop := RunSetup {
  setup_fields : subscript CFG "fields" = Ok F;
  setup_grid : build_timerange CFG now = Ok (times, start);
  setup_lines : exists xs, py_iter lines_list = Ok xs /\ lines_of xs ∅ = Ok lines;
  setup_dwell : configured_dwell CFG = Ok dwell;
  setup_stations : py_iter stations = Ok sts
}.

(** The rates of a row, as the estimator defines them: the headway is the
    cyclical pick at the row's grid index from the pattern chosen by the
    peak flag, the capacity is the train capacity of the row's line, and
    with [h] and [cap] these two numbers as floats,
    [tph = 60.0 / h] and [ppm = (tph * cap) / 60.0]; the row carries both
    rounded to 3 decimals. *)
Definition row_rates (now : Timestamp) (CFG stations lines_list : value)
    (r : row) : Prop :=
  exists (F : value) (lines : gmap string dict) (times : list Timestamp)
         (start : Timestamp) (dwell : value) (sts : list value)
         (k : string) (d : dict) (hw_p hw_o : value) (i : nat)
         (h cap tph ppm : float),
    run_setup now CFG stations lines_list F lines times start dwell sts
    /\ line_name r = VStr k /\ lines !! k = Some d
    /\ train_capacity d = Ok (row_train_capacity r)
    /\ headway_pattern d "peak_min" = Ok hw_p
    /\ headway_pattern d "offpeak_min" = Ok hw_o
    /\ times !! i = Some (timestamp r)
    /\ cyclical_pick (if row_is_peak r then hw_p else hw_o) (Z.of_nat i)
       = Ok (headway_min r)
    /\ to_float (headway_min r) = Ok h
    /\ to_float (row_train_capacity r) = Ok cap
    /\ tph = PyFloat.div PyFloat.f60 h
    /\ ppm = PyFloat.div (PyFloat.mul tph cap) PyFloat.f60
    /\ PyFloat.round_ndigits tph 3 = Ok (trains_per_hour r)
    /\ PyFloat.round_ndigits ppm 3 = Ok (passengers_per_min r).

(** The field-name mapping [CFG["fields"]]. *)
Definition example_fields : value :=
  VDict {[ "station_code" := VStr "code";
           "station_name" := VStr "name";
           "occupancy_cap_field" := VStr "occupancy_cap";
           "platform_cap_field" := VStr "platform_cap";
           "peak_cap_field" := VStr "peak_cap";
           "lines_field" := VStr "lines" ]}.

(** A configuration with the given schedule, CSV output and the default
    dwell time. *)
Definition example_config (start_hour hours_per_day minute_resolution : Z) : value :=
  VDict {[ "fields" := example_fields;
           "schedule" := VDict {[ "start_hour" := VInt start_hour;
                                  "hours_per_day" := VInt hours_per_day;
                                  "minute_resolution" := VInt minute_resolution ]};
           "seeds" := VDict {[ "stations_file" := VStr "stations.json";
                               "lines_file" := VStr "lines.json" ]};
           "output" := VDict {[ "out_dir" := VStr "out";
                                "format" := VStr "csv" ]} ]}.

(** One station, with an occupancy cap, served by one line. *)
Definition example_stations (occupancy_cap : value) (line : string) : value :=
  VList [VDict {[ "code" := VStr "S1";
                  "name" := VStr "Central";
                  "occupancy_cap" := occupancy_cap;
                  "lines" := VList [VDict {[ "line_name" := VStr line ]}] ]}].

(** One line with an explicit total capacity and two headway patterns. *)
Definition example_lines (name : string) (capacity : value)
    (peak_min offpeak_min : list value) : value :=
  VList [VDict {[ "line_name" := VStr name;
                  "train_total_capacity" := capacity;
                  "headway_patterns" :=
                    VDict {[ "peak_min" := VList peak_min;
                             "offpeak_min" := VList offpeak_min ]} ]}].

(** The run of the end-to-end example: one hour from 06:00 in steps of 30
    minutes, a station with occupancy cap 1000, a line of capacity 1000
    with a headway of 10 minutes. *)
Definition example_run : result unit * state :=
  run_main 0 true (example_config 6 1 30)
    (example_stations (VInt 1000) "L1")
    (example_lines "L1" (VInt 1000) [VInt 10] [VInt 10]).

Definition example_row (ts : Timestamp) : row :=
  {| timestamp := ts;
     station_code := VStr "S1";
     station_name := VStr "Central";
     line_name := VStr "L1";
     row_is_peak := false;
     headway_min := VInt 10;
     trains_per_hour := PyFloat.of_Z 6;
     row_train_capacity := VInt 1000;
     passengers_per_min := PyFloat.of_Z 100;
     estimated_present := 1200;
     crowding_station_pct := Some (PyFloat.of_Z 120);
     crowding_platform_pct := None;
     flow_vs_peak_pct := None |}.

(** [round(passengers_per_min * dwell)] computed from the value the row
    carries, which is rounded to 3 decimals. *)
Definition est_from_emitted_ppm (dwell : value) (r : row) : result Z :=
  x ← float_mul (passengers_per_min r) dwell; PyFloat.round_int x.

(** The estimate of a row, as the estimator defines it: with [ppm] the
    passengers per minute before rounding, the row carries [ppm] rounded to
    3 decimals and [round(ppm * dwell)], where [dwell] is the configured
    dwell time. *)
Definition row_estimate (CFG : value) (r : row) : Prop :=
  exists (dwell : value) (h cap ppm est : float),
    configured_dwell CFG = Ok dwell
    /\ to_float (headway_min r) = Ok h
    /\ to_float (row_train_capacity r) = Ok cap
    /\ ppm = PyFloat.div (PyFloat.mul (PyFloat.div PyFloat.f60 h) cap) PyFloat.f60
    /\ PyFloat.round_ndigits ppm 3 = Ok (passengers_per_min r)
    /\ float_mul ppm dwell = Ok est
    /\ PyFloat.round_int est = Ok (estimated_present r).

(** A run over one timestamp with a headway of 48 minutes and trains of
    550 places: 11.458333... passengers per minute, 137.5 present. *)
Definition slow_line_run : result unit * state :=
  run_main 0 true (example_config 6 1 60)
    (example_stations VNone "L1")
    (example_lines "L1" (VInt 550) [VInt 48] [VInt 48]).

(** A capacity that is a number, or is missing (no key, or null). *)
Definition numeric_or_absent (cap : value) : Prop :=
  cap = VNone \/ is_Some (as_number cap).

(** A capacity that is present and is a number other than zero. *)
Definition present_nonzero (cap : value) : Prop :=
  match as_number cap with
  | Some (NInt z) => z <> 0
  | Some (NFloat f) => PyFloat.is_zero f = false
  | None => False
  end.

(** A percentage key of a row against the capacity [cap]: the key is set
    exactly when [cap] is truthy, which for a number or a missing value
    means present and not zero; when set, it is
    [round(100.0 * numerator / cap, 2)]. *)
Definition pct_field (cap : value) (numerator : float) (field : option float)
  : Prop :=
  (is_Some field <-> truthy cap = true)
  /\ (numeric_or_absent cap -> (is_Some field <-> present_nonzero cap))
  /\ forall x, field = Some x ->
       exists capf, to_float cap = Ok capf
                    /\ PyFloat.is_zero capf = false
                    /\ PyFloat.round_ndigits
                         (PyFloat.div (PyFloat.mul PyFloat.f100 numerator) capf) 2
                       = Ok x.

(** The percentages of a row, as the estimator defines them.  [ppm] and
    [est] are passengers per minute and estimated present before their
    rounding for output; the capacities are those of the row's station. *)
Definition row_percentages (now : Timestamp) (CFG stations lines_list : value)
    (r : row) : Prop :=
  exists (F : value) (lines : gmap string dict) (times : list Timestamp)
         (start : Timestamp) (dwell : value) (sts : list value)
         (st : value) (info : station_info) (h cap ppm est : float),
    run_setup now CFG stations lines_list F lines times start dwell sts
    /\ st ∈ sts /\ read_station F st = Ok info
    /\ station_code r = st_code info /\ station_name r = st_name info
    /\ to_float (headway_min r) = Ok h
    /\ to_float (row_train_capacity r) = Ok cap
    /\ ppm = PyFloat.div (PyFloat.mul (PyFloat.div PyFloat.f60 h) cap) PyFloat.f60
    /\ PyFloat.round_ndigits ppm 3 = Ok (passengers_per_min r)
    /\ float_mul ppm dwell = Ok est
    /\ PyFloat.round_int est = Ok (estimated_present r)
    /\ pct_field (occ_cap info) est (crowding_station_pct r)
    /\ pct_field (plat_cap info) (PyFloat.mul est PyFloat.f0_4)
         (crowding_platform_pct r)
    /\ pct_field (peak_cap info) (PyFloat.mul ppm PyFloat.f60)
         (flow_vs_peak_pct r).

(** The headway pattern [k] of a line record is absent or empty: there is
    no ["headway_patterns"] (no key, or null), or it is a dict in which [k]
    is missing, null or the empty list. *)
Definition pattern_absent_or_empty (d : dict) (k : string) : Prop :=
  match d !! "headway_patterns" with
  | None | Some VNone => True
  | Some (VDict hp) =>
      hp !! k = None \/ hp !! k = Some VNone \/ hp !! k = Some (VList [])
  | Some _ => False
  end.

(** One iteration of the line loop that skips the pair: it ends normally,
    prints the warning [w], collects no chunk, and the loop goes on with
    the remaining lines. *)
Definition skipped_with (lines : gmap string dict) (times : list Timestamp)
    (dwell : value) (info : station_info) (lnv : value) (w : event) : Prop :=
  forall (rest : list value) (s : state),
    exists s',
      process_line lines times dwell info lnv s = (Ok tt, s')
      /\ events s' = events s ++ [w]
      /\ all_chunks s' = all_chunks s
      /\ for_each (lnv :: rest) (process_line lines times dwell info) s
         = for_each rest (process_line lines times dwell info) s'.

(** A headway value that is a number above zero. *)
Definition positive_number (v : value) : Prop :=
  match as_number v with
  | Some (NInt z) => 0 < z
  | Some (NFloat f) => PyFloat.is_pos f = true
  | None => False
  end.

(** A headway value that is a number above zero and that [float()]
    accepts: a float, or an int that is not too large for a double. *)
Definition positive_double (v : value) : Prop :=
  positive_number v /\ is_ok (to_float v) = true.

(** A run whose line has a headway of 0 minutes in both patterns. *)
Definition zero_headway_run : result unit * state :=
  run_main 0 true (example_config 6 1 30)
    (example_stations (VInt 1000) "L1")
    (example_lines "L1" (VInt 1000) [VInt 0] [VInt 0]).

(** A run with [hours_per_day = 0]: the time grid is empty, while the one
    station and its line pass every skip test. *)
Definition empty_grid_run : result unit * state :=
  run_main 0 true (example_config 6 0 30)
    (example_stations (VInt 1000) "L1")
    (example_lines "L1" (VInt 1000) [VInt 10] [VInt 10]).

(** A run whose station seed is the empty list. *)
Definition no_station_run : result unit * state :=
  run_main 0 true (example_config 6 1 30) (VList [])
    (example_lines "L1" (VInt 1000) [VInt 10] [VInt 10]).

(** Two line records: L1 with both patterns, L2 without a peak pattern. *)
Definition example_line_without_peak : dict :=
  {[ "line_name" := VStr "L2";
     "train_total_capacity" := VInt 800;
     "headway_patterns" := VDict {[ "offpeak_min" := VList [VInt 15] ]} ]}.

Definition example_line_records : list value :=
  [VDict {[ "line_name" := VStr "L1";
            "train_total_capacity" := VInt 1000;
            "headway_patterns" :=
              VDict {[ "peak_min" := VList [VInt 10];
                       "offpeak_min" := VList [VInt 10] ]} ]};
   VDict example_line_without_peak].

(** The mapping [lines] built from these two records. *)
Definition example_line_map : gmap string dict :=
  {[ "L1" := {[ "line_name" := VStr "L1";
                "train_total_capacity" := VInt 1000;
                "headway_patterns" :=
                  VDict {[ "peak_min" := VList [VInt 10];
                           "offpeak_min" := VList [VInt 10] ]} ]};
     "L2" := example_line_without_peak ]}.

Definition example_station_info : station_info :=
  {| st_code := VStr "S1"; st_name := VStr "Central"; occ_cap := VInt 1000;
     plat_cap := VNone; peak_cap := VNone |}.

(** A result other than the [SystemExit] of the empty-result test. *)
Definition no_exit {A} (r : result A) : Prop := r <> Raise SystemExit.

(** A step of the run that never raises [SystemExit]. *)
Definition M_no_exit {A} (m : M A) : Prop :=
  forall s res s', m s = (res, s') -> no_exit res.

(* ===================================================================== *)
(** ** Further notions: the grid, the loops, the output stage *)
(* ===================================================================== *)
(** An int entry of [cfg["schedule"]]. *)
Definition schedule_int (cfg : value) (k : string) : result Z :=
  s ← subscript cfg "schedule"; v ← subscript s k; as_int v.

(** The instant a clock time denotes within its day, in microseconds. *)
Definition time_us (t : time) : Z :=
  ((hour t * 60 + minute t) * 60 + second t) * 1000000 + microsecond t.

(** A clock time whose fields are in range. *)
Definition time_in_range (t : time) : Prop :=
  0 <= hour t < 24 /\ 0 <= minute t < 60 /\ 0 <= second t < 60
  /\ 0 <= microsecond t < 1000000.

(** The window [w] parses and does not contain [tod]. *)
Definition window_misses (tod : time) (w : value) : Prop :=
  exists s e, window_bounds w = Ok (s, e)
              /\ time_le s tod && time_le tod e = false.

(** The line record [x] if it is a record named [k]. *)
Definition record_named (k : string) (x : value) : option dict :=
  match x with
  | VDict d =>
      match d !! "line_name" with
      | Some (VStr k') => if String.eqb k' k then Some d else None
      | _ => None
      end
  | _ => None
  end.

(** A line seed with two records named L1. *)
Definition duplicate_line_records : list value :=
  [VDict {[ "line_name" := VStr "L1"; "train_total_capacity" := VInt 1000 ]};
   VDict {[ "line_name" := VStr "L2"; "train_total_capacity" := VInt 800 ]};
   VDict {[ "line_name" := VStr "L1"; "train_total_capacity" := VInt 1200 ]}].

(** The mapping this seed loads to. *)
Definition duplicate_line_map : gmap string dict :=
  {[ "L1" := {[ "line_name" := VStr "L1"; "train_total_capacity" := VInt 1200 ]};
     "L2" := {[ "line_name" := VStr "L2"; "train_total_capacity" := VInt 800 ]} ]}.

(** A warning line of the line loop. *)
Definition is_warning (e : event) : bool :=
  match e with
  | WarnLineMissing _ | WarnHeadwayIncomplete _ => true
  | _ => false
  end.

(** The pairs settled so far: one chunk per processed pair, one warning
    per skipped pair. *)
Definition pairs_settled (s : state) : nat :=
  (length (all_chunks s) + length (List.filter is_warning (events s)))%nat.

(** The number of entries in the lines field of a station record. *)
Definition station_line_entries (F st : value) : nat :=
  match lf ← station_field st F "lines_field"; py_iter (py_or lf (VList [])) with
  | Ok ls => length ls
  | Raise _ => 0%nat
  end.

(** [s'] keeps all of [s] and adds warnings and chunks at the end. *)
Definition extends (s s' : state) : Prop :=
  exists new_events new_chunks,
    events s' = events s ++ new_events
    /\ all_chunks s' = all_chunks s ++ new_chunks
    /\ Forall (fun e => is_warning e = true) new_events.

(** The state a run starts from. *)
Definition initial_state : state := {| events := []; all_chunks := [] |}.

(** A station that lists three lines: L1, the unknown L9, and L2. *)
Definition three_line_station : value :=
  VDict {[ "code" := VStr "S1";
           "name" := VStr "Central";
           "lines" := VList [VDict {[ "line_name" := VStr "L1" ]};
                             VDict {[ "line_name" := VStr "L9" ]};
                             VDict {[ "line_name" := VStr "L2" ]}] ]}.

(** An event of the part of a run before the output stage: the directory
    or a warning. *)
Definition pre_output (e : event) : bool :=
  match e with
  | MadeDir _ | WarnLineMissing _ | WarnHeadwayIncomplete _ => true
  | _ => false
  end.

(** [(CFG["output"].get("format") or "parquet").lower()]. *)
Definition output_format (CFG : value) : result string :=
  o ← subscript CFG "output"; f ← py_get o "format";
  py_lower (py_or f (VStr "parquet")).

(** [CFG["output"]["out_dir"]]. *)
Definition configured_out_dir (CFG : value) : result value :=
  o ← subscript CFG "output"; subscript o "out_dir".

(** The extension of the file that is really written. *)
Definition actual_ext (pyarrow : bool) (fmt : string) : string :=
  if String.eqb fmt "csv" then "csv" else if pyarrow then "parquet" else "csv".

(** What the output stage does, in order, for the format [fmt]. *)
Definition output_trace (pyarrow : bool) (fmt : string) (out_dir : string)
    (day : Z) (df : DataFrame) : list event :=
  let p := {| path_dir := out_dir; path_day := day;
              path_ext := actual_ext pyarrow fmt |} in
  (if String.eqb fmt "csv" then [WroteCsv p df]
   else if pyarrow then [WroteParquet p df]
   else [InfoNoPyarrow; WroteCsv p df])
  ++ [PrintGeneratedRows (length df); PrintFile p]
  ++ match df with [] => [] | _ => [PrintSummary df] end.

(** How a run that got past the loading of the configuration and of the
    line seed goes on. *)
Inductive run_after_setup (pyarrow : bool) (CFG stations : value)
    (F : value) (lines : gmap string dict) (times : list Timestamp)
    (start : Timestamp) (dwell : value) (out_dir : string)
  : result unit -> state -> Prop :=
  | stations_not_iterable (e : exn) :
      py_iter stations = Raise e ->
      run_after_setup pyarrow CFG stations F lines times start dwell out_dir
        (Raise e) (add_event (MadeDir out_dir) initial_state)
  | loop_raised (sts : list value) (e : exn) (s1 : state) :
      py_iter stations = Ok sts ->
      for_each sts (process_station F lines times dwell)
        (add_event (MadeDir out_dir) initial_state) = (Raise e, s1) ->
      run_after_setup pyarrow CFG stations F lines times start dwell out_dir
        (Raise e) s1
  | no_data_exit (sts : list value) (s1 : state) :
      py_iter stations = Ok sts ->
      for_each sts (process_station F lines times dwell)
        (add_event (MadeDir out_dir) initial_state) = (Ok tt, s1) ->
      all_chunks s1 = [] ->
      run_after_setup pyarrow CFG stations F lines times start dwell out_dir
        (Raise SystemExit) s1
  | output_stage (sts : list value) (s1 s : state) (res : result unit) :
      py_iter stations = Ok sts ->
      for_each sts (process_station F lines times dwell)
        (add_event (MadeDir out_dir) initial_state) = (Ok tt, s1) ->
      all_chunks s1 <> [] ->
      write_and_report pyarrow CFG out_dir start (concat (all_chunks s1)) s1
      = (res, s) ->
      run_after_setup pyarrow CFG stations F lines times start dwell out_dir
        res s.

(** The configuration and the line seed load: everything [main] reads
    before it creates the output directory. *)
Record loaded (now : Timestamp) (CFG lines_list : value)
    (F : value) (lines : gmap string dict) (times : list Timestamp)
    (start : Timestamp) (dwell : value) (out_dir : string) : Prop := Loaded {
  loaded_fields : subscript CFG "fields" = Ok F;
  loaded_grid : build_timerange CFG now = Ok (times, start);
  loaded_lines : exists xs, py_iter lines_list = Ok xs /\ lines_of xs ∅ = Ok lines;
  loaded_dwell : configured_dwell CFG = Ok dwell;
  loaded_out_dir : configured_out_dir CFG = Ok (VStr out_dir)
}.

(** The creation of the output directory. *)
Definition is_made_dir (e : event) : bool :=
  match e with MadeDir _ => true | _ => false end.

(** The path of the file the end-to-end example writes. *)
Definition example_path : out_path :=
  {| path_dir := "out"; path_day := 0; path_ext := "csv" |}.

(** A line seed whose line L1 has the morning window, a peak headway of 5
    minutes and an off-peak headway of 10. *)
Definition windowed_lines : value :=
  VList [VDict {[ "line_name" := VStr "L1";
                  "train_total_capacity" := VInt 1000;
                  "peak_windows" := VList [morning_window];
                  "headway_patterns" :=
                    VDict {[ "peak_min" := VList [VInt 5];
                             "offpeak_min" := VList [VInt 10] ]} ]}].

(** Two hours from 06:00 in steps of one hour over [windowed_lines]: the
    row of 06:00 is off-peak, the row of 07:00 is peak. *)
Definition windowed_run : result unit * state :=
  run_main 0 true (example_config 6 2 60) (example_stations VNone "L1")
    windowed_lines.

(** The key of the headway pattern that a peak flag selects. *)
Definition pattern_key (peak : bool) : string :=
  if peak then "peak_min" else "offpeak_min".

(** The row of 07:00 in [windowed_run]. *)
Definition windowed_peak_row : row :=
  {| timestamp := 7 * us_per_hour;
     station_code := VStr "S1";
     station_name := VStr "Central";
     line_name := VStr "L1";
     row_is_peak := true;
     headway_min := VInt 5;
     trains_per_hour := PyFloat.of_Z 12;
     row_train_capacity := VInt 1000;
     passengers_per_min := PyFloat.of_Z 200;
     estimated_present := 2400;
     crowding_station_pct := None;
     crowding_platform_pct := None;
     flow_vs_peak_pct := None |}.

(** [[l.get("line_name") for l in (st.get(F["lines_field"]) or [])]]: the
    line names a station record lists. *)
Definition station_line_names (F st : value) : result (list value) :=
  lines_field ← station_field st F "lines_field";
  ls ← py_iter (py_or lines_field (VList []));
  comprehension (fun l => py_get l "line_name") ls.

(** A chunk built for a station of [sts] and a line name that this station
    lists. *)
Definition listed_chunk (F : value) (times : list Timestamp)
    (sts : list value) (df : DataFrame) : Prop :=
  exists st lns c,
    st ∈ sts /\ read_station F st = Ok (station c)
    /\ station_line_names F st = Ok lns /\ ln c ∈ lns
    /\ rows_loop c 0 times [] = Ok df.

(* ===================================================================== *)
(** * Properties *)
(* ===================================================================== *)

(** ** The error monad *)

Lemma bind_Ok {A B} (m : result A) (f : A -> result B) (b : B) :
  m ≫= f = Ok b -> exists a, m = Ok a /\ f a = Ok b.
Proof. destruct m as [a|e]; simpl; [eauto | discriminate]. Qed.

Lemma bind_Ok_l {A B} (m : result A) (f : A -> result B) (a : A) :
  m = Ok a -> m ≫= f = f a.
Proof. intros ->. reflexivity. Qed.

Lemma bind_Raise_l {A B} (m : result A) (f : A -> result B) (e : exn) :
  m = Raise e -> m ≫= f = Raise e.
Proof. intros ->. reflexivity. Qed.

(** ** Clock times are totally ordered *)

Lemma time_le_iff (a b : time) :
  time_le a b = true <->
  hour a < hour b \/
  (hour a = hour b /\
   (minute a < minute b \/
    (minute a = minute b /\
     (second a < second b \/
      (second a = second b /\ microsecond a <= microsecond b))))).
Proof.
  unfold time_le, time_compare.
  destruct (Z.compare_spec (hour a) (hour b));
    destruct (Z.compare_spec (minute a) (minute b));
    destruct (Z.compare_spec (second a) (second b));
    destruct (Z.compare_spec (microsecond a) (microsecond b));
    split; intros; try discriminate; try reflexivity; lia.
Qed.

Lemma time_lt_iff (a b : time) :
  time_lt a b = true <->
  hour a < hour b \/
  (hour a = hour b /\
   (minute a < minute b \/
    (minute a = minute b /\
     (second a < second b \/
      (second a = second b /\ microsecond a < microsecond b))))).
Proof.
  unfold time_lt, time_compare.
  destruct (Z.compare_spec (hour a) (hour b));
    destruct (Z.compare_spec (minute a) (minute b));
    destruct (Z.compare_spec (second a) (second b));
    destruct (Z.compare_spec (microsecond a) (microsecond b));
    split; intros; try discriminate; try reflexivity; lia.
Qed.

Lemma time_le_refl (a : time) : time_le a a = true.
Proof. apply time_le_iff. lia. Qed.

Lemma time_le_trans (a b c : time) :
  time_le a b = true -> time_le b c = true -> time_le a c = true.
Proof. rewrite !time_le_iff. lia. Qed.

Lemma time_lt_not_le (a b : time) : time_lt b a = true -> time_le a b = false.
Proof.
  intros H. destruct (time_le a b) eqn:E; [|reflexivity].
  apply time_le_iff in E. apply time_lt_iff in H. lia.
Qed.

(** ** Peak classification *)

Lemma is_peak_list (ts : Timestamp) (ws : list value) :
  is_peak ts (VList ws) = is_peak_loop (ts_time ts) ws.
Proof. destruct ws; reflexivity. Qed.

Lemma in_windowb_spec (tod : time) (w : value) :
  in_windowb tod w = true <-> in_window tod w.
Proof.
  unfold in_windowb, in_window. split.
  - destruct (window_bounds w) as [[s e]|]; [|discriminate].
    intros [? ?]%andb_prop. eauto.
  - intros (s & e & -> & -> & ->). reflexivity.
Qed.

Lemma is_peak_loop_total (tod : time) (ws : list value) :
  well_formed_windows ws ->
  is_peak_loop tod ws = Ok (existsb (in_windowb tod) ws).
Proof.
  induction 1 as [|w ws Hw Hws IH]; simpl; [reflexivity|].
  unfold in_windowb at 1.
  destruct (window_bounds w) as [[s e]|] eqn:Hb; [|discriminate]. simpl.
  destruct (time_le s tod && time_le tod e); [reflexivity | exact IH].
Qed.

Lemma existsb_in_window (tod : time) (ws : list value) :
  existsb (in_windowb tod) ws = true <-> exists w, w ∈ ws /\ in_window tod w.
Proof.
  rewrite existsb_exists. split; intros (w & Hw & Hin); exists w.
  - split; [by apply list_elem_of_In | by apply in_windowb_spec].
  - split; [by apply list_elem_of_In | by apply in_windowb_spec].
Qed.

Lemma ts_time_shift_day (ts k : Z) : ts_time (ts + k * us_per_day) = ts_time ts.
Proof. unfold ts_time. rewrite Z_mod_plus_full. reflexivity. Qed.

(** C4.  Peak classification against a list of well-formed windows returns
    true exactly when the time-of-day of the timestamp lies in at least one
    window, both ends included, and false otherwise; a time-of-day equal to
    the start or to the end of a window (whose start is not after its end)
    is peak; an empty or absent list gives false; only the time-of-day
    matters: timestamps with the same clock time, such as the same instant
    on another day, are classified alike. *)
Theorem is_peak_inclusive_any_window (ts : Timestamp) (ws : list value)
    (Hwf : well_formed_windows ws) :
  (is_peak ts (VList ws) = Ok true <->
     exists w, w ∈ ws /\ in_window (ts_time ts) w)
  /\ (is_peak ts (VList ws) = Ok false <->
        ~ exists w, w ∈ ws /\ in_window (ts_time ts) w)
  /\ (forall w s e, w ∈ ws -> window_bounds w = Ok (s, e) ->
        time_le s e = true -> ts_time ts = s \/ ts_time ts = e ->
        is_peak ts (VList ws) = Ok true)
  /\ is_peak ts (VList []) = Ok false
  /\ is_peak ts VNone = Ok false
  /\ (forall ts', ts_time ts' = ts_time ts ->
        is_peak ts' (VList ws) = is_peak ts (VList ws))
  /\ (forall k, is_peak (ts + k * us_per_day) (VList ws) = is_peak ts (VList ws)).
Proof.
  assert (Hiff : forall t, is_peak t (VList ws) = Ok true <->
                   exists w, w ∈ ws /\ in_window (ts_time t) w).
  { intros t. rewrite is_peak_list, is_peak_loop_total by assumption.
    rewrite <- existsb_in_window.
    split; [intros [= ->]; reflexivity | intros ->; reflexivity]. }
  split; [apply Hiff|].
  split.
  { rewrite <- existsb_in_window, is_peak_list, is_peak_loop_total by assumption.
    destruct (existsb _ ws); split; try discriminate; try congruence; auto. }
  split.
  { intros w s e Hw Hb Hse Heq. apply Hiff. exists w. split; [assumption|].
    exists s, e. split; [assumption|].
    destruct Heq as [-> | ->]; auto using time_le_refl. }
  split; [reflexivity|].
  split; [reflexivity|].
  split.
  - intros ts' Heq. rewrite !is_peak_list. by rewrite Heq.
  - intros k. rewrite !is_peak_list. by rewrite ts_time_shift_day.
Qed.

Lemma is_peak_inclusive_any_window_witness :
  well_formed_windows [morning_window]
  /\ is_peak (7 * us_per_hour) (VList [morning_window]) = Ok true
  /\ is_peak (9 * us_per_hour + 30 * us_per_minute + 3 * us_per_day)
       (VList [morning_window]) = Ok true.
Proof.
  assert (Hwf : well_formed_windows [morning_window])
    by (repeat constructor).
  split; [exact Hwf|].
  pose proof (is_peak_inclusive_any_window (7 * us_per_hour) _ Hwf)
    as (_ & _ & Hstart & _).
  pose proof (is_peak_inclusive_any_window
                (9 * us_per_hour + 30 * us_per_minute + 3 * us_per_day) _ Hwf)
    as (_ & _ & Hend & _).
  split.
  - apply (Hstart morning_window (Time 7 0 0 0) (Time 9 30 0 0));
      [apply list_elem_of_here | reflexivity | reflexivity | left; reflexivity].
  - apply (Hend morning_window (Time 7 0 0 0) (Time 9 30 0 0));
      [apply list_elem_of_here | reflexivity | reflexivity | right; reflexivity].
Defined.

(** C10.  A window whose start clock time is strictly after its end clock
    time contains no time-of-day: peak classification against it alone is
    false for every timestamp, and in a longer list it is passed over. *)
Theorem is_peak_wrapping_window_never_matches (w : value) (s e : time)
    (Hb : window_bounds w = Ok (s, e)) (Hwrap : time_lt e s = true) :
  forall ts : Timestamp,
    is_peak ts (VList [w]) = Ok false
    /\ ~ in_window (ts_time ts) w
    /\ forall rest, is_peak ts (VList (w :: rest)) = is_peak ts (VList rest).
Proof.
  intros ts.
  assert (Hout : time_le s (ts_time ts) && time_le (ts_time ts) e = false).
  { destruct (time_le s (ts_time ts)) eqn:H1; [|reflexivity].
    destruct (time_le (ts_time ts) e) eqn:H2; [|reflexivity].
    pose proof (time_le_trans _ _ _ H1 H2) as H3.
    rewrite (time_lt_not_le _ _ Hwrap) in H3. discriminate. }
  assert (Hskip : forall rest,
             is_peak_loop (ts_time ts) (w :: rest) = is_peak_loop (ts_time ts) rest).
  { intros rest. simpl. rewrite Hb. simpl. by rewrite Hout. }
  split; [rewrite is_peak_list; apply Hskip|].
  split.
  - intros (s' & e' & Hb' & Hs & He). rewrite Hb in Hb'. injection Hb' as <- <-.
    rewrite Hs, He in Hout. discriminate.
  - intros rest. rewrite !is_peak_list. apply Hskip.
Qed.

Lemma is_peak_wrapping_window_never_matches_witness :
  window_bounds night_window = Ok (Time 22 0 0 0, Time 1 0 0 0)
  /\ time_lt (Time 1 0 0 0) (Time 22 0 0 0) = true
  /\ is_peak (23 * us_per_hour) (VList [night_window]) = Ok false.
Proof.
  split; [reflexivity|]. split; [reflexivity|].
  apply (is_peak_wrapping_window_never_matches night_window
           (Time 22 0 0 0) (Time 1 0 0 0) eq_refl eq_refl (23 * us_per_hour)).
Defined.

(** ** Cyclical pick *)

Lemma cyclical_pick_list (seq : list value) (i : Z) :
  seq ≠ [] ->
  cyclical_pick (VList seq) i
  = py_index (VList seq) (i mod Z.of_nat (length seq)).
Proof.
  intros Hne.
  assert (Hlen : 0 < Z.of_nat (length seq)) by (destruct seq; [done | simpl; lia]).
  unfold cyclical_pick, py_len. rewrite (bind_Ok_l _ _ _ eq_refl).
  destruct (Z.eqb_spec (Z.of_nat (length seq)) 0) as [E|_]; [lia | reflexivity].
Qed.

Lemma cyclical_pick_lookup (seq : list value) (i : Z) :
  seq ≠ [] ->
  exists x, seq !! Z.to_nat (i mod Z.of_nat (length seq)) = Some x
            /\ cyclical_pick (VList seq) i = Ok x.
Proof.
  intros Hne. rewrite cyclical_pick_list by assumption. unfold py_index.
  assert (Hlen : 0 < Z.of_nat (length seq)) by (destruct seq; [done | simpl; lia]).
  pose proof (Z.mod_pos_bound i _ Hlen) as Hb.
  destruct (seq !! Z.to_nat (i mod Z.of_nat (length seq))) as [x|] eqn:Hx.
  - exists x. split; reflexivity.
  - apply lookup_ge_None in Hx. lia.
Qed.

(** C5.  On a non-empty list the cyclical pick returns the element at
    position [i mod len(seq)], and it is periodic with period [len(seq)]. *)
Theorem cyclical_pick_periodic (seq : list value) (i : Z) (Hne : seq ≠ []) :
  (exists x, seq !! Z.to_nat (i mod Z.of_nat (length seq)) = Some x
             /\ cyclical_pick (VList seq) i = Ok x)
  /\ cyclical_pick (VList seq) (i + Z.of_nat (length seq))
     = cyclical_pick (VList seq) i.
Proof.
  split; [by apply cyclical_pick_lookup|].
  rewrite !cyclical_pick_list by assumption.
  replace (i + Z.of_nat (length seq)) with (i + 1 * Z.of_nat (length seq)) by lia.
  by rewrite Z_mod_plus_full.
Qed.

Lemma cyclical_pick_periodic_witness :
  [VInt 4; VInt 6; VInt 8] ≠ []
  /\ cyclical_pick (VList [VInt 4; VInt 6; VInt 8]) (7 + 3)
     = cyclical_pick (VList [VInt 4; VInt 6; VInt 8]) 7.
Proof.
  assert (Hne : [VInt 4; VInt 6; VInt 8] ≠ []) by discriminate.
  split; [exact Hne|].
  exact (proj2 (cyclical_pick_periodic [VInt 4; VInt 6; VInt 8] 7 Hne)).
Defined.

(** ** Train capacity *)

Lemma train_capacity_fallback (line_def : dict) :
  no_explicit_total line_def ->
  train_capacity line_def =
    (cars ← subscript (VDict line_def) "cars_per_train";
     carriage ← subscript (VDict line_def) "carriage_capacity";
     py_mul cars carriage).
Proof.
  unfold train_capacity, dict_get. intros [Hnone | (v & Hv & Hfalsy)].
  - rewrite Hnone. rewrite bool_decide_eq_false_2; [reflexivity|].
    intros [? ?]; discriminate.
  - rewrite Hv. cbn [default from_option id]. rewrite Hfalsy.
    by rewrite andb_false_r.
Qed.

(** C6.  The train capacity of a line record is its explicit total when
    that is present and truthy; otherwise it is cars_per_train times
    carriage_capacity (the product of the two ints when they are ints); and
    it fails with [KeyError] when there is no usable explicit total and one
    of the two fallback fields is missing. *)
Theorem train_capacity_spec (line_def : dict) :
  (forall v, line_def !! "train_total_capacity" = Some v -> truthy v = true ->
     train_capacity line_def = Ok v)
  /\ (no_explicit_total line_def ->
      (forall a b, line_def !! "cars_per_train" = Some a ->
         line_def !! "carriage_capacity" = Some b ->
         train_capacity line_def = py_mul a b)
      /\ (forall x y, line_def !! "cars_per_train" = Some (VInt x) ->
            line_def !! "carriage_capacity" = Some (VInt y) ->
            train_capacity line_def = Ok (VInt (x * y)))
      /\ (line_def !! "cars_per_train" = None
          \/ line_def !! "carriage_capacity" = None ->
          train_capacity line_def = Raise KeyError)).
Proof.
  split.
  - intros v Hv Ht. unfold train_capacity, dict_get, subscript.
    rewrite Hv. cbn [default from_option id]. rewrite Ht.
    rewrite bool_decide_eq_true_2 by eauto. reflexivity.
  - intros Hno. rewrite (train_capacity_fallback _ Hno). unfold subscript.
    split; [|split].
    + intros a b -> ->. reflexivity.
    + intros x y -> ->. reflexivity.
    + intros [-> | Hb]; [reflexivity|].
      rewrite Hb. destruct (line_def !! "cars_per_train"); reflexivity.
Qed.

Lemma train_capacity_spec_witness :
  no_explicit_total five_car_line
  /\ train_capacity five_car_line = Ok (VInt 1000).
Proof.
  assert (Hno : no_explicit_total five_car_line) by (left; reflexivity).
  split; [exact Hno|].
  destruct (train_capacity_spec five_car_line) as [_ Hfallback].
  destruct (Hfallback Hno) as (_ & Hint & _).
  exact (Hint 5 200 eq_refl eq_refl).
Defined.

(** ** What a row is made of *)

Lemma make_row_built (c : line_ctx) (i : nat) (ts : Timestamp) (r : row) :
  make_row c i ts = Ok r -> exists q, row_built c i ts q r.
Proof.
  unfold make_row. intros H.
  apply bind_Ok in H as (peak & Hpeak & H).
  apply bind_Ok in H as (hw & Hhw & H).
  apply bind_Ok in H as (tph & Htph & H).
  apply bind_Ok in H as (ppm & Hppm & H).
  apply bind_Ok in H as (est & Hest & H).
  apply bind_Ok in H as (r_tph & Hrtph & H).
  apply bind_Ok in H as (r_ppm & Hrppm & H).
  apply bind_Ok in H as (r_est & Hrest & H).
  apply bind_Ok in H as (sp & Hsp & H).
  apply bind_Ok in H as (pp & Hpp & H).
  apply bind_Ok in H as (fp & Hfp & H).
  injection H as <-.
  exists {| q_peak := peak; q_hw_min := hw; q_tph := tph; q_ppm := ppm;
            q_est_present := est |}.
  constructor; simpl; auto.
Qed.

Lemma rows_loop_rows (c : line_ctx) (times : list Timestamp) :
  forall (i : nat) (rows out : list row),
    rows_loop c i times rows = Ok out ->
    length out = (length rows + length times)%nat
    /\ forall r, r ∈ out ->
         r ∈ rows \/ exists k ts q, times !! k = Some ts
                                    /\ row_built c (i + k) ts q r.
Proof.
  induction times as [|ts rest IH]; intros i rows out H; simpl in H.
  - injection H as <-. split; [simpl; lia | auto].
  - apply bind_Ok in H as (r0 & Hr0 & H).
    apply IH in H as [Hlen H]. split.
    { rewrite Hlen, length_app. simpl. lia. }
    intros r Hr. apply H in Hr as [Hr | (k & ts' & q & Hk & Hb)].
    + apply elem_of_app in Hr as [Hr | Hr]; [auto|].
      apply list_elem_of_singleton in Hr as ->.
      apply make_row_built in Hr0 as [q Hq].
      right. exists 0%nat, ts, q. split; [reflexivity|].
      by rewrite Nat.add_0_r.
    + right. exists (S k), ts', q. split; [exact Hk|].
      by replace (i + S k)%nat with (S i + k)%nat by lia.
Qed.

Lemma rows_loop_produced (c : line_ctx) (times : list Timestamp) (out : list row) :
  rows_loop c 0 times [] = Ok out ->
  length out = length times /\ forall r, r ∈ out -> produced_by c times r.
Proof.
  intros H. apply rows_loop_rows in H as [Hlen H]. split; [exact Hlen|].
  intros r Hr. apply H in Hr as [Hr | (k & ts & q & Hk & Hb)].
  - by apply elem_of_nil in Hr.
  - exists k, ts, q. auto.
Qed.

(** ** Stepping through the run *)

Lemma bind_run {A B} (m : M A) (f : A -> M B) (s s' : state) (res : result B) :
  (m ≫= f) s = (res, s') ->
  (exists a s1, m s = (Ok a, s1) /\ f a s1 = (res, s'))
  \/ (exists e, m s = (Raise e, s') /\ res = Raise e).
Proof.
  unfold mbind, M_bind. destruct (m s) as [[a|e] s1]; intros H.
  - left. eauto.
  - right. injection H as <- <-. eauto.
Qed.

Lemma bind_lift_run {A B} (r : result A) (f : A -> M B) (s s' : state)
    (res : result B) :
  (lift r ≫= f) s = (res, s') ->
  (exists a, r = Ok a /\ f a s = (res, s'))
  \/ (exists e, r = Raise e /\ res = Raise e /\ s' = s).
Proof.
  unfold mbind, M_bind, lift. destruct r as [a|e]; intros H.
  - left. eauto.
  - right. injection H as <- <-. eauto.
Qed.

Lemma bind_lift_Ok {A B} (r : result A) (f : A -> M B) (a : A) (s : state) :
  r = Ok a -> (lift r ≫= f) s = f a s.
Proof. intros ->. reflexivity. Qed.

Lemma process_line_outcome (lines : gmap string dict) (times : list Timestamp)
    (dwell : value) (info : station_info) (lnv : value) (s s' : state)
    (res : result unit) :
  process_line lines times dwell info lnv s = (res, s') ->
  line_outcome lines times dwell info lnv s res s'.
Proof.
  unfold process_line. intros H.
  apply bind_lift_run in H as [(line_def & Hget & H) | (e & _ & -> & ->)];
    [|constructor].
  destruct line_def as [d|]; cycle 1.
  { injection H as <- <-. apply line_skipped. auto. }
  destruct (not_line_def (Some d)).
  { injection H as <- <-. apply line_skipped. auto. }
  apply bind_lift_run in H as [(hp & Hhp & H) | (e & _ & -> & ->)];
    [|constructor].
  apply bind_lift_run in H as [(ho & Hho & H) | (e & _ & -> & ->)];
    [|constructor].
  destruct (truthy hp) eqn:Thp; cycle 1.
  { injection H as <- <-. apply line_skipped. auto. }
  destruct (truthy ho) eqn:Tho; cycle 1.
  { injection H as <- <-. apply line_skipped. auto. }
  simpl in H.
  apply bind_lift_run in H as [(cap & Hcap & H) | (e & _ & -> & ->)];
    [|constructor].
  apply bind_lift_run in H as [(rows & Hrows & H) | (e & _ & -> & ->)];
    [|constructor].
  injection H as <- <-.
  destruct lnv as [| | | |k| |]; simpl in Hget; try discriminate.
  injection Hget as Hget.
  eapply (line_processed _ _ _ _ _ _ k d); [reflexivity | | exact Hrows].
  constructor; simpl; auto.
Qed.

Lemma for_each_inv {A} (Inv : state -> Prop) (body : A -> M unit) (l : list A) :
  (forall x s res s', x ∈ l -> Inv s -> body x s = (res, s') -> Inv s') ->
  forall s res s', Inv s -> for_each l body s = (res, s') -> Inv s'.
Proof.
  induction l as [|x rest IH]; intros Hbody s res s' Hs H; simpl in H.
  - injection H as <- <-. exact Hs.
  - apply bind_run in H as [(a & s1 & Hx & H) | (e & Hx & ->)].
    + eapply IH; [| |exact H].
      * intros y t r t' Hy. apply Hbody. by apply list_elem_of_further.
      * eapply Hbody; [apply list_elem_of_here | exact Hs | exact Hx].
    + eapply Hbody; [apply list_elem_of_here | exact Hs | exact Hx].
Qed.

Section RunInvariant.

Variable F : value.
Variable lines : gmap string dict.
Variable times : list Timestamp.
Variable dwell : value.
Variable sts : list value.

Lemma process_line_chunks_ok (st : value) (info : station_info) (lnv : value)
    (s s' : state) (res : result unit) :
  st ∈ sts -> read_station F st = Ok info ->
  chunks_ok F lines times dwell sts s ->
  process_line lines times dwell info lnv s = (res, s') ->
  chunks_ok F lines times dwell sts s'.
Proof.
  intros Hst Hinfo Hs H. apply process_line_outcome in H.
  destruct H as [e | w Hw | k d c rows Hk Hc Hrows]; try exact Hs.
  unfold chunks_ok, add_chunk. simpl.
  apply Forall_app. split; [exact Hs|].
  apply Forall_singleton. exists c. split; [|exact Hrows].
  exists st, k, d. pose proof (ctx_station _ _ _ _ _ _ Hc) as E.
  rewrite E. auto.
Qed.

Lemma process_station_chunks_ok (st : value) (s s' : state) (res : result unit) :
  st ∈ sts -> chunks_ok F lines times dwell sts s ->
  process_station F lines times dwell st s = (res, s') ->
  chunks_ok F lines times dwell sts s'.
Proof.
  intros Hst Hs H. unfold process_station in H.
  apply bind_lift_run in H as [(info & Hinfo & H) | (e & _ & -> & ->)];
    [|exact Hs].
  apply bind_lift_run in H as [(lf & Hlf & H) | (e & _ & -> & ->)];
    [|exact Hs].
  apply bind_lift_run in H as [(ls & Hls & H) | (e & _ & -> & ->)];
    [|exact Hs].
  apply bind_lift_run in H as [(lns & Hlns & H) | (e & _ & -> & ->)];
    [|exact Hs].
  destruct (negb (truthy (VList lns))).
  - injection H as <- <-. exact Hs.
  - eapply for_each_inv; [|exact Hs|exact H].
    intros lnv t r t' _ Ht Hrun.
    eapply process_line_chunks_ok; eauto.
Qed.

End RunInvariant.

Lemma write_and_report_chunks (pyarrow : bool) (CFG : value) (out_dir : string)
    (start : Timestamp) (day_df : DataFrame) (s s' : state) (res : result unit) :
  write_and_report pyarrow CFG out_dir start day_df s = (res, s') ->
  all_chunks s' = all_chunks s.
Proof.
  unfold write_and_report. intros H.
  apply bind_lift_run in H as [(fmt & Hfmt & H) | (e & _ & -> & ->)];
    [|reflexivity].
  revert H. unfold mbind, M_bind, mret, M_ret, emit, lift.
  destruct (String.eqb fmt "csv"), pyarrow, day_df; simpl;
    intros [= <- <-]; reflexivity.
Qed.

Lemma run_main_chunks (now : Timestamp) (pyarrow : bool)
    (CFG stations lines_list : value) :
  all_chunks (run_main now pyarrow CFG stations lines_list).2 = []
  \/ exists F lines times start dwell sts,
       run_setup now CFG stations lines_list F lines times start dwell sts
       /\ chunks_ok F lines times dwell sts
            (run_main now pyarrow CFG stations lines_list).2.
Proof.
  destruct (run_main now pyarrow CFG stations lines_list) as [res s] eqn:H.
  unfold run_main, main in H. simpl.
  set (s0 := {| events := []; all_chunks := [] |}) in H.
  apply bind_lift_run in H as [(F & HF & H) | (e & _ & -> & ->)]; [|auto].
  apply bind_lift_run in H as [([times start] & Hgrid & H) | (e & _ & -> & ->)];
    [|auto].
  apply bind_lift_run in H as [(x1 & _ & H) | (e & _ & -> & ->)]; [|auto].
  apply bind_lift_run in H as [(x2 & _ & H) | (e & _ & -> & ->)]; [|auto].
  apply bind_lift_run in H as [(lines & Hlines & H) | (e & _ & -> & ->)]; [|auto].
  apply bind_lift_run in H as [(dwell & Hdwell & H) | (e & _ & -> & ->)]; [|auto].
  apply bind_lift_run in H as [(od & _ & H) | (e & _ & -> & ->)]; [|auto].
  destruct od as [| | | |out_dir| |]; try (injection H as <- <-; auto).
  apply bind_run in H as [(u & s1 & Hmk & H) | (e & Hmk & ->)];
    [|discriminate Hmk].
  injection Hmk as <- <-.
  apply bind_lift_run in H as [(sts & Hsts & H) | (e & _ & -> & ->)]; [|auto].
  right. exists F, lines, times, start, dwell, sts. split.
  { constructor; auto. apply bind_Ok in Hlines as (xs & ? & ?). eauto. }
  assert (Hinit : chunks_ok F lines times dwell sts (add_event (MadeDir out_dir) s0))
    by constructor.
  fold (add_event (MadeDir out_dir) s0) in H.
  apply bind_run in H as [(u & s1 & Hloop & H) | (e & Hloop & ->)].
  - assert (Hs1 : chunks_ok F lines times dwell sts s1).
    { eapply for_each_inv; [|exact Hinit|exact Hloop].
      intros st t r t' Hst Ht Hrun.
      eapply process_station_chunks_ok; eauto. }
    unfold get_chunks in H. unfold mbind, M_bind in H.
    destruct (all_chunks s1) eqn:Hch.
    + injection H as <- <-. exact Hs1.
    + apply write_and_report_chunks in H. unfold chunks_ok. rewrite H. exact Hs1.
  - eapply for_each_inv; [|exact Hinit|exact Hloop].
    intros st t r t' Hst Ht Hrun.
    eapply process_station_chunks_ok; eauto.
Qed.

(** Every produced row comes from a reachable context and a grid index. *)
Lemma run_main_rows (now : Timestamp) (pyarrow : bool)
    (CFG stations lines_list : value) (r : row) :
  r ∈ produced_rows (run_main now pyarrow CFG stations lines_list).2 ->
  exists F lines times start dwell sts c,
    run_setup now CFG stations lines_list F lines times start dwell sts
    /\ valid_ctx F lines dwell sts c
    /\ produced_by c times r.
Proof.
  intros Hr. unfold produced_rows in Hr.
  apply list_elem_of_In, in_concat in Hr as (df & Hdf & Hr).
  destruct (run_main_chunks now pyarrow CFG stations lines_list)
    as [Hnil | (F & lines & times & start & dwell & sts & Hsetup & Hok)].
  { rewrite Hnil in Hdf. destruct Hdf. }
  unfold chunks_ok in Hok. rewrite Forall_forall in Hok.
  apply list_elem_of_In, Hok in Hdf as (c & Hc & Hloop).
  apply rows_loop_produced in Hloop as [_ Hloop].
  exists F, lines, times, start, dwell, sts, c.
  split; [exact Hsetup|]. split; [exact Hc|].
  apply Hloop. by apply list_elem_of_In.
Qed.

(** ** Rates *)

Lemma compute_tph_Ok (hw : value) (tph : float) :
  compute_tph hw = Ok tph ->
  exists h, to_float hw = Ok h /\ PyFloat.is_zero h = false
            /\ tph = PyFloat.div PyFloat.f60 h.
Proof.
  unfold compute_tph, float_div. intros H.
  apply bind_Ok in H as (h & Hh & H). exists h.
  destruct (PyFloat.is_zero h); [discriminate|].
  injection H as <-. auto.
Qed.

Lemma compute_ppm_Ok (tph : float) (cap_train : value) (ppm : float) :
  compute_ppm tph cap_train = Ok ppm ->
  exists cap, to_float cap_train = Ok cap
              /\ ppm = PyFloat.div (PyFloat.mul tph cap) PyFloat.f60.
Proof.
  unfold compute_ppm, float_mul. intros H.
  apply bind_Ok in H as (t & Ht & H).
  apply bind_Ok in Ht as (cap & Hcap & Ht).
  injection Ht as <-. injection H as <-. eauto.
Qed.

(** C1.  For every row the run produces, trains_per_hour is 60 divided by
    the selected headway and passengers_per_min is trains_per_hour times
    the train capacity of the line divided by 60, each rounded to 3
    decimals in the row. *)
Theorem rows_rates_formulas (now : Timestamp) (pyarrow : bool)
    (CFG stations lines_list : value) (r : row)
    (Hr : r ∈ produced_rows (run_main now pyarrow CFG stations lines_list).2) :
  row_rates now CFG stations lines_list r.
Proof.
  apply run_main_rows in Hr
    as (F & lines & times & start & dwell & sts & c & Hsetup & Hc & Hprod).
  destruct Hc as (st & k & d & Hst & Hinfo & Hc).
  destruct Hprod as (i & ts & q & Hi & Hb).
  destruct Hc, Hb.
  apply compute_tph_Ok in built_tph0 as (h & Hh & _ & Htph).
  apply compute_ppm_Ok in built_ppm0 as (cap & Hcap & Hppm).
  exists F, lines, times, start, dwell, sts, k, d, (hw_peak c), (hw_off c), i,
         h, cap, (q_tph q), (q_ppm q).
  rewrite built_line_name0, built_capacity0, built_timestamp0,
    built_is_peak0, built_headway0.
  split; [exact Hsetup|]. repeat split; auto.
Qed.

(** ** Example inputs *)

(** The end-to-end example: two rows, at 06:00 and 06:30, off-peak, with
    headway 10, 6 trains per hour, 100 passengers per minute, 1200 present
    and a station crowding of 120 percent. *)
Lemma example_run_rows :
  example_run.1 = Ok tt
  /\ produced_rows example_run.2
     = [example_row (6 * us_per_hour);
        example_row (6 * us_per_hour + 30 * us_per_minute)].
Proof. split; vm_compute; reflexivity. Qed.

Lemma rows_rates_formulas_witness :
  example_row (6 * us_per_hour) ∈ produced_rows example_run.2
  /\ row_rates 0 (example_config 6 1 30) (example_stations (VInt 1000) "L1")
       (example_lines "L1" (VInt 1000) [VInt 10] [VInt 10])
       (example_row (6 * us_per_hour)).
Proof.
  assert (Hr : example_row (6 * us_per_hour) ∈ produced_rows example_run.2).
  { apply list_elem_of_In. vm_compute. left. reflexivity. }
  split; [exact Hr|].
  exact (rows_rates_formulas 0 true _ _ _ _ Hr).
Defined.

(** ** Estimated present *)

(** C2, as stated, fails: with the default dwell of 12, a headway of 48 and
    a capacity of 550 the row carries passengers_per_min = 11.458 and
    estimated_present = 138, while round(11.458 * 12) = 137. *)
Lemma estimated_present_not_from_emitted_ppm :
  ~ (forall (now : Timestamp) (pyarrow : bool) (CFG stations lines_list : value)
            (dwell : value) (r : row),
        r ∈ produced_rows (run_main now pyarrow CFG stations lines_list).2 ->
        configured_dwell CFG = Ok dwell ->
        est_from_emitted_ppm dwell r = Ok (estimated_present r)).
Proof.
  intros H.
  destruct (produced_rows slow_line_run.2) as [|r rest] eqn:Hrows;
    [vm_compute in Hrows; discriminate|].
  assert (Hr : r ∈ produced_rows slow_line_run.2)
    by (rewrite Hrows; apply list_elem_of_here).
  specialize (H 0 true _ _ _ (VInt 12) r Hr eq_refl).
  vm_compute in Hrows. injection Hrows as <- _.
  vm_compute in H. discriminate H.
Qed.

(** C2, amended.  For every row the run produces, estimated_present is
    round(ppm * dwell) where ppm is the passengers-per-minute value before
    its rounding to 3 decimals and dwell the configured dwell time. *)
Theorem estimated_present_from_unrounded_ppm (now : Timestamp) (pyarrow : bool)
    (CFG stations lines_list : value) (r : row)
    (Hr : r ∈ produced_rows (run_main now pyarrow CFG stations lines_list).2) :
  row_estimate CFG r.
Proof.
  apply run_main_rows in Hr
    as (F & lines & times & start & dwell & sts & c & Hsetup & Hc & Hprod).
  destruct Hc as (st & k & d & Hst & Hinfo & Hc).
  destruct Hprod as (i & ts & q & Hi & Hb).
  destruct Hc, Hb, Hsetup.
  apply compute_tph_Ok in built_tph0 as (h & Hh & _ & Htph).
  apply compute_ppm_Ok in built_ppm0 as (cap & Hcap & Hppm).
  exists dwell, h, cap, (q_ppm q), (q_est_present q).
  rewrite built_capacity0, built_headway0.
  rewrite <- Htph, <- ctx_dwell0. unfold compute_est_present in built_est0.
  repeat split; auto.
  congruence.
Qed.

Lemma estimated_present_from_unrounded_ppm_witness :
  example_row (6 * us_per_hour) ∈ produced_rows example_run.2
  /\ row_estimate (example_config 6 1 30) (example_row (6 * us_per_hour)).
Proof.
  assert (Hr : example_row (6 * us_per_hour) ∈ produced_rows example_run.2).
  { apply list_elem_of_In. vm_compute. left. reflexivity. }
  split; [exact Hr|].
  exact (estimated_present_from_unrounded_ppm 0 true _ _ _ _ Hr).
Defined.

(** ** Percentages *)

Lemma truthy_numeric (cap : value) :
  numeric_or_absent cap -> (truthy cap = true <-> present_nonzero cap).
Proof.
  unfold present_nonzero.
  intros [-> | [n Hn]]; [simpl; split; [discriminate | tauto]|].
  destruct cap as [|b|z|f|s|l|d]; simpl in *; try discriminate.
  - destruct b; split; auto; try discriminate; lia.
  - rewrite negb_true_iff. apply Z.eqb_neq.
  - apply negb_true_iff.
Qed.

Lemma when_cap_pct (cap : value) (numerator : float) (field : option float) :
  when_cap cap
    (q ← float_div (PyFloat.mul PyFloat.f100 numerator) cap;
     PyFloat.round_ndigits q 2) = Ok field ->
  pct_field cap numerator field.
Proof.
  unfold when_cap, pct_field. intros H.
  assert (Hiff : is_Some field <-> truthy cap = true).
  { destruct (truthy cap).
    - apply bind_Ok in H as (x & _ & [= <-]). split; eauto.
    - injection H as <-. split; [intros [? ?]|]; discriminate. }
  split; [exact Hiff|]. split.
  { intros Hnum. rewrite Hiff. by apply truthy_numeric. }
  intros x ->. destruct (truthy cap); [|discriminate].
  apply bind_Ok in H as (y & Hy & [= ->]).
  apply bind_Ok in Hy as (q & Hq & Hy).
  unfold float_div in Hq. apply bind_Ok in Hq as (capf & Hcapf & Hq).
  exists capf. destruct (PyFloat.is_zero capf); [discriminate|].
  injection Hq as <-. auto.
Qed.

(** C8.  For every row the run produces, each of the three percentage
    keys is present exactly when the corresponding capacity of the row's
    station is truthy (present and not zero, for a capacity that is a
    number or missing), and then crowding_station_pct is
    100 * est_present / occupancy cap, crowding_platform_pct is
    100 * (est_present * 0.4) / platform cap and flow_vs_peak_pct is
    100 * (ppm * 60) / peak cap, each rounded to 2 decimals, with
    est_present and ppm the values before their rounding for output. *)
Theorem rows_percentages (now : Timestamp) (pyarrow : bool)
    (CFG stations lines_list : value) (r : row)
    (Hr : r ∈ produced_rows (run_main now pyarrow CFG stations lines_list).2) :
  row_percentages now CFG stations lines_list r.
Proof.
  apply run_main_rows in Hr
    as (F & lines & times & start & dwell & sts & c & Hsetup & Hc & Hprod).
  destruct Hc as (st & k & d & Hst & Hinfo & Hc).
  destruct Hprod as (i & ts & q & Hi & Hb).
  destruct Hc, Hb.
  apply compute_tph_Ok in built_tph0 as (h & Hh & _ & Htph).
  apply compute_ppm_Ok in built_ppm0 as (cap & Hcap & Hppm).
  exists F, lines, times, start, dwell, sts, st, (station c), h, cap,
         (q_ppm q), (q_est_present q).
  rewrite built_capacity0, built_headway0.
  rewrite <- Htph. unfold compute_est_present in built_est0.
  rewrite ctx_dwell0 in built_est0.
  split; [exact Hsetup|].
  do 10 (split; [solve [auto]|]).
  split; [|split]; apply when_cap_pct; assumption.
Qed.

Lemma rows_percentages_witness :
  example_row (6 * us_per_hour) ∈ produced_rows example_run.2
  /\ row_percentages 0 (example_config 6 1 30)
       (example_stations (VInt 1000) "L1")
       (example_lines "L1" (VInt 1000) [VInt 10] [VInt 10])
       (example_row (6 * us_per_hour)).
Proof.
  assert (Hr : example_row (6 * us_per_hour) ∈ produced_rows example_run.2).
  { apply list_elem_of_In. vm_compute. left. reflexivity. }
  split; [exact Hr|].
  exact (rows_percentages 0 true _ _ _ _ Hr).
Defined.

(** ** Skipped pairs *)

Lemma lines_of_named (xs : list value) :
  forall (acc lines : gmap string dict),
    lines_of xs acc = Ok lines ->
    (forall k d, acc !! k = Some d -> d !! "line_name" = Some (VStr k)) ->
    forall k d, lines !! k = Some d -> d !! "line_name" = Some (VStr k).
Proof.
  induction xs as [|x rest IH]; intros acc lines H Hacc; simpl in H.
  - injection H as <-. exact Hacc.
  - apply bind_Ok in H as (name & Hname & H).
    destruct name as [| | | |k0| |]; try discriminate.
    destruct x as [| | | | | |d0]; try discriminate.
    eapply IH; [exact H|].
    intros k d. rewrite lookup_insert. case_decide as Hk.
    + intros [= <-]. subst k0. simpl in Hname.
      destruct (d0 !! "line_name"); [|discriminate]. by injection Hname as ->.
    + apply Hacc.
Qed.

Lemma pattern_absent_or_empty_falsy (d : dict) (k : string) :
  pattern_absent_or_empty d k ->
  headway_pattern d k = Ok (VList [])
  /\ forall k', exists v, headway_pattern d k' = Ok v.
Proof.
  unfold pattern_absent_or_empty, headway_pattern, dict_get.
  destruct (d !! "headway_patterns") as [hpv|]; simpl.
  - destruct hpv as [| | | | | |hp]; try tauto.
    + intros _. split; [reflexivity | intros k'; eexists; reflexivity].
    + intros Hk. unfold py_or at 2 4. simpl.
      destruct (bool_decide (hp = ∅)) eqn:Hemp; simpl.
      * split; [reflexivity | intros k'; eexists; reflexivity].
      * split; [|intros k'; eexists; reflexivity].
        unfold dict_get. destruct Hk as [-> | [-> | ->]]; reflexivity.
  - intros _. split; [reflexivity | intros k'; eexists; reflexivity].
Qed.

Lemma skipped_with_intro (lines : gmap string dict) (times : list Timestamp)
    (dwell : value) (info : station_info) (lnv : value) (w : event) :
  (forall s, process_line lines times dwell info lnv s = (Ok tt, add_event w s)) ->
  skipped_with lines times dwell info lnv w.
Proof.
  intros H rest s. exists (add_event w s).
  split; [apply H|]. split; [reflexivity|]. split; [reflexivity|].
  simpl. unfold mbind at 1, M_bind. by rewrite H.
Qed.

(** C7.  With [lines] the mapping built from the line seed data: a pair
    whose line name is not in [lines], and a pair whose line has an absent
    or empty peak or off-peak headway pattern, contributes no rows, prints
    a warning, and the loop continues with the next line; a station whose
    list of lines is absent or empty leaves the run as it was, without
    error. *)
Theorem skipped_pairs_warn_and_continue (xs : list value)
    (lines : gmap string dict) (times : list Timestamp) (dwell : value)
    (info : station_info) (Hlines : lines_of xs ∅ = Ok lines) :
  (forall k, lines !! k = None ->
     skipped_with lines times dwell info (VStr k) (WarnLineMissing (VStr k)))
  /\ (forall k d, lines !! k = Some d ->
        pattern_absent_or_empty d "peak_min"
        \/ pattern_absent_or_empty d "offpeak_min" ->
        skipped_with lines times dwell info (VStr k)
          (WarnHeadwayIncomplete (VStr k)))
  /\ (forall F st lines_field s,
        is_ok (read_station F st) = true ->
        station_field st F "lines_field" = Ok lines_field ->
        lines_field = VNone \/ lines_field = VList [] ->
        process_station F lines times dwell st s = (Ok tt, s)).
Proof.
  split; [|split].
  - intros k Hk. apply skipped_with_intro. intros s.
    unfold process_line. simpl. rewrite (bind_lift_Ok _ _ None) by (by rewrite <- Hk).
    reflexivity.
  - intros k d Hk Hpat. apply skipped_with_intro. intros s.
    assert (Hname : d !! "line_name" = Some (VStr k)).
    { eapply lines_of_named; [exact Hlines | | exact Hk].
      intros k' d'. by rewrite lookup_empty. }
    assert (Hne : not_line_def (Some d) = false).
    { simpl. rewrite bool_decide_eq_false_2; [reflexivity|].
      intros ->. by rewrite lookup_empty in Hname. }
    unfold process_line.
    rewrite (bind_lift_Ok _ _ (Some d)) by (simpl; by rewrite Hk).
    rewrite Hne.
    destruct Hpat as [Hpat | Hpat];
      apply pattern_absent_or_empty_falsy in Hpat as [Hempty Hother].
    + rewrite (bind_lift_Ok _ _ _ _ Hempty).
      destruct (Hother "offpeak_min") as [v Hv].
      rewrite (bind_lift_Ok _ _ _ _ Hv). reflexivity.
    + destruct (Hother "peak_min") as [v Hv].
      rewrite (bind_lift_Ok _ _ _ _ Hv).
      rewrite (bind_lift_Ok _ _ _ _ Hempty).
      simpl. by rewrite orb_true_r.
  - intros F st lf s Hinfo Hlf Hfalsy. unfold process_station.
    destruct (read_station F st) as [i|] eqn:Hi; [|discriminate].
    rewrite (bind_lift_Ok _ _ _ _ eq_refl).
    rewrite (bind_lift_Ok _ _ _ _ Hlf).
    destruct Hfalsy as [-> | ->]; reflexivity.
Qed.

Lemma skipped_pairs_warn_and_continue_witness :
  lines_of example_line_records ∅ = Ok example_line_map
  /\ skipped_with example_line_map [6 * us_per_hour] (VInt 12)
       example_station_info (VStr "L9") (WarnLineMissing (VStr "L9"))
  /\ skipped_with example_line_map [6 * us_per_hour] (VInt 12)
       example_station_info (VStr "L2") (WarnHeadwayIncomplete (VStr "L2")).
Proof.
  assert (Hlines : lines_of example_line_records ∅ = Ok example_line_map)
    by (vm_compute; reflexivity).
  split; [exact Hlines|].
  destruct (skipped_pairs_warn_and_continue _ _ [6 * us_per_hour] (VInt 12)
              example_station_info Hlines) as (Hmissing & Hpattern & _).
  split.
  - apply Hmissing. vm_compute. reflexivity.
  - apply (Hpattern "L2" example_line_without_peak).
    + vm_compute. reflexivity.
    + left. vm_compute. left. reflexivity.
Defined.

(** ** An int above zero converts to a float above zero *)

Lemma shr_1_m (mrs : shr_record) : 0 <= shr_m mrs -> shr_m (shr_1 mrs) = shr_m mrs / 2.
Proof.
  destruct mrs as [m r s]. simpl. intros Hm.
  destruct m as [|p|p]; [reflexivity| |lia].
  destruct p as [p|p|]; simpl.
  - apply Z.div_unique with 1; lia.
  - apply Z.div_unique with 0; lia.
  - reflexivity.
Qed.

Lemma iter_pos_shr_1_m (p : positive) : forall mrs, 0 <= shr_m mrs ->
  shr_m (SpecFloat.iter_pos shr_1 p mrs) = shr_m mrs / 2 ^ Zpos p.
Proof.
  assert (Hpow : forall q, 0 < 2 ^ Zpos q) by (intros q; apply Z.pow_pos_nonneg; lia).
  induction p as [p IH|p IH|]; intros mrs Hm.
  - assert (E : 2 ^ Zpos p~1 = 2 * 2 ^ Zpos p * 2 ^ Zpos p).
    { rewrite <- Z.mul_assoc, <- Z.pow_add_r, <- Z.pow_succ_r by lia. f_equal. lia. }
    rewrite E. cbn [SpecFloat.iter_pos].
    assert (H1 : 0 <= shr_m (shr_1 mrs)) by (rewrite shr_1_m by lia; apply Z.div_pos; lia).
    assert (H2 : 0 <= shr_m (SpecFloat.iter_pos shr_1 p (shr_1 mrs)))
      by (rewrite IH by lia; apply Z.div_pos; [lia | apply Hpow]).
    rewrite IH, IH, shr_1_m by lia.
    pose proof (Hpow p).
    rewrite !Z.div_div by lia. f_equal. lia.
  - assert (E : 2 ^ Zpos p~0 = 2 ^ Zpos p * 2 ^ Zpos p).
    { rewrite <- Z.pow_add_r by lia. f_equal. lia. }
    rewrite E. cbn [SpecFloat.iter_pos].
    assert (H2 : 0 <= shr_m (SpecFloat.iter_pos shr_1 p mrs))
      by (rewrite IH by lia; apply Z.div_pos; [lia | apply Hpow]).
    rewrite IH, IH by lia.
    pose proof (Hpow p).
    rewrite !Z.div_div by lia. reflexivity.
  - cbn [SpecFloat.iter_pos]. rewrite shr_1_m by lia. reflexivity.
Qed.

Lemma digits2_pos_lower (p : positive) : 2 ^ (Zpos (digits2_pos p) - 1) <= Zpos p.
Proof.
  induction p as [p IH|p IH|]; simpl digits2_pos.
  - rewrite Pos2Z.inj_succ. replace (Z.succ (Zpos (digits2_pos p)) - 1) with (1 + (Zpos (digits2_pos p) - 1)) by lia.
    rewrite Z.pow_add_r by lia. lia.
  - rewrite Pos2Z.inj_succ. replace (Z.succ (Zpos (digits2_pos p)) - 1) with (1 + (Zpos (digits2_pos p) - 1)) by lia.
    rewrite Z.pow_add_r by lia. lia.
  - simpl. lia.
Qed.

Lemma shr_fexp_pos (m e : Z) (l : location) :
  0 < m -> emin PyFloat.prec PyFloat.emax <= e ->
  0 < shr_m (fst (shr_fexp PyFloat.prec PyFloat.emax m e l)) /\ emin PyFloat.prec PyFloat.emax <= snd (shr_fexp PyFloat.prec PyFloat.emax m e l).
Proof.
  intros Hm He. unfold shr_fexp, shr.
  destruct m as [|p|p]; try lia. simpl Zdigits2.
  set (d := Zpos (digits2_pos p)).
  assert (Hd : 2 ^ (d - 1) <= Zpos p) by apply digits2_pos_lower.
  assert (sm : forall x, shr_m (shr_record_of_loc x l) = x) by (intros x; destruct l as [|[]]; reflexivity).
  destruct (fexp PyFloat.prec PyFloat.emax (d + e) - e) as [|n|n] eqn:Hn; simpl fst; simpl snd.
  - rewrite sm. lia.
  - rewrite iter_pos_shr_1_m by (rewrite sm; lia). rewrite sm.
    split.
    + apply Z.div_str_pos. split; [apply Z.pow_pos_nonneg; lia|].
      etransitivity; [|exact Hd]. apply Z.pow_le_mono_r; [lia|].
      unfold fexp, emin, PyFloat.prec, PyFloat.emax in *. lia.
    + lia.
  - rewrite sm. lia.
Qed.

Lemma binary_round_aux_pos (m e : Z) (l : location) :
  0 < m -> emin PyFloat.prec PyFloat.emax <= e ->
  match binary_round_aux PyFloat.prec PyFloat.emax false m e l with
  | S754_finite false _ _ | S754_infinity false => True
  | _ => False
  end.
Proof.
  intros Hm He. unfold binary_round_aux.
  pose proof (shr_fexp_pos m e l Hm He) as [H1 H1e].
  destruct (shr_fexp PyFloat.prec PyFloat.emax m e l) as [mrs' e'] eqn:E1. simpl in H1, H1e.
  set (m1 := round_nearest_even (shr_m mrs') (loc_of_shr_record mrs')).
  assert (Hm1 : 0 < m1).
  { unfold m1, round_nearest_even. destruct (loc_of_shr_record mrs') as [|[]]; try lia.
    destruct (Z.even (shr_m mrs')); lia. }
  pose proof (shr_fexp_pos m1 e' loc_Exact Hm1 H1e) as [H2 _].
  destruct (shr_fexp PyFloat.prec PyFloat.emax m1 e' loc_Exact) as [mrs'' e''] eqn:E2. simpl in H2.
  destruct (shr_m mrs''); try lia.
  destruct (e'' <=? PyFloat.emax - PyFloat.prec); exact I.
Qed.

Lemma of_Z_pos (z : Z) : 0 < z -> PyFloat.is_pos (PyFloat.of_Z z) = true.
Proof.
  intros Hz. destruct z as [|p|p]; try lia.
  unfold PyFloat.of_Z, binary_normalize, binary_round.
  destruct (shl_align p 0 (fexp PyFloat.prec PyFloat.emax (Zpos (digits2_pos p) + 0)))
    as [mz ez] eqn:Hal.
  assert (Hez : emin PyFloat.prec PyFloat.emax <= ez).
  { unfold shl_align in Hal.
    destruct (fexp PyFloat.prec PyFloat.emax (Zpos (digits2_pos p) + 0) - 0) eqn:Hd;
      injection Hal as <- <-.
    - unfold emin, PyFloat.prec, PyFloat.emax. lia.
    - unfold emin, PyFloat.prec, PyFloat.emax. lia.
    - unfold fexp. lia. }
  pose proof (binary_round_aux_pos (Zpos mz) ez loc_Exact ltac:(lia) Hez) as H.
  destruct (binary_round_aux PyFloat.prec PyFloat.emax false (Zpos mz) ez loc_Exact)
    as [| [] | | [] ? ?]; simpl; tauto.
Qed.

(** ** The division by the headway *)

(** C9, as stated, fails: the int [2^1024] is a positive headway value, and
    dividing 60.0 by it raises (OverflowError: the int does not convert to
    a float). *)
Lemma positive_headway_division_can_raise :
  ~ (forall hw : value, positive_number hw -> is_ok (compute_tph hw) = true).
Proof.
  intros H. specialize (H (VInt (2 ^ 1024))).
  assert (Hpos : positive_number (VInt (2 ^ 1024))) by (vm_compute; reflexivity).
  apply H in Hpos. vm_compute in Hpos. discriminate Hpos.
Qed.

Lemma positive_double_to_float (hw : value) :
  positive_double hw ->
  exists h, to_float hw = Ok h /\ PyFloat.is_pos h = true.
Proof.
  unfold positive_double, positive_number, to_float. intros [Hpos Hok].
  destruct (as_number hw) as [[z|f]|]; [| |contradiction].
  - unfold PyFloat.of_int in *. pose proof (of_Z_pos z Hpos) as Hz.
    destruct (PyFloat.is_inf (PyFloat.of_Z z)); [discriminate|]. eauto.
  - eauto.
Qed.

Lemma compute_tph_positive (hw : value) :
  positive_double hw ->
  exists h, to_float hw = Ok h /\ PyFloat.is_pos h = true
            /\ compute_tph hw = Ok (PyFloat.div PyFloat.f60 h).
Proof.
  intros H. apply positive_double_to_float in H as (h & Hh & Hpos).
  exists h. split; [exact Hh|]. split; [exact Hpos|].
  unfold compute_tph, float_div. rewrite Hh. simpl.
  destruct h as [| | |[] ? ?]; try discriminate; reflexivity.
Qed.

(** C9, amended.  The division [60.0 / hw_min] has no guard.  When every
    value of both headway lists of a line is a positive float or a positive
    int that converts to a double, then at every grid index and for either
    peak flag the cyclical pick returns such a value [hw] and the division
    returns [60.0 / hw]; and there is an input with a headway of 0 on which
    the run ends with ZeroDivisionError, after no warning and with no row
    collected. *)
Theorem positive_headways_division_safe (hw_peak hw_off : list value)
    (Hpeak_ne : hw_peak ≠ []) (Hoff_ne : hw_off ≠ [])
    (Hpeak : Forall positive_double hw_peak)
    (Hoff : Forall positive_double hw_off) :
  (forall (peak : bool) (i : Z),
     exists hw h,
       cyclical_pick (if peak then VList hw_peak else VList hw_off) i = Ok hw
       /\ to_float hw = Ok h /\ PyFloat.is_pos h = true
       /\ compute_tph hw = Ok (PyFloat.div PyFloat.f60 h))
  /\ compute_tph (VInt 0) = Raise ZeroDivisionError
  /\ compute_tph (VFloat (S754_zero false)) = Raise ZeroDivisionError
  /\ zero_headway_run.1 = Raise ZeroDivisionError
  /\ events zero_headway_run.2 = [MadeDir "out"]
  /\ all_chunks zero_headway_run.2 = [].
Proof.
  split.
  - intros peak i.
    assert (Hpick : forall l, l ≠ [] -> Forall positive_double l ->
              exists hw h, cyclical_pick (VList l) i = Ok hw
                /\ to_float hw = Ok h /\ PyFloat.is_pos h = true
                /\ compute_tph hw = Ok (PyFloat.div PyFloat.f60 h)).
    { intros l Hne Hall.
      destruct (cyclical_pick_lookup l i Hne) as (hw & Hlook & Hpick).
      rewrite Forall_lookup in Hall.
      destruct (compute_tph_positive hw (Hall _ _ Hlook)) as (h & ? & ? & ?).
      exists hw, h. auto. }
    destruct peak; auto.
  - repeat split; vm_compute; reflexivity.
Qed.

Lemma positive_headways_division_safe_witness :
  [VInt 4; VFloat (PyFloat.of_Z 6)] ≠ [] /\ [VInt 10] ≠ []
  /\ Forall positive_double [VInt 4; VFloat (PyFloat.of_Z 6)]
  /\ Forall positive_double [VInt 10]
  /\ zero_headway_run.1 = Raise ZeroDivisionError.
Proof.
  assert (H1 : [VInt 4; VFloat (PyFloat.of_Z 6)] ≠ []) by discriminate.
  assert (H2 : [VInt 10] ≠ []) by discriminate.
  assert (H3 : Forall positive_double [VInt 4; VFloat (PyFloat.of_Z 6)])
    by (repeat constructor).
  assert (H4 : Forall positive_double [VInt 10]) by (repeat constructor).
  do 4 (split; [assumption|]).
  exact (proj1 (proj2 (proj2 (proj2
           (positive_headways_division_safe _ _ H1 H2 H3 H4))))).
Defined.

(** ** Only the empty-result test raises SystemExit *)

Create HintDb no_exit.

Lemma no_exit_Ok {A} (a : A) : no_exit (Ok a).
Proof. discriminate. Qed.

Lemma no_exit_bind {A B} (m : result A) (f : A -> result B) :
  no_exit m -> (forall a, no_exit (f a)) -> no_exit (m ≫= f).
Proof.
  intros Hm Hf. destruct m as [a|e]; [apply Hf|].
  intros H. apply Hm. injection H as ->. reflexivity.
Qed.

Ltac no_exit_step :=
  first
    [ solve [auto with no_exit nocore]
    | apply no_exit_Ok
    | discriminate
    | apply no_exit_bind; [|intros ?]
    | match goal with
      | |- no_exit (match ?x with _ => _ end) => destruct x
      | |- no_exit (if ?x then _ else _) => destruct x
      end ].

Ltac no_exit_tac := repeat no_exit_step.

Lemma no_exit_subscript (v : value) (k : string) : no_exit (subscript v k).
Proof. unfold subscript. no_exit_tac. Qed.
#[local] Hint Resolve no_exit_subscript : no_exit.

Lemma no_exit_py_get (v : value) (k : string) : no_exit (py_get v k).
Proof. unfold py_get. no_exit_tac. Qed.
#[local] Hint Resolve no_exit_py_get : no_exit.

Lemma no_exit_py_iter (v : value) : no_exit (py_iter v).
Proof. unfold py_iter. no_exit_tac. Qed.
#[local] Hint Resolve no_exit_py_iter : no_exit.

Lemma no_exit_to_float (v : value) : no_exit (to_float v).
Proof. unfold to_float, PyFloat.of_int. no_exit_tac. Qed.
#[local] Hint Resolve no_exit_to_float : no_exit.

Lemma no_exit_float_mul (a : float) (v : value) : no_exit (float_mul a v).
Proof. unfold float_mul. no_exit_tac. Qed.
#[local] Hint Resolve no_exit_float_mul : no_exit.

Lemma no_exit_float_div (a : float) (v : value) : no_exit (float_div a v).
Proof. unfold float_div. no_exit_tac. Qed.
#[local] Hint Resolve no_exit_float_div : no_exit.

Lemma no_exit_round_ndigits (x : float) (n : N) :
  no_exit (PyFloat.round_ndigits x n).
Proof. unfold PyFloat.round_ndigits. no_exit_tac. Qed.
#[local] Hint Resolve no_exit_round_ndigits : no_exit.

Lemma no_exit_round_int (x : float) : no_exit (PyFloat.round_int x).
Proof. unfold PyFloat.round_int. no_exit_tac. Qed.
#[local] Hint Resolve no_exit_round_int : no_exit.

Lemma no_exit_py_mul (a b : value) : no_exit (py_mul a b).
Proof. unfold py_mul. no_exit_tac. Qed.
#[local] Hint Resolve no_exit_py_mul : no_exit.

Lemma no_exit_strptime_HM (v : value) : no_exit (strptime_HM v).
Proof. unfold strptime_HM. no_exit_tac. Qed.
#[local] Hint Resolve no_exit_strptime_HM : no_exit.

Lemma no_exit_window_bounds (w : value) : no_exit (window_bounds w).
Proof. unfold window_bounds. no_exit_tac. Qed.
#[local] Hint Resolve no_exit_window_bounds : no_exit.

Lemma no_exit_is_peak_loop (tod : time) (ws : list value) :
  no_exit (is_peak_loop tod ws).
Proof. induction ws as [|w ws IH]; cbn [is_peak_loop]; no_exit_tac. Qed.
#[local] Hint Resolve no_exit_is_peak_loop : no_exit.

Lemma no_exit_is_peak (ts : Timestamp) (v : value) : no_exit (is_peak ts v).
Proof. unfold is_peak. no_exit_tac. Qed.
#[local] Hint Resolve no_exit_is_peak : no_exit.

Lemma no_exit_cyclical_pick (v : value) (i : Z) : no_exit (cyclical_pick v i).
Proof. unfold cyclical_pick, py_len, py_index. destruct v; no_exit_tac. Qed.
#[local] Hint Resolve no_exit_cyclical_pick : no_exit.

Lemma no_exit_train_capacity (d : dict) : no_exit (train_capacity d).
Proof. unfold train_capacity. no_exit_tac. Qed.
#[local] Hint Resolve no_exit_train_capacity : no_exit.

Lemma no_exit_when_cap (cap : value) (r : result float) :
  no_exit r -> no_exit (when_cap cap r).
Proof. intros H. unfold when_cap. no_exit_tac. Qed.

Lemma no_exit_make_row (c : line_ctx) (i : nat) (ts : Timestamp) :
  no_exit (make_row c i ts).
Proof.
  unfold make_row, compute_tph, compute_ppm, compute_est_present.
  no_exit_tac.
  all: apply no_exit_when_cap;
    unfold compute_crowding_station, compute_crowding_platform,
      compute_flow_vs_peak;
    no_exit_tac.
Qed.
#[local] Hint Resolve no_exit_make_row : no_exit.

Lemma no_exit_rows_loop (c : line_ctx) (times : list Timestamp) :
  forall i rows, no_exit (rows_loop c i times rows).
Proof.
  induction times as [|ts rest IH]; intros i rows; cbn [rows_loop]; no_exit_tac.
Qed.
#[local] Hint Resolve no_exit_rows_loop : no_exit.

Lemma no_exit_comprehension {A B} (f : A -> result B) (l : list A) :
  (forall x, no_exit (f x)) -> no_exit (comprehension f l).
Proof.
  intros Hf. induction l as [|x rest IH]; cbn [comprehension]; no_exit_tac.
Qed.

Lemma no_exit_station_field (st F : value) (k : string) :
  no_exit (station_field st F k).
Proof. unfold station_field, dict_get_value. no_exit_tac. Qed.
#[local] Hint Resolve no_exit_station_field : no_exit.

Lemma no_exit_read_station (F st : value) : no_exit (read_station F st).
Proof. unfold read_station. no_exit_tac. Qed.
#[local] Hint Resolve no_exit_read_station : no_exit.

Lemma no_exit_lines_get (lines : gmap string dict) (ln : value) :
  no_exit (lines_get lines ln).
Proof. unfold lines_get. no_exit_tac. Qed.
#[local] Hint Resolve no_exit_lines_get : no_exit.

Lemma no_exit_headway_pattern (d : dict) (k : string) :
  no_exit (headway_pattern d k).
Proof. unfold headway_pattern. no_exit_tac. Qed.
#[local] Hint Resolve no_exit_headway_pattern : no_exit.

Lemma no_exit_py_lower (v : value) : no_exit (py_lower v).
Proof. unfold py_lower. no_exit_tac. Qed.
#[local] Hint Resolve no_exit_py_lower : no_exit.

Lemma M_no_exit_lift {A} (r : result A) : no_exit r -> M_no_exit (lift r).
Proof. intros H s res s' [= <- <-]. exact H. Qed.

Lemma M_no_exit_ret {A} (a : A) : M_no_exit (mret a).
Proof. intros s res s' [= <- <-]. discriminate. Qed.

Lemma M_no_exit_bind {A B} (m : M A) (f : A -> M B) :
  M_no_exit m -> (forall a, M_no_exit (f a)) -> M_no_exit (m ≫= f).
Proof.
  intros Hm Hf s res s' H.
  apply bind_run in H as [(a & s1 & _ & H) | (e & H & ->)].
  - exact (Hf a _ _ _ H).
  - intros [= ->]. exact (Hm _ _ _ H eq_refl).
Qed.

Lemma M_no_exit_emit (e : event) : M_no_exit (emit e).
Proof. intros s res s' [= <- <-]. discriminate. Qed.

Lemma M_no_exit_append_chunk (df : DataFrame) : M_no_exit (append_chunk df).
Proof. intros s res s' [= <- <-]. discriminate. Qed.

Lemma M_no_exit_for_each {A} (body : A -> M unit) (l : list A) :
  (forall x, M_no_exit (body x)) -> M_no_exit (for_each l body).
Proof.
  intros Hb. induction l as [|x rest IH]; cbn [for_each].
  - apply M_no_exit_ret.
  - apply M_no_exit_bind; auto.
Qed.

Ltac M_no_exit_step :=
  first
    [ apply M_no_exit_ret
    | apply M_no_exit_emit
    | apply M_no_exit_append_chunk
    | apply M_no_exit_lift; solve [no_exit_tac]
    | apply M_no_exit_bind; [|intros ?]
    | match goal with
      | |- M_no_exit (match ?x with _ => _ end) => destruct x
      | |- M_no_exit (if ?x then _ else _) => destruct x
      end ].

Lemma M_no_exit_process_line (lines : gmap string dict)
    (times : list Timestamp) (dwell : value) (info : station_info)
    (lnv : value) :
  M_no_exit (process_line lines times dwell info lnv).
Proof. unfold process_line. repeat M_no_exit_step. Qed.

Lemma M_no_exit_process_station (F : value) (lines : gmap string dict)
    (times : list Timestamp) (dwell : value) (st : value) :
  M_no_exit (process_station F lines times dwell st).
Proof.
  unfold process_station. repeat M_no_exit_step.
  - apply M_no_exit_lift, no_exit_comprehension. intros x. apply no_exit_py_get.
  - apply M_no_exit_for_each. intros x. apply M_no_exit_process_line.
Qed.

Lemma M_no_exit_write_and_report (pyarrow : bool) (CFG : value)
    (out_dir : string) (start : Timestamp) (df : DataFrame) :
  M_no_exit (write_and_report pyarrow CFG out_dir start df).
Proof. unfold write_and_report. repeat M_no_exit_step. Qed.

(** The run takes the "no data" exit only when no chunk was collected, so
    only when no row was produced. *)
Lemma no_data_exit_without_rows (now : Timestamp) (pyarrow : bool)
    (CFG stations lines_list : value) :
  (run_main now pyarrow CFG stations lines_list).1 = Raise SystemExit ->
  all_chunks (run_main now pyarrow CFG stations lines_list).2 = []
  /\ produced_rows (run_main now pyarrow CFG stations lines_list).2 = [].
Proof.
  assert (Hnil : forall s, all_chunks s = [] ->
            all_chunks s = [] /\ produced_rows s = []).
  { intros s E. split; [exact E|]. unfold produced_rows. by rewrite E. }
  destruct (run_main now pyarrow CFG stations lines_list) as [res s] eqn:H.
  unfold run_main, main in H. simpl. intros ->. apply Hnil.
  set (s0 := {| events := []; all_chunks := [] |}) in H.
  apply bind_lift_run in H as [(F & _ & H) | (e & _ & _ & ->)]; [|auto].
  apply bind_lift_run in H as [([times start] & _ & H) | (e & _ & _ & ->)];
    [|auto].
  apply bind_lift_run in H as [(x1 & _ & H) | (e & _ & _ & ->)]; [|auto].
  apply bind_lift_run in H as [(x2 & _ & H) | (e & _ & _ & ->)]; [|auto].
  apply bind_lift_run in H as [(lines & _ & H) | (e & _ & _ & ->)]; [|auto].
  apply bind_lift_run in H as [(dwell & _ & H) | (e & _ & _ & ->)]; [|auto].
  apply bind_lift_run in H as [(od & _ & H) | (e & _ & _ & ->)]; [|auto].
  destruct od as [| | | |out_dir| |]; try discriminate H.
  apply bind_run in H as [(u & s1 & Hmk & H) | (e & Hmk & _)];
    [|discriminate Hmk].
  injection Hmk as _ <-.
  apply bind_lift_run in H as [(sts & _ & H) | (e & _ & _ & ->)]; [|auto].
  apply bind_run in H as [(u' & s1 & Hloop & H) | (e & Hloop & He)].
  - unfold get_chunks in H. unfold mbind, M_bind in H.
    destruct (all_chunks s1) eqn:Hch.
    + injection H as <-. exact Hch.
    + apply M_no_exit_write_and_report in H. by destruct H.
  - injection He as <-.
    apply M_no_exit_for_each in Hloop; [by destruct Hloop|].
    intros st. apply M_no_exit_process_station.
Qed.

Lemma write_and_report_Ok (pyarrow : bool) (CFG : value) (out_dir : string)
    (start : Timestamp) (day_df : DataFrame) (s s' : state) :
  write_and_report pyarrow CFG out_dir start day_df s = (Ok tt, s') ->
  day_df <> []
  /\ exists p, last (events s') = Some (PrintSummary day_df)
               /\ (WroteCsv p day_df ∈ events s' \/ WroteParquet p day_df ∈ events s').
Proof.
  unfold write_and_report. intros H.
  apply bind_lift_run in H as [(fmt & Hfmt & H) | (e & _ & ? & _)];
    [|discriminate].
  revert H. unfold mbind, M_bind, mret, M_ret, emit, lift.
  destruct (String.eqb fmt "csv"), pyarrow, day_df as [|r df]; simpl;
    intros [= <-]; (split; [discriminate|]); eexists; simpl;
    (split; [rewrite !last_snoc; reflexivity|]);
    rewrite !elem_of_app, !list_elem_of_singleton; eauto 10.
Qed.

(** A run that ends normally has produced at least one row, has written
    the table of all produced rows and has printed the summary last. *)
Lemma normal_end_has_rows (now : Timestamp) (pyarrow : bool)
    (CFG stations lines_list : value) :
  (run_main now pyarrow CFG stations lines_list).1 = Ok tt ->
  let s := (run_main now pyarrow CFG stations lines_list).2 in
  produced_rows s <> []
  /\ last (events s) = Some (PrintSummary (produced_rows s))
  /\ exists p, WroteCsv p (produced_rows s) ∈ events s
               \/ WroteParquet p (produced_rows s) ∈ events s.
Proof.
  destruct (run_main now pyarrow CFG stations lines_list) as [res s] eqn:H.
  unfold run_main, main in H. simpl. intros ->.
  apply bind_lift_run in H as [(F & _ & H) | (e & _ & ? & _)]; [|discriminate].
  apply bind_lift_run in H as [([times start] & _ & H) | (e & _ & ? & _)];
    [|discriminate].
  apply bind_lift_run in H as [(x1 & _ & H) | (e & _ & ? & _)]; [|discriminate].
  apply bind_lift_run in H as [(x2 & _ & H) | (e & _ & ? & _)]; [|discriminate].
  apply bind_lift_run in H as [(lines & _ & H) | (e & _ & ? & _)]; [|discriminate].
  apply bind_lift_run in H as [(dwell & _ & H) | (e & _ & ? & _)]; [|discriminate].
  apply bind_lift_run in H as [(od & _ & H) | (e & _ & ? & _)]; [|discriminate].
  destruct od as [| | | |out_dir| |]; try discriminate H.
  apply bind_run in H as [(u & s1 & _ & H) | (e & _ & ?)]; [|discriminate].
  apply bind_lift_run in H as [(sts & _ & H) | (e & _ & ? & _)]; [|discriminate].
  apply bind_run in H as [(u' & s2 & _ & H) | (e & _ & ?)]; [|discriminate].
  unfold get_chunks in H. unfold mbind, M_bind in H.
  destruct (all_chunks s2) eqn:Hch; [discriminate H|].
  pose proof (write_and_report_chunks _ _ _ _ _ _ _ _ H) as Hsame.
  apply write_and_report_Ok in H as (Hne & p & Hlast & Hwrote).
  unfold produced_rows. rewrite Hsame, Hch. eauto.
Qed.

(** ** The empty-result exit *)

(** With no station the run exits with the "no data" failure before
    anything is written. *)
Lemma no_station_run_exits :
  no_station_run = (Raise SystemExit, {| events := [MadeDir "out"]; all_chunks := [] |}).
Proof. vm_compute. reflexivity. Qed.

(** C3 at [hours_per_day = 0].  No row is produced, yet the run does not
    take the "no data" exit: [all_chunks] holds one table without rows, so
    the run writes a file with no rows, prints a count of 0 and the path,
    and then fails in the summary with KeyError. *)
Theorem empty_grid_run_misses_no_data_exit :
  produced_rows empty_grid_run.2 = []
  /\ all_chunks empty_grid_run.2 = [[]]
  /\ empty_grid_run.1 <> Raise SystemExit
  /\ empty_grid_run.1 = Raise KeyError
  /\ events empty_grid_run.2
     = [MadeDir "out";
        WroteCsv {| path_dir := "out"; path_day := 0; path_ext := "csv" |} [];
        PrintGeneratedRows 0;
        PrintFile {| path_dir := "out"; path_day := 0; path_ext := "csv" |}].
Proof.
  assert (E : empty_grid_run.1 = Raise KeyError) by (vm_compute; reflexivity).
  split; [vm_compute; reflexivity|].
  split; [vm_compute; reflexivity|].
  split; [rewrite E; discriminate|].
  split; [exact E|].
  vm_compute. reflexivity.
Qed.

(* ===================================================================== *)
(** * Further properties of the script *)
(* ===================================================================== *)
(** ** The time grid *)

Lemma build_timerange_Ok (cfg : value) (now : Timestamp)
    (times : list Timestamp) (start : Timestamp) :
  build_timerange cfg now = Ok (times, start) ->
  exists start_hour hours res_min,
    schedule_int cfg "start_hour" = Ok start_hour
    /\ schedule_int cfg "hours_per_day" = Ok hours
    /\ schedule_int cfg "minute_resolution" = Ok res_min
    /\ 0 <= start_hour < 24 /\ 0 < res_min
    /\ start = ts_date now * us_per_day + start_hour * us_per_hour
    /\ times = (fun k => start + Z.of_nat k * (res_min * us_per_minute))
               <$> seq 0 (Z.to_nat
                     (if start + hours * us_per_hour <=? start then 0
                      else (start + hours * us_per_hour - start
                            + res_min * us_per_minute - 1)
                           / (res_min * us_per_minute))).
Proof.
  unfold build_timerange, schedule_int. intros H.
  apply bind_Ok in H as (tz & _ & H).
  apply bind_Ok in H as (v1 & Hv1 & H).
  apply bind_Ok in H as (v2 & Hv2 & H).
  apply bind_Ok in H as (v3 & Hv3 & H).
  apply bind_Ok in H as (sh & Hsh & H).
  destruct ((0 <=? sh) && (sh <? 24)) eqn:Hrange; [|discriminate]. simpl in H.
  apply bind_Ok in H as (hours & Hhours & H).
  apply bind_Ok in H as (res & Hres & H).
  destruct (Z.leb_spec res 0) as [|Hpos]; [discriminate|].
  injection H as <- <-.
  apply bind_Ok in Hv1 as (s1 & Hs1 & Hv1).
  apply bind_Ok in Hv2 as (s2 & Hs2 & Hv2).
  apply bind_Ok in Hv3 as (s3 & Hs3 & Hv3).
  rewrite Hs1 in Hs2, Hs3. injection Hs2 as <-. injection Hs3 as <-.
  exists sh, hours, res. rewrite Hs1. simpl. rewrite Hv1, Hv2, Hv3. simpl.
  apply andb_prop in Hrange as [?%Z.leb_le ?%Z.ltb_lt].
  repeat split; auto.
Qed.

(** X1.  With int schedule entries and a positive resolution, the grid
    that [build_timerange] returns is the half-open range from [start] to
    [start + hours_per_day] hours in steps of [minute_resolution] minutes:
    its entry [i] is [start + i * minute_resolution] minutes, and an
    instant of that form is in the grid exactly when it is strictly before
    the end. *)
Theorem build_timerange_half_open (cfg : value) (now : Timestamp)
    (times : list Timestamp) (start : Timestamp) (hours res_min : Z)
    (H : build_timerange cfg now = Ok (times, start))
    (Hhours : schedule_int cfg "hours_per_day" = Ok hours)
    (Hres : schedule_int cfg "minute_resolution" = Ok res_min)
    (Hpos : 0 < res_min) :
  forall (i : nat) (ts : Timestamp),
    times !! i = Some ts <->
    ts = start + Z.of_nat i * (res_min * us_per_minute)
    /\ ts < start + hours * us_per_hour.
Proof.
  apply build_timerange_Ok in H
    as (sh & hours' & res & _ & Hh & Hr & _ & _ & _ & ->).
  rewrite Hhours in Hh. injection Hh as <-.
  rewrite Hres in Hr. injection Hr as <-.
  intros i ts. rewrite list_lookup_fmap.
  set (step := res_min * us_per_minute).
  set (span := hours * us_per_hour).
  assert (Hstep : 0 < step) by (unfold step, us_per_minute; lia).
  set (n := if start + span <=? start then 0
            else (start + span - start + step - 1) / step).
  assert (Hn : forall k : Z, 0 <= k -> (k < n <-> k * step < span)).
  { intros k Hk. unfold n. destruct (Z.leb_spec (start + span) start) as [Hle|Hgt].
    - split; [lia|]. intros. nia.
    - replace (start + span - start + step - 1) with (span + step - 1) by lia.
      pose proof (Z.div_mod (span + step - 1) step ltac:(lia)) as Hdm.
      pose proof (Z.mod_pos_bound (span + step - 1) step Hstep) as Hmb.
      split; intros; nia. }
  destruct (decide (i < Z.to_nat n)%nat) as [Hi|Hi].
  - rewrite lookup_seq_lt by assumption. simpl.
    assert (Z.of_nat i < n) by lia.
    split.
    + intros [= <-]. split; [reflexivity|]. apply Hn in H; lia.
    + intros [-> _]. reflexivity.
  - rewrite lookup_seq_ge by lia. simpl. split; [discriminate|].
    intros [-> Hlt]. exfalso. apply Hi.
    assert (Z.of_nat i < n) by (apply Hn; lia). lia.
Qed.

Lemma build_timerange_half_open_witness :
  build_timerange (example_config 6 1 30) 0
  = Ok ([6 * us_per_hour; 6 * us_per_hour + 30 * us_per_minute], 6 * us_per_hour)
  /\ forall (i : nat) (ts : Timestamp),
       [6 * us_per_hour; 6 * us_per_hour + 30 * us_per_minute] !! i = Some ts <->
       ts = 6 * us_per_hour + Z.of_nat i * (30 * us_per_minute)
       /\ ts < 6 * us_per_hour + 1 * us_per_hour.
Proof.
  assert (H : build_timerange (example_config 6 1 30) 0
              = Ok ([6 * us_per_hour; 6 * us_per_hour + 30 * us_per_minute],
                    6 * us_per_hour)) by (vm_compute; reflexivity).
  split; [exact H|].
  apply (build_timerange_half_open _ _ _ _ 1 30 H); [reflexivity | reflexivity | lia].
Defined.

Lemma ts_time_in_range (ts : Timestamp) :
  time_in_range (ts_time ts) /\ time_us (ts_time ts) = ts mod us_per_day.
Proof.
  unfold time_in_range, time_us, ts_time, us_per_day, us_per_hour, us_per_minute.
  simpl.
  set (t := ts mod 86400000000).
  assert (Ht : 0 <= t < 86400000000) by (apply Z.mod_pos_bound; lia).
  pose proof (Z.div_mod t 3600000000 ltac:(lia)) as H1.
  pose proof (Z.mod_pos_bound t 3600000000 ltac:(lia)) as B1.
  pose proof (Z.div_mod t 60000000 ltac:(lia)) as H2.
  pose proof (Z.mod_pos_bound t 60000000 ltac:(lia)) as B2.
  pose proof (Z.div_mod t 1000000 ltac:(lia)) as H3.
  pose proof (Z.mod_pos_bound t 1000000 ltac:(lia)) as B3.
  pose proof (Z.div_mod (t / 60000000) 60 ltac:(lia)) as H4.
  pose proof (Z.mod_pos_bound (t / 60000000) 60 ltac:(lia)) as B4.
  pose proof (Z.div_mod (t / 1000000) 60 ltac:(lia)) as H5.
  pose proof (Z.mod_pos_bound (t / 1000000) 60 ltac:(lia)) as B5.
  assert (E1 : t / 60000000 / 60 = t / 3600000000)
    by (rewrite Z.div_div by lia; reflexivity).
  assert (E2 : t / 1000000 / 60 = t / 60000000)
    by (rewrite Z.div_div by lia; reflexivity).
  rewrite E1 in H4. rewrite E2 in H5.
  assert (0 <= t / 3600000000 < 24).
  { split; [apply Z.div_pos; lia|]. apply Z.div_lt_upper_bound; lia. }
  repeat split; lia.
Qed.

Lemma time_le_time_us (a b : time) :
  time_in_range a -> time_in_range b ->
  (time_le a b = true <-> time_us a <= time_us b).
Proof.
  unfold time_in_range, time_us. intros Ha Hb. rewrite time_le_iff. nia.
Qed.

Lemma ts_time_whole_minute (ts k : Z) :
  ts = k * us_per_minute ->
  second (ts_time ts) = 0 /\ microsecond (ts_time ts) = 0.
Proof.
  intros ->. unfold ts_time, us_per_day, us_per_minute. simpl.
  set (t := (k * 60000000) mod 86400000000).
  assert (Hdiv : t mod 60000000 = 0).
  { unfold t. rewrite (Z.mod_eq (k * 60000000) 86400000000) by lia.
    replace (k * 60000000 - 86400000000 * (k * 60000000 / 86400000000))
      with ((k - 1440 * (k * 60000000 / 86400000000)) * 60000000) by lia.
    apply Z.mod_mul. lia. }
  assert (Hq : exists q, t = q * 60 * 1000000).
  { exists (t / 60000000).
    pose proof (Z.div_mod t 60000000 ltac:(lia)) as Ht. lia. }
  destruct Hq as [q Hq]. clearbody t. subst t.
  rewrite Z.div_mul, !Z.mod_mul by lia. split; reflexivity.
Qed.

(** X2.  With an int start hour, the grid starts on the calendar day of
    the clock at [start_hour]:00:00, and every timestamp of the grid lies
    on a whole minute (its seconds and microseconds are zero) at or after
    the start. *)
Theorem build_timerange_whole_minutes (cfg : value) (now : Timestamp)
    (times : list Timestamp) (start : Timestamp) (start_hour : Z)
    (H : build_timerange cfg now = Ok (times, start))
    (Hstart_hour : schedule_int cfg "start_hour" = Ok start_hour) :
  ts_date start = ts_date now
  /\ ts_time start = Time start_hour 0 0 0
  /\ forall ts, ts ∈ times ->
       start <= ts
       /\ second (ts_time ts) = 0 /\ microsecond (ts_time ts) = 0.
Proof.
  apply build_timerange_Ok in H
    as (sh & hours & res & Hsh & _ & _ & Hrange & Hpos & Hstart & Htimes).
  rewrite Hstart_hour in Hsh. injection Hsh as <-.
  rename start_hour into sh.
  assert (Hmin : start = (ts_date now * 1440 + sh * 60) * us_per_minute)
    by (rewrite Hstart; unfold us_per_day, us_per_hour, us_per_minute; lia).
  split; [|split].
  - rewrite Hstart. unfold ts_date at 1, us_per_day, us_per_hour.
    symmetry. apply Z.div_unique with (sh * 3600000000); lia.
  - rewrite Hstart. unfold ts_time.
    assert (E : (ts_date now * us_per_day + sh * us_per_hour) mod us_per_day
                = sh * us_per_hour).
    { rewrite Z.add_comm, Z_mod_plus_full. apply Z.mod_small.
      unfold us_per_day, us_per_hour. lia. }
    rewrite E. unfold us_per_hour, us_per_minute.
    rewrite Z.div_mul by lia.
    replace (sh * 3600000000) with (sh * 60 * 60000000) at 1 by lia.
    rewrite Z.div_mul by lia.
    replace (sh * 3600000000) with (sh * 3600 * 1000000) by lia.
    rewrite Z.div_mul, Z.mod_mul by lia.
    rewrite Z.mod_mul by lia.
    replace (sh * 3600) with (sh * 60 * 60) by lia.
    rewrite Z.mod_mul by lia. reflexivity.
  - intros ts Hts. rewrite Htimes in Hts.
    apply list_elem_of_fmap in Hts as (k & -> & _).
    split.
    + unfold us_per_minute. nia.
    + apply (ts_time_whole_minute _
               (ts_date now * 1440 + sh * 60 + Z.of_nat k * res)).
      rewrite Hmin. lia.
Qed.

Lemma build_timerange_whole_minutes_witness :
  build_timerange (example_config 6 1 30) 0
  = Ok ([6 * us_per_hour; 6 * us_per_hour + 30 * us_per_minute], 6 * us_per_hour)
  /\ ts_time (6 * us_per_hour) = Time 6 0 0 0.
Proof.
  assert (H : build_timerange (example_config 6 1 30) 0
              = Ok ([6 * us_per_hour; 6 * us_per_hour + 30 * us_per_minute],
                    6 * us_per_hour)) by (vm_compute; reflexivity).
  split; [exact H|].
  exact (proj1 (proj2 (build_timerange_whole_minutes _ _ _ _ 6 H eq_refl))).
Defined.

(** ** Windows as ranges of the day *)

Lemma digit_of_range (c : ascii) (x : Z) : digit_of c = Some x -> 0 <= x <= 9.
Proof.
  unfold digit_of.
  destruct ((48 <=? Z.of_nat (nat_of_ascii c)) && (Z.of_nat (nat_of_ascii c) <=? 57))
    eqn:E; [|discriminate].
  intros [= <-]. apply andb_prop in E as [?%Z.leb_le ?%Z.leb_le]. lia.
Qed.

Lemma parse_H_range (s rest : list ascii) (h : Z) :
  parse_H s = Some (h, rest) -> 0 <= h < 24.
Proof.
  unfold parse_H. destruct s as [|a s]; [discriminate|].
  destruct (digit_of a) as [x|] eqn:Hx; [|discriminate].
  apply digit_of_range in Hx.
  destruct s as [|b s]; [intros [= <- _]; lia|].
  destruct (digit_of b) as [y|] eqn:Hy; [|intros [= <- _]; lia].
  apply digit_of_range in Hy.
  destruct ((x =? 2) && (y <=? 3) || (x <=? 1)) eqn:E; [|intros [= <- _]; lia].
  intros [= <- _].
  apply orb_prop in E as [[?%Z.eqb_eq ?%Z.leb_le]%andb_prop | ?%Z.leb_le]; lia.
Qed.

Lemma parse_M_range (s rest : list ascii) (m : Z) :
  parse_M s = Some (m, rest) -> 0 <= m < 60.
Proof.
  unfold parse_M. destruct s as [|a s]; [discriminate|].
  destruct (digit_of a) as [x|] eqn:Hx; [|discriminate].
  apply digit_of_range in Hx.
  destruct s as [|b s]; [intros [= <- _]; lia|].
  destruct (digit_of b) as [y|] eqn:Hy; [|intros [= <- _]; lia].
  apply digit_of_range in Hy.
  destruct (Z.leb_spec x 5); intros [= <- _]; lia.
Qed.

Lemma strptime_HM_range (v : value) (t : time) :
  strptime_HM v = Ok t ->
  0 <= hour t < 24 /\ 0 <= minute t < 60 /\ second t = 0 /\ microsecond t = 0.
Proof.
  unfold strptime_HM. destruct v as [| | | |s| |]; try discriminate.
  destruct (parse_H (list_ascii_of_string s)) as [[h [|c rest]]|] eqn:Hh;
    try discriminate.
  destruct (Ascii.eqb c ":"); [|discriminate].
  destruct (parse_M rest) as [[m [|? ?]]|] eqn:Hm; try discriminate.
  intros [= <-]. simpl.
  apply parse_H_range in Hh. apply parse_M_range in Hm. auto.
Qed.

Lemma window_bounds_range (w : value) (s e : time) :
  window_bounds w = Ok (s, e) ->
  (time_in_range s /\ time_us s = (hour s * 60 + minute s) * us_per_minute)
  /\ (time_in_range e /\ time_us e = (hour e * 60 + minute e) * us_per_minute).
Proof.
  unfold window_bounds. intros H.
  apply bind_Ok in H as (s' & Hs & H). apply bind_Ok in H as (e' & He & H).
  injection H as <- <-.
  apply bind_Ok in Hs as (? & _ & Hs). apply bind_Ok in He as (? & _ & He).
  apply strptime_HM_range in Hs as (? & ? & Hss & Hsu).
  apply strptime_HM_range in He as (? & ? & Hes & Heu).
  unfold time_in_range, time_us, us_per_minute.
  rewrite Hss, Hsu, Hes, Heu. repeat split; lia.
Qed.

(** X3.  A window that parses has its two clock times on whole minutes
    within the day, and a timestamp is inside it exactly when its
    microsecond of the day lies between the start minute and the end
    minute, both included: an instant later than the first microsecond of
    the end minute is outside. *)
Theorem window_membership_by_microsecond (w : value) (s e : time)
    (ts : Timestamp) (Hb : window_bounds w = Ok (s, e)) :
  0 <= hour s < 24 /\ 0 <= minute s < 60
  /\ 0 <= hour e < 24 /\ 0 <= minute e < 60
  /\ (is_peak ts (VList [w]) = Ok true <->
      (hour s * 60 + minute s) * us_per_minute <= ts mod us_per_day
      <= (hour e * 60 + minute e) * us_per_minute).
Proof.
  pose proof (window_bounds_range _ _ _ Hb) as [[Rs Us] [Re Ue]].
  pose proof (ts_time_in_range ts) as [Rt Ut].
  split; [apply Rs|]. split; [apply Rs|]. split; [apply Re|]. split; [apply Re|].
  rewrite is_peak_list. simpl. rewrite Hb. simpl.
  rewrite <- Us, <- Ue, <- Ut.
  rewrite <- (time_le_time_us s (ts_time ts)) by assumption.
  rewrite <- (time_le_time_us (ts_time ts) e) by assumption.
  destruct (time_le s (ts_time ts)), (time_le (ts_time ts) e); simpl;
    intuition congruence.
Qed.

Lemma window_membership_by_microsecond_witness :
  window_bounds morning_window = Ok (Time 7 0 0 0, Time 9 30 0 0)
  /\ is_peak (9 * us_per_hour + 30 * us_per_minute + 1) (VList [morning_window])
     <> Ok true.
Proof.
  split; [reflexivity|].
  destruct (window_membership_by_microsecond morning_window _ _
              (9 * us_per_hour + 30 * us_per_minute + 1) eq_refl)
    as (_ & _ & _ & _ & Hiff).
  intros Hpeak. apply Hiff in Hpeak. vm_compute in Hpeak.
  destruct Hpeak as [_ Hle]. apply Hle. reflexivity.
Defined.

(** X4.  [is_peak] stops at the first window that contains the time-of-day:
    after windows that parse and do not contain it, a window that contains
    it gives true whatever follows, also entries that would not parse; and
    a window that fails to parse before any match makes [is_peak] raise
    that window's error. *)
Theorem is_peak_stops_at_first_match (ts : Timestamp)
    (before after : list value) (w : value)
    (Hmiss : Forall (window_misses (ts_time ts)) before) :
  (in_window (ts_time ts) w ->
   is_peak ts (VList (before ++ w :: after)) = Ok true)
  /\ (forall e, window_bounds w = Raise e ->
        is_peak ts (VList (before ++ w :: after)) = Raise e).
Proof.
  rewrite is_peak_list.
  assert (Hskip : is_peak_loop (ts_time ts) (before ++ w :: after)
                  = is_peak_loop (ts_time ts) (w :: after)).
  { induction Hmiss as [|w' ws (s & e & Hb & Hout) _ IH]; [reflexivity|].
    simpl. rewrite Hb. simpl. rewrite Hout. exact IH. }
  rewrite Hskip. split.
  - intros (s & e & Hb & Hs & He). simpl. rewrite Hb. simpl.
    by rewrite Hs, He.
  - intros e Hb. simpl. by rewrite Hb.
Qed.

Lemma is_peak_stops_at_first_match_witness :
  Forall (window_misses (ts_time (8 * us_per_hour))) [night_window]
  /\ is_peak (8 * us_per_hour)
       (VList ([night_window] ++ morning_window :: [VStr "not a window"]))
     = Ok true.
Proof.
  assert (Hmiss : Forall (window_misses (ts_time (8 * us_per_hour))) [night_window]).
  { repeat constructor. exists (Time 22 0 0 0), (Time 1 0 0 0).
    split; reflexivity. }
  split; [exact Hmiss|].
  apply (is_peak_stops_at_first_match _ _ [VStr "not a window"] morning_window Hmiss).
  exists (Time 7 0 0 0), (Time 9 30 0 0). repeat split; reflexivity.
Defined.

(** ** The mapping of lines *)

Lemma last_cons_from_option {A} (x : A) (l : list A) :
  last (x :: l) = Some (default x (last l)).
Proof.
  revert x. induction l as [|y l IH]; intros x; [reflexivity|].
  change (last (x :: y :: l)) with (last (y :: l)). rewrite IH.
  simpl. destruct l; reflexivity.
Qed.

Lemma lines_of_lookup (xs : list value) :
  forall (acc lines : gmap string dict) (k : string),
    lines_of xs acc = Ok lines ->
    lines !! k = match last (omap (record_named k) xs) with
                 | Some d => Some d
                 | None => acc !! k
                 end.
Proof.
  induction xs as [|x rest IH]; intros acc lines k H; simpl in H.
  - injection H as <-. reflexivity.
  - apply bind_Ok in H as (name & Hname & H).
    destruct name as [| | | |k0| |]; try discriminate.
    destruct x as [| | | | | |d0]; try discriminate.
    simpl in Hname. destruct (d0 !! "line_name") as [v|] eqn:Hd; [|discriminate].
    injection Hname as ->.
    rewrite (IH _ _ k H). cbn [omap list_omap record_named]. rewrite Hd.
    destruct (String.eqb_spec k0 k) as [->|Hne].
    + rewrite last_cons_from_option, lookup_insert_eq.
      destruct (last (omap (record_named k) rest)); reflexivity.
    + rewrite lookup_insert_ne by assumption. reflexivity.
Qed.

(** X5.  In the mapping built from the line seed, a name is bound to the
    last record of the seed that carries it: a later record with the same
    name replaces an earlier one, and a name that no record carries is not
    bound. *)
Theorem lines_of_last_wins (xs : list value) (lines : gmap string dict)
    (H : lines_of xs ∅ = Ok lines) :
  forall k, lines !! k = last (omap (record_named k) xs).
Proof.
  intros k. rewrite (lines_of_lookup _ _ _ k H), lookup_empty.
  destruct (last (omap (record_named k) xs)); reflexivity.
Qed.

Lemma lines_of_last_wins_witness :
  lines_of duplicate_line_records ∅ = Ok duplicate_line_map
  /\ duplicate_line_map !! "L1"
     = Some {[ "line_name" := VStr "L1"; "train_total_capacity" := VInt 1200 ]}.
Proof.
  assert (H : lines_of duplicate_line_records ∅ = Ok duplicate_line_map)
    by (vm_compute; reflexivity).
  split; [exact H|].
  rewrite (lines_of_last_wins _ _ H "L1"). vm_compute. reflexivity.
Defined.

(** ** The dwell time *)

Lemma make_row_needs_dwell (c : line_ctx) (i : nat) (ts : Timestamp) :
  to_float (dwell_min c) = Raise TypeError -> is_ok (make_row c i ts) = false.
Proof.
  intros Hd. destruct (make_row c i ts) as [r|e] eqn:H; [|reflexivity].
  apply make_row_built in H as [q Hq].
  pose proof (built_est _ _ _ _ _ Hq) as Hest.
  unfold compute_est_present, float_mul in Hest. rewrite Hd in Hest.
  discriminate.
Qed.

(** X6.  The default dwell of 12 stands in only for a missing key: without
    ["assumptions"] the dwell is 12, with an ["assumptions"] dict it is the
    value under ["avg_dwell_min"] or 12 when that key is missing, a null
    ["assumptions"] raises AttributeError, and a null ["avg_dwell_min"] is
    kept as None, with which no row can be built. *)
Theorem dwell_default_only_for_missing_keys (cfg : dict) :
  (cfg !! "assumptions" = None -> configured_dwell (VDict cfg) = Ok (VInt 12))
  /\ (forall a, cfg !! "assumptions" = Some (VDict a) ->
        configured_dwell (VDict cfg)
        = Ok (default (VInt 12) (a !! "avg_dwell_min")))
  /\ (cfg !! "assumptions" = Some VNone ->
        configured_dwell (VDict cfg) = Raise AttributeError)
  /\ (forall a, cfg !! "assumptions" = Some (VDict a) ->
        a !! "avg_dwell_min" = Some VNone ->
        configured_dwell (VDict cfg) = Ok VNone
        /\ forall c i ts, dwell_min c = VNone -> is_ok (make_row c i ts) = false).
Proof.
  unfold configured_dwell, py_get_default.
  split; [intros ->; reflexivity|].
  split; [intros a ->; reflexivity|].
  split; [intros ->; reflexivity|].
  intros a -> Ha. simpl. rewrite Ha. split; [reflexivity|].
  intros c i ts Hc. apply make_row_needs_dwell. by rewrite Hc.
Qed.

Lemma dwell_default_only_for_missing_keys_witness :
  configured_dwell (example_config 6 1 30) = Ok (VInt 12)
  /\ configured_dwell
       (VDict {[ "assumptions" := VDict {[ "avg_dwell_min" := VNone ]} ]})
     = Ok VNone.
Proof.
  split.
  - vm_compute. reflexivity.
  - destruct (dwell_default_only_for_missing_keys
                {[ "assumptions" := VDict {[ "avg_dwell_min" := VNone ]} ]})
      as (_ & _ & _ & H).
    exact (proj1 (H {[ "avg_dwell_min" := VNone ]} eq_refl eq_refl)).
Defined.

(** ** The shape of a chunk *)

Lemma rows_loop_timestamps (c : line_ctx) (times : list Timestamp) :
  forall (i : nat) (rows out : list row),
    rows_loop c i times rows = Ok out ->
    timestamp <$> out = (timestamp <$> rows) ++ times.
Proof.
  induction times as [|ts rest IH]; intros i rows out H; simpl in H.
  - injection H as <-. by rewrite app_nil_r.
  - apply bind_Ok in H as (r & Hr & H). apply IH in H. rewrite H.
    apply make_row_built in Hr as [q Hq].
    rewrite fmap_app, <- app_assoc. simpl.
    by rewrite (built_timestamp _ _ _ _ _ Hq).
Qed.

(** X7.  Every chunk a run collects is the table of one (station, line)
    pair over the whole grid: it has one row per timestamp of the grid, in
    the order of the grid, and all its rows carry the same station code,
    station name, line name and train capacity. *)
Theorem chunk_is_one_pair_over_grid (now : Timestamp) (pyarrow : bool)
    (CFG stations lines_list : value)
    (times : list Timestamp) (start : Timestamp) (df : DataFrame)
    (Hgrid : build_timerange CFG now = Ok (times, start))
    (Hdf : df ∈ all_chunks (run_main now pyarrow CFG stations lines_list).2) :
  timestamp <$> df = times
  /\ exists code name ln cap,
       forall r, r ∈ df ->
         station_code r = code /\ station_name r = name
         /\ line_name r = ln /\ row_train_capacity r = cap.
Proof.
  destruct (run_main_chunks now pyarrow CFG stations lines_list)
    as [Hnil | (F & lines & times' & start' & dwell & sts & Hsetup & Hok)].
  { rewrite Hnil in Hdf. by apply elem_of_nil in Hdf. }
  pose proof (setup_grid _ _ _ _ _ _ _ _ _ _ Hsetup) as Hgrid'.
  rewrite Hgrid in Hgrid'. injection Hgrid' as <- <-.
  unfold chunks_ok in Hok. rewrite Forall_forall in Hok.
  destruct (Hok _ Hdf) as (c & _ & Hloop).
  split.
  - apply rows_loop_timestamps in Hloop. exact Hloop.
  - exists (st_code (station c)), (st_name (station c)), (ln c), (cap_train c).
    intros r Hr. apply rows_loop_produced in Hloop as [_ Hloop].
    apply Hloop in Hr as (i & ts & q & _ & Hb). destruct Hb. auto.
Qed.

Lemma chunk_is_one_pair_over_grid_witness :
  build_timerange (example_config 6 1 30) 0
  = Ok ([6 * us_per_hour; 6 * us_per_hour + 30 * us_per_minute], 6 * us_per_hour)
  /\ [example_row (6 * us_per_hour);
      example_row (6 * us_per_hour + 30 * us_per_minute)]
     ∈ all_chunks example_run.2
  /\ timestamp <$> [example_row (6 * us_per_hour);
                    example_row (6 * us_per_hour + 30 * us_per_minute)]
     = [6 * us_per_hour; 6 * us_per_hour + 30 * us_per_minute].
Proof.
  assert (Hgrid : build_timerange (example_config 6 1 30) 0
              = Ok ([6 * us_per_hour; 6 * us_per_hour + 30 * us_per_minute],
                    6 * us_per_hour)) by (vm_compute; reflexivity).
  assert (Hdf : [example_row (6 * us_per_hour);
                 example_row (6 * us_per_hour + 30 * us_per_minute)]
                ∈ all_chunks example_run.2).
  { apply list_elem_of_In. vm_compute. left. reflexivity. }
  split; [exact Hgrid|]. split; [exact Hdf|].
  exact (proj1 (chunk_is_one_pair_over_grid 0 true _ _ _ _ _ _ Hgrid Hdf)).
Defined.

(** ** Accounting for the pairs *)

Lemma comprehension_length {A B} (f : A -> result B) (l : list A) (out : list B) :
  comprehension f l = Ok out -> length out = length l.
Proof.
  revert out. induction l as [|x rest IH]; intros out H; simpl in H.
  - by injection H as <-.
  - apply bind_Ok in H as (y & _ & H). apply bind_Ok in H as (ys & Hys & H).
    injection H as <-. simpl. f_equal. by apply IH.
Qed.

Lemma pairs_settled_add_event (w : event) (s : state) :
  is_warning w = true -> pairs_settled (add_event w s) = S (pairs_settled s).
Proof.
  intros Hw. unfold pairs_settled, add_event. simpl.
  rewrite List.filter_app, length_app. simpl. rewrite Hw. simpl. lia.
Qed.

Lemma pairs_settled_add_chunk (df : DataFrame) (s : state) :
  pairs_settled (add_chunk df s) = S (pairs_settled s).
Proof.
  unfold pairs_settled, add_chunk. simpl. rewrite length_app. simpl. lia.
Qed.

Lemma process_line_settles_one (lines : gmap string dict)
    (times : list Timestamp) (dwell : value) (info : station_info)
    (lnv : value) (s s' : state) :
  process_line lines times dwell info lnv s = (Ok tt, s') ->
  pairs_settled s' = S (pairs_settled s).
Proof.
  intros H. apply process_line_outcome in H.
  inversion H as [e | w Hw | k d c rows Hk Hc Hrows]; subst.
  - apply pairs_settled_add_event. destruct Hw as [-> | ->]; reflexivity.
  - apply pairs_settled_add_chunk.
Qed.

Lemma line_loop_settles_all (lines : gmap string dict)
    (times : list Timestamp) (dwell : value) (info : station_info)
    (lns : list value) :
  forall s s',
    for_each lns (process_line lines times dwell info) s = (Ok tt, s') ->
    pairs_settled s' = (pairs_settled s + length lns)%nat.
Proof.
  induction lns as [|lnv rest IH]; intros s s' H; simpl in H.
  - injection H as <-. simpl. lia.
  - apply bind_run in H as [([] & s1 & Hx & H) | (e & _ & ?)]; [|discriminate].
    apply process_line_settles_one in Hx. apply IH in H. simpl. lia.
Qed.

Lemma process_station_settles (F : value) (lines : gmap string dict)
    (times : list Timestamp) (dwell : value) (st : value) (s s' : state) :
  process_station F lines times dwell st s = (Ok tt, s') ->
  pairs_settled s' = (pairs_settled s + station_line_entries F st)%nat.
Proof.
  unfold process_station, station_line_entries. intros H.
  apply bind_lift_run in H as [(info & _ & H) | (e & _ & ? & _)]; [|discriminate].
  apply bind_lift_run in H as [(lf & Hlf & H) | (e & _ & ? & _)]; [|discriminate].
  apply bind_lift_run in H as [(ls & Hls & H) | (e & _ & ? & _)]; [|discriminate].
  apply bind_lift_run in H as [(lns & Hlns & H) | (e & _ & ? & _)]; [|discriminate].
  rewrite Hlf. simpl. rewrite Hls.
  apply comprehension_length in Hlns. rewrite <- Hlns.
  destruct lns as [|l0 lns'].
  - injection H as <-. simpl. lia.
  - apply line_loop_settles_all in H. exact H.
Qed.

Lemma station_loop_settles (F : value) (lines : gmap string dict)
    (times : list Timestamp) (dwell : value) (sts : list value) :
  forall s s',
    for_each sts (process_station F lines times dwell) s = (Ok tt, s') ->
    pairs_settled s'
    = (pairs_settled s + sum_list_with (station_line_entries F) sts)%nat.
Proof.
  induction sts as [|st rest IH]; intros s s' H; simpl in H.
  - injection H as <-. cbn [sum_list_with]. lia.
  - apply bind_run in H as [([] & s1 & Hx & H) | (e & _ & ?)]; [|discriminate].
    apply process_station_settles in Hx. apply IH in H.
    cbn [sum_list_with]. rewrite H, Hx. lia.
Qed.


(** ** The loops only append *)

Lemma extends_refl (s : state) : extends s s.
Proof. exists [], []. rewrite !app_nil_r. auto. Qed.

Lemma extends_trans (s1 s2 s3 : state) :
  extends s1 s2 -> extends s2 s3 -> extends s1 s3.
Proof.
  intros (e1 & c1 & He1 & Hc1 & Hw1) (e2 & c2 & He2 & Hc2 & Hw2).
  exists (e1 ++ e2), (c1 ++ c2).
  rewrite He2, He1, Hc2, Hc1, !app_assoc. split; [reflexivity|].
  split; [reflexivity|]. by apply Forall_app.
Qed.

Lemma process_line_extends (lines : gmap string dict)
    (times : list Timestamp) (dwell : value) (info : station_info)
    (lnv : value) (s s' : state) (res : result unit) :
  process_line lines times dwell info lnv s = (res, s') -> extends s s'.
Proof.
  intros H. apply process_line_outcome in H.
  destruct H as [e | w Hw | k d c rows Hk Hc Hrows].
  - apply extends_refl.
  - exists [w], []. simpl. rewrite app_nil_r. repeat split.
    constructor; [|constructor]. destruct Hw as [-> | ->]; reflexivity.
  - exists [], [rows]. simpl. rewrite app_nil_r. repeat split. constructor.
Qed.

Lemma for_each_extends {A} (body : A -> M unit) (l : list A) :
  (forall x s res s', body x s = (res, s') -> extends s s') ->
  forall s res s', for_each l body s = (res, s') -> extends s s'.
Proof.
  intros Hbody s res s' H.
  apply (for_each_inv (extends s) body l) with (s := s) (res := res);
    [|apply extends_refl|exact H].
  intros x t r t' _ Ht Hx. eapply extends_trans; [exact Ht|]. eapply Hbody, Hx.
Qed.

Lemma process_station_extends (F : value) (lines : gmap string dict)
    (times : list Timestamp) (dwell : value) (st : value) (s s' : state)
    (res : result unit) :
  process_station F lines times dwell st s = (res, s') -> extends s s'.
Proof.
  unfold process_station. intros H.
  apply bind_lift_run in H as [(info & _ & H) | (e & _ & _ & ->)];
    [|apply extends_refl].
  apply bind_lift_run in H as [(lf & _ & H) | (e & _ & _ & ->)];
    [|apply extends_refl].
  apply bind_lift_run in H as [(ls & _ & H) | (e & _ & _ & ->)];
    [|apply extends_refl].
  apply bind_lift_run in H as [(lns & _ & H) | (e & _ & _ & ->)];
    [|apply extends_refl].
  destruct (negb (truthy (VList lns))).
  - injection H as _ <-. apply extends_refl.
  - eapply for_each_extends; [|exact H].
    intros. eapply process_line_extends; eauto.
Qed.

(** X9.  The loops never remove or change what was collected: whether the
    loop over the stations ends normally or raises, the chunks and the
    printed lines it started with are kept in place, and what it adds at
    the end are chunks and warning lines only; a pair that raises part-way
    through the grid leaves the state as it was, with no partial chunk. *)
Theorem loops_only_append (F : value) (lines : gmap string dict)
    (times : list Timestamp) (dwell : value) (sts : list value)
    (s s' : state) (res : result unit)
    (H : for_each sts (process_station F lines times dwell) s = (res, s')) :
  extends s s'
  /\ forall info lnv t e t',
       process_line lines times dwell info lnv t = (Raise e, t') -> t' = t.
Proof.
  split.
  - eapply for_each_extends; [|exact H].
    intros. eapply process_station_extends; eauto.
  - intros info lnv t e t' Hl. apply process_line_outcome in Hl.
    inversion Hl. reflexivity.
Qed.


Lemma loops_only_append_witness :
  extends initial_state
    (for_each [three_line_station]
       (process_station example_fields example_line_map [6 * us_per_hour]
          (VInt 12))
       initial_state).2.
Proof.
  exact (proj1 (loops_only_append example_fields example_line_map
                  [6 * us_per_hour] (VInt 12) [three_line_station]
                  initial_state _ _ (surjective_pairing _))).
Defined.

(** ** The phases of a run *)

Lemma run_main_phases (now : Timestamp) (pyarrow : bool)
    (CFG stations lines_list : value) (res : result unit) (s : state) :
  run_main now pyarrow CFG stations lines_list = (res, s) ->
  (s = initial_state /\ is_ok res = false)
  \/ exists F lines times start dwell out_dir,
       loaded now CFG lines_list F lines times start dwell out_dir
       /\ run_after_setup pyarrow CFG stations F lines times start dwell
            out_dir res s.
Proof.
  unfold run_main, main. fold initial_state. intros H.
  apply bind_lift_run in H as [(F & HF & H) | (e & _ & -> & ->)]; [|auto].
  apply bind_lift_run in H as [([times start] & Hgrid & H) | (e & _ & -> & ->)];
    [|auto].
  apply bind_lift_run in H as [(x1 & _ & H) | (e & _ & -> & ->)]; [|auto].
  apply bind_lift_run in H as [(x2 & _ & H) | (e & _ & -> & ->)]; [|auto].
  apply bind_lift_run in H as [(lines & Hlines & H) | (e & _ & -> & ->)]; [|auto].
  apply bind_lift_run in H as [(dwell & Hdwell & H) | (e & _ & -> & ->)]; [|auto].
  apply bind_lift_run in H as [(od & Hod & H) | (e & _ & -> & ->)]; [|auto].
  destruct od as [| | | |out_dir| |];
    try (unfold lift in H; injection H as <- <-; auto).
  right. exists F, lines, times, start, dwell, out_dir. split.
  { constructor; auto. apply bind_Ok in Hlines as (xs & ? & ?). eauto. }
  apply bind_run in H as [(u & s1 & Hmk & H) | (e & Hmk & _)];
    [|discriminate Hmk].
  injection Hmk as _ <-. fold (add_event (MadeDir out_dir) initial_state) in H.
  apply bind_lift_run in H as [(sts & Hsts & H) | (e & Hsts & -> & ->)];
    [|by apply stations_not_iterable].
  apply bind_run in H as [([] & s1 & Hloop & H) | (e & Hloop & ->)];
    [|by eapply loop_raised].
  unfold get_chunks in H. unfold mbind, M_bind in H.
  destruct (all_chunks s1) as [|df0 dfs] eqn:Hch.
  - injection H as <- <-. by eapply no_data_exit.
  - eapply output_stage; [exact Hsts | exact Hloop | by rewrite Hch |].
    rewrite Hch. exact H.
Qed.

Lemma write_and_report_trace (pyarrow : bool) (CFG : value) (out_dir : string)
    (start : Timestamp) (day_df : DataFrame) (s1 s : state) (res : result unit) :
  write_and_report pyarrow CFG out_dir start day_df s1 = (res, s) ->
  (s = s1 /\ is_ok res = false /\ is_ok (output_format CFG) = false)
  \/ exists fmt,
       output_format CFG = Ok fmt
       /\ all_chunks s = all_chunks s1
       /\ events s
          = events s1 ++ output_trace pyarrow fmt out_dir (ts_date start) day_df
       /\ res = match day_df with [] => Raise KeyError | _ => Ok tt end.
Proof.
  unfold write_and_report. fold (output_format CFG). intros H.
  apply bind_lift_run in H as [(fmt & Hfmt & H) | (e & He & -> & ->)];
    [|left; by rewrite He].
  right. exists fmt. split; [exact Hfmt|].
  revert H. unfold mbind, M_bind, mret, M_ret, emit, lift, output_trace, actual_ext.
  destruct (String.eqb fmt "csv"), pyarrow, day_df as [|r df]; simpl;
    intros [= <- <-]; simpl; rewrite <- ?app_assoc; auto.
Qed.

Lemma no_exit_build_timerange (cfg : value) (now : Timestamp) :
  no_exit (build_timerange cfg now).
Proof. unfold build_timerange, as_int. no_exit_tac. Qed.

Lemma no_exit_lines_of (xs : list value) :
  forall acc, no_exit (lines_of xs acc).
Proof.
  induction xs as [|x rest IH]; intros acc; cbn [lines_of]; no_exit_tac.
Qed.

Lemma no_exit_configured_dwell (CFG : value) : no_exit (configured_dwell CFG).
Proof. unfold configured_dwell, py_get_default. no_exit_tac. Qed.

Lemma run_main_setup_failure (now : Timestamp) (pyarrow : bool)
    (CFG stations lines_list : value) (res : result unit) :
  run_main now pyarrow CFG stations lines_list = (res, initial_state) ->
  is_ok res = false /\ res <> Raise SystemExit.
Proof.
  unfold run_main, main. fold initial_state. intros H.
  assert (Hfail : forall (e : exn), @no_exit unit (Raise e) ->
            is_ok (@Raise unit e) = false /\ @Raise unit e <> Raise SystemExit)
    by (intros e He; split; [reflexivity | exact He]).
  assert (Hlift : forall A (r : result A) e, r = Raise e -> no_exit r ->
            @no_exit unit (Raise e)).
  { intros A r e -> Hr [= ->]. by apply Hr. }
  apply bind_lift_run in H as [(F & HF & H) | (e & He & -> & _)];
    [|apply Hfail; eapply Hlift; [exact He|no_exit_tac]].
  apply bind_lift_run in H as [([times start] & Hgrid & H) | (e & He & -> & _)];
    [|apply Hfail; eapply Hlift; [exact He|apply no_exit_build_timerange]].
  apply bind_lift_run in H as [(x1 & _ & H) | (e & He & -> & _)];
    [|apply Hfail; eapply Hlift; [exact He|no_exit_tac]].
  apply bind_lift_run in H as [(x2 & _ & H) | (e & He & -> & _)];
    [|apply Hfail; eapply Hlift; [exact He|no_exit_tac]].
  apply bind_lift_run in H as [(lines & Hlines & H) | (e & He & -> & _)];
    [|apply Hfail; eapply Hlift; [exact He|no_exit_tac; apply no_exit_lines_of]].
  apply bind_lift_run in H as [(dwell & Hdwell & H) | (e & He & -> & _)];
    [|apply Hfail; eapply Hlift; [exact He|apply no_exit_configured_dwell]].
  apply bind_lift_run in H as [(od & Hod & H) | (e & He & -> & _)];
    [|apply Hfail; eapply Hlift; [exact He|no_exit_tac]].
  destruct od as [| | | |out_dir| |];
    try (unfold lift in H; injection H as <-; split; [reflexivity|discriminate]).
  exfalso.
  apply bind_run in H as [(u & s1 & Hmk & H) | (e & Hmk & _)];
    [|discriminate Hmk].
  injection Hmk as _ <-. fold (add_event (MadeDir out_dir) initial_state) in H.
  assert (Hext : forall r t, (r, t) = (res, initial_state) ->
            extends (add_event (MadeDir out_dir) initial_state) t -> False).
  { intros r t [= _ ->] (ev & ch & Hev & _). destruct ev; discriminate Hev. }
  apply bind_lift_run in H as [(sts & Hsts & H) | (e & Hsts & -> & Hs)].
  - apply bind_run in H as [([] & s1 & Hloop & H) | (e & Hloop & ->)].
    + assert (Hs1 : extends (add_event (MadeDir out_dir) initial_state) s1).
      { eapply for_each_extends; [|exact Hloop].
        intros. eapply process_station_extends; eauto. }
      unfold get_chunks in H. unfold mbind, M_bind in H.
      destruct (all_chunks s1) eqn:Hch.
      * eapply Hext; [exact H | exact Hs1].
      * pose proof (write_and_report_trace _ _ _ _ _ _ _ _ H)
          as [(Heq & _) | (fmt & _ & _ & Hev & _)].
        -- subst s1. eapply (Hext res initial_state eq_refl Hs1).
        -- destruct Hs1 as (ev & ch & Hev1 & _). rewrite Hev1 in Hev.
           simpl in Hev. discriminate Hev.
    + assert (Hs1 : extends (add_event (MadeDir out_dir) initial_state)
                      initial_state).
      { eapply for_each_extends; [|exact Hloop].
        intros. eapply process_station_extends; eauto. }
      eapply (Hext _ _ eq_refl Hs1).
  - discriminate Hs.
Qed.

Lemma loop_state_events (F : value) (lines : gmap string dict)
    (times : list Timestamp) (dwell : value) (sts : list value)
    (out_dir : string) (lres : result unit) (s1 : state) :
  for_each sts (process_station F lines times dwell)
    (add_event (MadeDir out_dir) initial_state) = (lres, s1) ->
  exists warnings,
    events s1 = MadeDir out_dir :: warnings
    /\ Forall (fun e => is_warning e = true) warnings.
Proof.
  intros H.
  assert (Hext : extends (add_event (MadeDir out_dir) initial_state) s1).
  { eapply for_each_extends; [|exact H].
    intros. eapply process_station_extends; eauto. }
  destruct Hext as (ev & ch & Hev & _ & Hw). exists ev. auto.
Qed.

(** The events of a run that got past the loading: the directory, then
    warnings, then nothing more or the output stage over all produced rows. *)
Lemma run_after_setup_events (pyarrow : bool) (CFG stations : value)
    (F : value) (lines : gmap string dict) (times : list Timestamp)
    (start : Timestamp) (dwell : value) (out_dir : string)
    (res : result unit) (s : state) :
  run_after_setup pyarrow CFG stations F lines times start dwell out_dir res s ->
  exists warnings tail,
    events s = MadeDir out_dir :: warnings ++ tail
    /\ Forall (fun e => is_warning e = true) warnings
    /\ (tail = []
        \/ exists fmt, output_format CFG = Ok fmt
             /\ tail = output_trace pyarrow fmt out_dir (ts_date start)
                         (produced_rows s)).
Proof.
  intros H. destruct H as [e He | sts e s1 Hsts Hloop | sts s1 Hsts Hloop Hch
                          | sts s1 s res Hsts Hloop Hch Hout].
  - exists [], []. simpl. auto.
  - apply loop_state_events in Hloop as (w & Hev & Hw).
    exists w, []. rewrite app_nil_r. auto.
  - apply loop_state_events in Hloop as (w & Hev & Hw).
    exists w, []. rewrite app_nil_r. auto.
  - apply loop_state_events in Hloop as (w & Hev & Hw).
    apply write_and_report_trace in Hout
      as [(-> & _) | (fmt & Hfmt & Hsame & Hev' & _)].
    + exists w, []. rewrite app_nil_r. auto.
    + exists w, (output_trace pyarrow fmt out_dir (ts_date start)
                   (concat (all_chunks s1))).
      rewrite Hev', Hev. split; [reflexivity|]. split; [exact Hw|].
      right. exists fmt. split; [exact Hfmt|].
      unfold produced_rows. by rewrite Hsame.
Qed.

Lemma output_trace_wrote (pyarrow : bool) (fmt out_dir : string) (day : Z)
    (df df' : DataFrame) (p : out_path) :
  WroteCsv p df' ∈ output_trace pyarrow fmt out_dir day df
  \/ WroteParquet p df' ∈ output_trace pyarrow fmt out_dir day df ->
  df' = df
  /\ p = {| path_dir := out_dir; path_day := day;
            path_ext := actual_ext pyarrow fmt |}
  /\ PrintGeneratedRows (length df) ∈ output_trace pyarrow fmt out_dir day df
  /\ PrintFile p ∈ output_trace pyarrow fmt out_dir day df
  /\ (WroteCsv p df' ∈ output_trace pyarrow fmt out_dir day df ->
      path_ext p = "csv"%string)
  /\ (WroteParquet p df' ∈ output_trace pyarrow fmt out_dir day df ->
      path_ext p = "parquet"%string /\ pyarrow = true).
Proof.
  rewrite !list_elem_of_In. unfold output_trace, actual_ext.
  destruct (String.eqb fmt "csv"), pyarrow, df as [|r df]; simpl;
    intros [H | H];
    repeat match type of H with
      | _ \/ _ => destruct H as [H | H]
      | False => destruct H
      end;
    try discriminate H; injection H as <- <-;
    repeat split; simpl; intuition (try discriminate; auto 10).
Qed.

Lemma not_pre_output_in_tail (e : event) (out_dir : string)
    (warnings tail : list event) :
  e ∈ MadeDir out_dir :: warnings ++ tail ->
  pre_output e = false ->
  Forall (fun e => is_warning e = true) warnings ->
  e ∈ tail.
Proof.
  intros He Hpre Hw. apply elem_of_cons in He as [-> | He]; [discriminate|].
  apply elem_of_app in He as [He | He]; [|exact He].
  rewrite Forall_forall in Hw. apply Hw in He.
  destruct e; discriminate.
Qed.

Lemma wrote_event_in_trace (now : Timestamp) (pyarrow : bool)
    (CFG stations lines_list : value) (e : event) :
  e ∈ events (run_main now pyarrow CFG stations lines_list).2 ->
  pre_output e = false ->
  exists F lines times start dwell out_dir fmt,
    loaded now CFG lines_list F lines times start dwell out_dir
    /\ output_format CFG = Ok fmt
    /\ e ∈ output_trace pyarrow fmt out_dir (ts_date start)
             (produced_rows (run_main now pyarrow CFG stations lines_list).2)
    /\ forall e', e' ∈ output_trace pyarrow fmt out_dir (ts_date start)
                    (produced_rows (run_main now pyarrow CFG stations lines_list).2) ->
         e' ∈ events (run_main now pyarrow CFG stations lines_list).2.
Proof.
  destruct (run_main now pyarrow CFG stations lines_list) as [res s] eqn:Hrun.
  simpl. intros He Hpre.
  apply run_main_phases in Hrun
    as [[-> _] | (F & lines & times & start & dwell & out_dir & Hl & Hrun)].
  { by apply elem_of_nil in He. }
  apply run_after_setup_events in Hrun as (w & tail & Hev & Hw & Htail).
  rewrite Hev in He. apply not_pre_output_in_tail in He; [|assumption..].
  destruct Htail as [-> | (fmt & Hfmt & ->)]; [by apply elem_of_nil in He|].
  exists F, lines, times, start, dwell, out_dir, fmt.
  split; [exact Hl|]. split; [exact Hfmt|]. split; [exact He|].
  intros e' He'. rewrite Hev. apply list_elem_of_further.
  apply elem_of_app. by right.
Qed.

(** X10.  The table a run writes, to CSV or to parquet, holds exactly the
    rows of all collected chunks, in the order of collection, and the row
    count the run prints is the number of these rows. *)
Theorem written_table_is_all_rows (now : Timestamp) (pyarrow : bool)
    (CFG stations lines_list : value) (p : out_path) (df : DataFrame)
    (H : WroteCsv p df ∈ events (run_main now pyarrow CFG stations lines_list).2
         \/ WroteParquet p df
              ∈ events (run_main now pyarrow CFG stations lines_list).2) :
  df = produced_rows (run_main now pyarrow CFG stations lines_list).2
  /\ PrintGeneratedRows
       (length (produced_rows (run_main now pyarrow CFG stations lines_list).2))
     ∈ events (run_main now pyarrow CFG stations lines_list).2.
Proof.
  assert (Hin : exists e, (e = WroteCsv p df \/ e = WroteParquet p df)
                  /\ e ∈ events (run_main now pyarrow CFG stations lines_list).2)
    by (destruct H; eauto).
  destruct Hin as (e & He & Hin).
  apply wrote_event_in_trace in Hin
    as (F & lines & times & start & dwell & out_dir & fmt & _ & _ & Hin & Hback);
    [|destruct He as [-> | ->]; reflexivity].
  assert (Hw : WroteCsv p df ∈ output_trace pyarrow fmt out_dir (ts_date start)
                 (produced_rows (run_main now pyarrow CFG stations lines_list).2)
               \/ WroteParquet p df ∈ output_trace pyarrow fmt out_dir (ts_date start)
                 (produced_rows (run_main now pyarrow CFG stations lines_list).2))
    by (destruct He as [-> | ->]; auto).
  apply output_trace_wrote in Hw as (-> & _ & Hcount & _).
  split; [reflexivity|]. by apply Hback.
Qed.

Lemma written_table_is_all_rows_witness :
  WroteCsv example_path
    [example_row (6 * us_per_hour);
     example_row (6 * us_per_hour + 30 * us_per_minute)]
  ∈ events example_run.2
  /\ [example_row (6 * us_per_hour);
      example_row (6 * us_per_hour + 30 * us_per_minute)]
     = produced_rows example_run.2.
Proof.
  assert (H : WroteCsv example_path
                [example_row (6 * us_per_hour);
                 example_row (6 * us_per_hour + 30 * us_per_minute)]
              ∈ events example_run.2).
  { apply list_elem_of_In. vm_compute. right. left. reflexivity. }
  split; [exact H|].
  exact (proj1 (written_table_is_all_rows 0 true _ _ _ _ _ (or_introl H))).
Defined.

(** X11.  The path of the written file tells what was written: it lies in
    the configured output directory, is stamped with the calendar day of
    the clock, and has the extension "csv" when the table was written as
    CSV and "parquet" when it was written as parquet, which happens only
    when the parquet writer is available; the path the run prints is this
    path. *)
Theorem written_path_matches_format (now : Timestamp) (pyarrow : bool)
    (CFG stations lines_list : value) (p : out_path) (df : DataFrame)
    (H : WroteCsv p df ∈ events (run_main now pyarrow CFG stations lines_list).2
         \/ WroteParquet p df
              ∈ events (run_main now pyarrow CFG stations lines_list).2) :
  exists fmt out_dir,
    output_format CFG = Ok fmt
    /\ configured_out_dir CFG = Ok (VStr out_dir)
    /\ p = {| path_dir := out_dir; path_day := ts_date now;
              path_ext := actual_ext pyarrow fmt |}
    /\ PrintFile p ∈ events (run_main now pyarrow CFG stations lines_list).2
    /\ (WroteCsv p df ∈ events (run_main now pyarrow CFG stations lines_list).2 ->
        path_ext p = "csv"%string)
    /\ (WroteParquet p df
          ∈ events (run_main now pyarrow CFG stations lines_list).2 ->
        path_ext p = "parquet"%string /\ pyarrow = true).
Proof.
  assert (Htrace : forall e, e = WroteCsv p df \/ e = WroteParquet p df ->
            e ∈ events (run_main now pyarrow CFG stations lines_list).2 ->
            exists F lines times start dwell out_dir fmt,
              loaded now CFG lines_list F lines times start dwell out_dir
              /\ output_format CFG = Ok fmt
              /\ e ∈ output_trace pyarrow fmt out_dir (ts_date start)
                   (produced_rows (run_main now pyarrow CFG stations lines_list).2)
              /\ forall e', e' ∈ output_trace pyarrow fmt out_dir (ts_date start)
                   (produced_rows (run_main now pyarrow CFG stations lines_list).2) ->
                   e' ∈ events (run_main now pyarrow CFG stations lines_list).2).
  { intros e He Hin. apply wrote_event_in_trace; [exact Hin|].
    destruct He as [-> | ->]; reflexivity. }
  assert (Hin : exists e, (e = WroteCsv p df \/ e = WroteParquet p df)
                  /\ e ∈ events (run_main now pyarrow CFG stations lines_list).2)
    by (destruct H; eauto).
  destruct Hin as (e & He & Hin).
  destruct (Htrace e He Hin)
    as (F & lines & times & start & dwell & out_dir & fmt & Hl & Hfmt & Hin' & Hback).
  assert (Hw : WroteCsv p df ∈ output_trace pyarrow fmt out_dir (ts_date start)
                 (produced_rows (run_main now pyarrow CFG stations lines_list).2)
               \/ WroteParquet p df ∈ output_trace pyarrow fmt out_dir (ts_date start)
                 (produced_rows (run_main now pyarrow CFG stations lines_list).2))
    by (destruct He as [-> | ->]; auto).
  pose proof (output_trace_wrote _ _ _ _ _ _ _ Hw)
    as (_ & Hp & _ & Hfile & _ & _).
  assert (Hday : ts_date start = ts_date now).
  { pose proof (loaded_grid _ _ _ _ _ _ _ _ _ Hl) as Hg.
    apply build_timerange_Ok in Hg as (sh & ? & ? & _ & _ & _ & Hr & _ & -> & _).
    unfold ts_date at 1, us_per_day, us_per_hour.
    symmetry. apply Z.div_unique with (sh * 3600000000); lia. }
  exists fmt, out_dir. split; [exact Hfmt|].
  split; [exact (loaded_out_dir _ _ _ _ _ _ _ _ _ Hl)|].
  split; [by rewrite <- Hday|].
  split; [by apply Hback|].
  assert (Hsame : forall e1,
            e1 = WroteCsv p df \/ e1 = WroteParquet p df ->
            e1 ∈ events (run_main now pyarrow CFG stations lines_list).2 ->
            e1 ∈ output_trace pyarrow fmt out_dir (ts_date start)
                   (produced_rows (run_main now pyarrow CFG stations lines_list).2)).
  { intros e1 He1 Hin1.
    destruct (Htrace e1 He1 Hin1)
      as (F1 & l1 & t1 & st1 & d1 & o1 & f1 & Hl1 & Hf1 & Hin1' & _).
    rewrite Hfmt in Hf1. injection Hf1 as <-.
    pose proof (loaded_out_dir _ _ _ _ _ _ _ _ _ Hl) as Ho.
    rewrite (loaded_out_dir _ _ _ _ _ _ _ _ _ Hl1) in Ho. injection Ho as ->.
    pose proof (loaded_grid _ _ _ _ _ _ _ _ _ Hl) as Hg.
    rewrite (loaded_grid _ _ _ _ _ _ _ _ _ Hl1) in Hg. injection Hg as -> ->.
    exact Hin1'. }
  split.
  - intros Hc. apply (Hsame _ (or_introl eq_refl)) in Hc.
    pose proof (output_trace_wrote _ _ _ _ _ _ _ (or_introl Hc))
      as (_ & _ & _ & _ & Hext & _).
    exact (Hext Hc).
  - intros Hq. apply (Hsame _ (or_intror eq_refl)) in Hq.
    pose proof (output_trace_wrote _ _ _ _ _ _ _ (or_intror Hq))
      as (_ & _ & _ & _ & _ & Hext).
    exact (Hext Hq).
Qed.

Lemma written_path_matches_format_witness :
  WroteCsv example_path
    [example_row (6 * us_per_hour);
     example_row (6 * us_per_hour + 30 * us_per_minute)]
  ∈ events example_run.2
  /\ PrintFile example_path ∈ events example_run.2.
Proof.
  assert (H : WroteCsv example_path
                [example_row (6 * us_per_hour);
                 example_row (6 * us_per_hour + 30 * us_per_minute)]
              ∈ events example_run.2).
  { apply list_elem_of_In. vm_compute. right. left. reflexivity. }
  split; [exact H|].
  destruct (written_path_matches_format 0 true _ _ _ _ _ (or_introl H))
    as (fmt & out_dir & _ & _ & _ & Hfile & _).
  exact Hfile.
Defined.

(** ** The exits of a run *)

Lemma filter_all_warnings (l : list event) :
  Forall (fun e => is_warning e = true) l -> List.filter is_warning l = l.
Proof.
  induction 1 as [|e l He _ IH]; simpl; [reflexivity|].
  by rewrite He, IH.
Qed.

(** X12.  A run that takes the "no data" exit has created the output
    directory and printed one warning for every entry of every station's
    lines field, and nothing else: no row was produced, no file was
    written and no summary was printed. *)
Theorem no_data_exit_writes_nothing (now : Timestamp) (pyarrow : bool)
    (CFG stations lines_list : value)
    (H : (run_main now pyarrow CFG stations lines_list).1 = Raise SystemExit) :
  produced_rows (run_main now pyarrow CFG stations lines_list).2 = []
  /\ exists F sts out_dir warnings,
       subscript CFG "fields" = Ok F
       /\ py_iter stations = Ok sts
       /\ configured_out_dir CFG = Ok (VStr out_dir)
       /\ events (run_main now pyarrow CFG stations lines_list).2
          = MadeDir out_dir :: warnings
       /\ Forall (fun e => is_warning e = true) warnings
       /\ length warnings = sum_list_with (station_line_entries F) sts.
Proof.
  destruct (run_main now pyarrow CFG stations lines_list) as [res s] eqn:Hrun.
  simpl in *. subst res.
  pose proof Hrun as Hphase.
  apply run_main_phases
    in Hphase as [[Hs _] | (F & lines & times & start & dwell & out_dir & Hl & Hafter)].
  { subst s. apply run_main_setup_failure in Hrun as [_ Hne]. by destruct Hne. }
  inversion Hafter as [e He Hres Hst | sts e s1 Hsts Hloop Hres Hst
                      | sts s1 Hsts Hloop Hch Hres
                      | sts s1 s2 res Hsts Hloop Hch Hout Hres Hst].
  - subst e. by destruct (no_exit_py_iter stations).
  - subst e s1. exfalso.
    eapply (M_no_exit_for_each (process_station F lines times dwell) sts);
      [intros x; apply M_no_exit_process_station | exact Hloop | reflexivity].
  - subst s1. unfold produced_rows. rewrite Hch. split; [reflexivity|].
    pose proof (station_loop_settles _ _ _ _ _ _ _ Hloop) as Hcount.
    apply loop_state_events in Hloop as (w & Hev & Hw).
    exists F, sts, out_dir, w.
    split; [exact (loaded_fields _ _ _ _ _ _ _ _ _ Hl)|].
    split; [exact Hsts|].
    split; [exact (loaded_out_dir _ _ _ _ _ _ _ _ _ Hl)|].
    split; [exact Hev|]. split; [exact Hw|].
    unfold pairs_settled in Hcount. rewrite Hch, Hev in Hcount.
    simpl in Hcount. rewrite (filter_all_warnings _ Hw) in Hcount. exact Hcount.
  - subst res s2. exfalso.
    exact (M_no_exit_write_and_report _ _ _ _ _ _ _ _ Hout eq_refl).
Qed.

Lemma no_data_exit_writes_nothing_witness :
  (run_main 0 true (example_config 6 1 30) (VList [three_line_station]) (VList [])).1
  = Raise SystemExit
  /\ length (events (run_main 0 true (example_config 6 1 30)
                       (VList [three_line_station]) (VList [])).2) = 4%nat.
Proof.
  assert (H : (run_main 0 true (example_config 6 1 30)
                 (VList [three_line_station]) (VList [])).1 = Raise SystemExit)
    by (vm_compute; reflexivity).
  split; [exact H|].
  destruct (no_data_exit_writes_nothing _ _ _ _ _ H)
    as (_ & F & sts & out_dir & w & HF & Hsts & _ & Hev & _ & Hlen).
  rewrite Hev. simpl. rewrite Hlen.
  vm_compute in HF. injection HF as <-.
  vm_compute in Hsts. injection Hsts as <-.
  vm_compute. reflexivity.
Defined.

Lemma output_trace_no_made_dir (pyarrow : bool) (fmt out_dir : string) (day : Z)
    (df : DataFrame) :
  Forall (fun e => is_made_dir e = false) (output_trace pyarrow fmt out_dir day df).
Proof.
  unfold output_trace.
  destruct (String.eqb fmt "csv"), pyarrow, df; simpl; repeat constructor.
Qed.

(** X13.  A run has no effect before the configuration and the line seed
    are loaded: if anything at all was printed, created or written, then
    the field names, the grid, the line mapping, the dwell and the output
    directory were all read without error, the first effect was the
    creation of that output directory, and the directory was created only
    once. *)
Theorem effects_only_after_loading (now : Timestamp) (pyarrow : bool)
    (CFG stations lines_list : value) (e : event)
    (H : e ∈ events (run_main now pyarrow CFG stations lines_list).2) :
  exists F lines times start dwell out_dir rest,
    loaded now CFG lines_list F lines times start dwell out_dir
    /\ events (run_main now pyarrow CFG stations lines_list).2
       = MadeDir out_dir :: rest
    /\ Forall (fun e' => is_made_dir e' = false) rest.
Proof.
  destruct (run_main now pyarrow CFG stations lines_list) as [res s] eqn:Hrun.
  simpl in *.
  apply run_main_phases
    in Hrun as [[-> _] | (F & lines & times & start & dwell & out_dir & Hl & Hafter)].
  { by apply elem_of_nil in H. }
  apply run_after_setup_events in Hafter as (w & tail & Hev & Hw & Htail).
  exists F, lines, times, start, dwell, out_dir, (w ++ tail).
  split; [exact Hl|]. split; [exact Hev|].
  apply Forall_app. split.
  - eapply Forall_impl; [exact Hw|]. intros [] ?; done.
  - destruct Htail as [-> | (fmt & _ & ->)]; [constructor|].
    apply output_trace_no_made_dir.
Qed.

Lemma effects_only_after_loading_witness :
  MadeDir "out" ∈ events example_run.2
  /\ is_ok (build_timerange (example_config 6 1 30) 0) = true.
Proof.
  assert (H : MadeDir "out" ∈ events example_run.2).
  { apply list_elem_of_In. vm_compute. left. reflexivity. }
  split; [exact H|].
  destruct (effects_only_after_loading 0 true _ _ _ _ H)
    as (F & lines & times & start & dwell & out_dir & rest & Hl & _).
  by rewrite (loaded_grid _ _ _ _ _ _ _ _ _ Hl).
Defined.



(** ** The peak flag and the headway of a row *)

Lemma cyclical_pick_number (seq : value) (i : Z) (x : value) (h : float) :
  cyclical_pick seq i = Ok x -> to_float x = Ok h ->
  exists l, seq = VList l /\ x ∈ l.
Proof.
  unfold cyclical_pick. intros H Hx.
  apply bind_Ok in H as (n & Hn & H).
  destruct (n =? 0); [discriminate|].
  destruct seq as [| | | |s|l|d]; try discriminate.
  - simpl in H. destruct (String.get _ s); [|discriminate].
    injection H as <-. discriminate.
  - exists l. split; [reflexivity|]. simpl in H.
    destruct (l !! Z.to_nat (i mod n)) as [y|] eqn:Hy; [|discriminate].
    injection H as <-. by eapply list_elem_of_lookup_2.
Qed.

(** X15.  The peak flag of a row is the classification of the row's own
    timestamp against the peak windows of the row's own line (no windows
    when the line has none, so that all its rows are off-peak), and the
    headway of the row is an entry of the pattern that this flag selects,
    which is a list: the peak pattern for a peak row, the off-peak pattern
    otherwise. *)
Theorem row_peak_flag_selects_pattern (now : Timestamp) (pyarrow : bool)
    (CFG stations lines_list : value) (r : row)
    (Hr : r ∈ produced_rows (run_main now pyarrow CFG stations lines_list).2) :
  exists xs lines k d l,
    py_iter lines_list = Ok xs /\ lines_of xs ∅ = Ok lines
    /\ line_name r = VStr k /\ lines !! k = Some d
    /\ is_peak (timestamp r) (py_or (dict_get d "peak_windows") (VList []))
       = Ok (row_is_peak r)
    /\ (truthy (dict_get d "peak_windows") = false -> row_is_peak r = false)
    /\ headway_pattern d (pattern_key (row_is_peak r)) = Ok (VList l)
    /\ headway_min r ∈ l.
Proof.
  apply run_main_rows in Hr
    as (F & lines & times & start & dwell & sts & c & Hsetup & Hc & Hprod).
  destruct Hc as (st & k & d & Hst & Hinfo & Hc).
  destruct Hprod as (i & ts & q & Hi & Hb).
  destruct (setup_lines _ _ _ _ _ _ _ _ _ _ Hsetup) as (xs & Hxs & Hlines).
  pose proof (built_peak _ _ _ _ _ Hb) as Hpeak.
  pose proof (built_hw _ _ _ _ _ Hb) as Hhw.
  pose proof (built_tph _ _ _ _ _ Hb) as Htph.
  apply compute_tph_Ok in Htph as (h & Hh & _).
  destruct (cyclical_pick_number _ _ _ _ Hhw Hh) as (l & Hl & Hin).
  rewrite <- (built_timestamp _ _ _ _ _ Hb), (ctx_windows _ _ _ _ _ _ Hc),
    <- (built_is_peak _ _ _ _ _ Hb) in Hpeak.
  rewrite <- (built_is_peak _ _ _ _ _ Hb) in Hl.
  rewrite <- (built_headway _ _ _ _ _ Hb) in Hin.
  exists xs, lines, k, d, l.
  split; [exact Hxs|]. split; [exact Hlines|].
  split; [by rewrite (built_line_name _ _ _ _ _ Hb), (ctx_ln _ _ _ _ _ _ Hc)|].
  split; [exact (ctx_lookup _ _ _ _ _ _ Hc)|].
  split; [exact Hpeak|].
  split.
  { intros Hno. unfold py_or in Hpeak. rewrite Hno in Hpeak.
    simpl in Hpeak. by injection Hpeak as <-. }
  split; [|exact Hin].
  rewrite <- Hl. unfold pattern_key.
  destruct (row_is_peak r);
    [exact (ctx_hw_peak _ _ _ _ _ _ Hc) | exact (ctx_hw_off _ _ _ _ _ _ Hc)].
Qed.

Lemma row_peak_flag_selects_pattern_witness :
  windowed_peak_row ∈ produced_rows windowed_run.2
  /\ exists xs lines k d l,
       py_iter windowed_lines = Ok xs /\ lines_of xs ∅ = Ok lines
       /\ line_name windowed_peak_row = VStr k /\ lines !! k = Some d
       /\ is_peak (timestamp windowed_peak_row)
            (py_or (dict_get d "peak_windows") (VList []))
          = Ok (row_is_peak windowed_peak_row)
       /\ (truthy (dict_get d "peak_windows") = false ->
           row_is_peak windowed_peak_row = false)
       /\ headway_pattern d (pattern_key (row_is_peak windowed_peak_row))
          = Ok (VList l)
       /\ headway_min windowed_peak_row ∈ l.
Proof.
  assert (Hin : windowed_peak_row ∈ produced_rows windowed_run.2).
  { apply list_elem_of_In. vm_compute. right. left. reflexivity. }
  split; [exact Hin|].
  exact (row_peak_flag_selects_pattern 0 true _ _ _ _ Hin).
Defined.

(** ** Where the rows come from *)

Lemma read_station_Ok (F st : value) (info : station_info) :
  read_station F st = Ok info ->
  station_field st F "station_code" = Ok (st_code info)
  /\ station_field st F "station_name" = Ok (st_name info).
Proof.
  unfold read_station. intros H.
  apply bind_Ok in H as (a & Ha & H). apply bind_Ok in H as (b & Hb & H).
  apply bind_Ok in H as (c & _ & H). apply bind_Ok in H as (d & _ & H).
  apply bind_Ok in H as (e & _ & H). injection H as <-. auto.
Qed.

Lemma process_station_listed (F : value) (lines : gmap string dict)
    (times : list Timestamp) (dwell : value) (sts : list value)
    (st : value) (s s' : state) (res : result unit) :
  st ∈ sts -> Forall (listed_chunk F times sts) (all_chunks s) ->
  process_station F lines times dwell st s = (res, s') ->
  Forall (listed_chunk F times sts) (all_chunks s').
Proof.
  intros Hst Hs H. unfold process_station in H.
  apply bind_lift_run in H as [(info & Hinfo & H) | (e & _ & -> & ->)];
    [|exact Hs].
  apply bind_lift_run in H as [(lf & Hlf & H) | (e & _ & -> & ->)];
    [|exact Hs].
  apply bind_lift_run in H as [(ls & Hls & H) | (e & _ & -> & ->)];
    [|exact Hs].
  apply bind_lift_run in H as [(lns & Hlns & H) | (e & _ & -> & ->)];
    [|exact Hs].
  assert (Hnames : station_line_names F st = Ok lns).
  { unfold station_line_names. rewrite Hlf. simpl. rewrite Hls. exact Hlns. }
  destruct (negb (truthy (VList lns))).
  { injection H as <- <-. exact Hs. }
  eapply (for_each_inv (fun t => Forall (listed_chunk F times sts) (all_chunks t)));
    [|exact Hs|exact H].
  intros lnv t r t' Hlnv Ht Hrun. apply process_line_outcome in Hrun.
  destruct Hrun as [e | w Hw | k d c rows Hk Hc Hrows]; try exact Ht.
  unfold add_chunk. simpl. apply Forall_app. split; [exact Ht|].
  apply Forall_singleton. exists st, lns, c.
  rewrite (ctx_station _ _ _ _ _ _ Hc), (ctx_ln _ _ _ _ _ _ Hc), <- Hk. auto.
Qed.

Lemma station_loop_listed (F : value) (lines : gmap string dict)
    (times : list Timestamp) (dwell : value) (sts : list value)
    (s s' : state) (res : result unit) :
  Forall (listed_chunk F times sts) (all_chunks s) ->
  for_each sts (process_station F lines times dwell) s = (res, s') ->
  Forall (listed_chunk F times sts) (all_chunks s').
Proof.
  intros Hs H.
  eapply (for_each_inv (fun t => Forall (listed_chunk F times sts) (all_chunks t)));
    [|exact Hs|exact H].
  intros st t r t' Hst Ht Hrun. eapply process_station_listed; eauto.
Qed.

Lemma run_after_setup_listed (pyarrow : bool) (CFG stations : value)
    (F : value) (lines : gmap string dict) (times : list Timestamp)
    (start : Timestamp) (dwell : value) (out_dir : string)
    (res : result unit) (s : state) (df : DataFrame) :
  run_after_setup pyarrow CFG stations F lines times start dwell out_dir res s ->
  df ∈ all_chunks s ->
  exists sts, py_iter stations = Ok sts /\ listed_chunk F times sts df.
Proof.
  assert (Hloop_ok : forall sts lres s1,
            py_iter stations = Ok sts ->
            for_each sts (process_station F lines times dwell)
              (add_event (MadeDir out_dir) initial_state) = (lres, s1) ->
            df ∈ all_chunks s1 ->
            exists sts, py_iter stations = Ok sts /\ listed_chunk F times sts df).
  { intros sts lres s1 Hsts Hloop Hdf. exists sts. split; [exact Hsts|].
    apply station_loop_listed in Hloop; [|constructor].
    rewrite Forall_forall in Hloop. by apply Hloop. }
  intros H Hdf.
  destruct H as [e He | sts e s1 Hsts Hloop | sts s1 Hsts Hloop Hch
                | sts s1 s res Hsts Hloop Hch Hout].
  - by apply elem_of_nil in Hdf.
  - eauto.
  - eauto.
  - apply write_and_report_chunks in Hout. rewrite Hout in Hdf. eauto.
Qed.

(** X16.  Every row of a run comes from a pair that the station seed
    lists: there is a station record in the seed whose code and name,
    read under the configured field names, are the row's station code and
    station name, and whose lines field lists the row's line name. *)
Theorem rows_come_from_listed_pairs (now : Timestamp) (pyarrow : bool)
    (CFG stations lines_list : value) (r : row)
    (Hr : r ∈ produced_rows (run_main now pyarrow CFG stations lines_list).2) :
  exists F sts st lns,
    subscript CFG "fields" = Ok F
    /\ py_iter stations = Ok sts /\ st ∈ sts
    /\ station_field st F "station_code" = Ok (station_code r)
    /\ station_field st F "station_name" = Ok (station_name r)
    /\ station_line_names F st = Ok lns
    /\ line_name r ∈ lns.
Proof.
  destruct (run_main now pyarrow CFG stations lines_list) as [res s] eqn:Hrun.
  simpl in Hr. unfold produced_rows in Hr.
  apply list_elem_of_In, in_concat in Hr as (df & Hdf & Hr).
  apply list_elem_of_In in Hdf. apply list_elem_of_In in Hr.
  apply run_main_phases
    in Hrun as [[-> _] | (F & lines & times & start & dwell & out_dir & Hl & Hafter)].
  { by apply elem_of_nil in Hdf. }
  destruct (run_after_setup_listed _ _ _ _ _ _ _ _ _ _ _ _ Hafter Hdf)
    as (sts & Hsts & st & lns & c & Hst & Hinfo & Hnames & Hln & Hloop).
  apply rows_loop_produced in Hloop as [_ Hloop].
  destruct (Hloop _ Hr) as (i & ts & q & _ & Hb).
  apply read_station_Ok in Hinfo as [Hcode Hname].
  exists F, sts, st, lns.
  rewrite (built_station_code _ _ _ _ _ Hb), (built_station_name _ _ _ _ _ Hb),
    (built_line_name _ _ _ _ _ Hb).
  split; [exact (loaded_fields _ _ _ _ _ _ _ _ _ Hl)|]. auto 10.
Qed.

Lemma rows_come_from_listed_pairs_witness :
  windowed_peak_row ∈ produced_rows windowed_run.2
  /\ exists F sts st lns,
       subscript (example_config 6 2 60) "fields" = Ok F
       /\ py_iter (example_stations VNone "L1") = Ok sts /\ st ∈ sts
       /\ station_field st F "station_code" = Ok (station_code windowed_peak_row)
       /\ station_field st F "station_name" = Ok (station_name windowed_peak_row)
       /\ station_line_names F st = Ok lns
       /\ line_name windowed_peak_row ∈ lns.
Proof.
  assert (Hin : windowed_peak_row ∈ produced_rows windowed_run.2).
  { apply list_elem_of_In. vm_compute. right. left. reflexivity. }
  split; [exact Hin|].
  exact (rows_come_from_listed_pairs 0 true _ _ _ _ Hin).
Defined.
